(** * PortablePDFscanner: a shallow embedding of the capture pipeline

    The repository holds three variants of one document scanner:
    - [test_main.py]     (module [V1]): Tk application, OpenCV camera only,
                         pages kept in memory;
    - [test_main_v2.py]  (module [V2]): the same application with the
                         Raspberry Pi camera, per-page PDF files, document
                         names and the two export strategies;
    - [scanner.py]       (module [Scanner]): the OpenCV-window scanner that
                         writes one PDF per page and merges them.

    Attributes of the Python objects become fields of a record, methods
    become functions on that record, and everything a method obtains from
    outside the program (a camera frame, the answer of a dialog, the clock)
    is an argument of the function.  A raised exception is the [Raise]
    case of [result]; every [try]/[except] of the source is written out. *)

From Stdlib Require Import ZArith Ascii.
From stdpp Require Import base option list gmap strings sorting pretty.

Open Scope string_scope.
Open Scope list_scope.

(** ** Python values the program passes around *)

Inductive exn : Type :=
  | ImportError
  | FileNotFoundError
  | IndexError
  | AttributeError
  | NameError
  | CameraFailure          (* anything raised by the camera backend *)
  | NoFrameAvailable       (* Exception("No frame available") *)
  | CouldNotOpenCamera     (* Exception("Could not open camera") *)
  | DecodeError            (* PIL cannot read the file *)
  | PipFailure.            (* subprocess.check_call(['pip', ...]) failed *)

Inductive result (A : Type) : Type :=
  | Ok (a : A)
  | Raise (e : exn).
Arguments Ok {A} a.
Arguments Raise {A} e.

Definition bind {A B} (r : result A) (k : A -> result B) : result B :=
  match r with
  | Ok a => k a
  | Raise e => Raise e
  end.

Notation "'do' x <- r ; k" := (bind r (fun x => k))
  (at level 10, x name, r at level 100, k at level 200).

Definition of_option {A} (e : exn) (o : option A) : result A :=
  match o with
  | Some a => Ok a
  | None => Raise e
  end.

(** ** numpy arrays and OpenCV

    A frame is a row-major array of interleaved channels, [shape] being
    [(height, width, channels)].  The samples are [uint8], kept as [Z]. *)

Record ndarray : Type := mk_ndarray {
  height : nat;
  width : nat;
  channels : nat;
  px : list (list (list Z))
}.

(** A frame variable of the source holds an array or Python's [None]
    ([cv2.VideoCapture.read] returns [(False, None)] on failure). *)
Inductive pyobj : Type :=
  | PyNone
  | PyArray (a : ndarray).

(** [a[i, j, k]]; out of range raises [IndexError]. *)
Definition item (a : ndarray) (i j k : nat) : result Z :=
  match px a !! i with
  | Some row =>
      match row !! j with
      | Some p => of_option IndexError (p !! k)
      | None => Raise IndexError
      end
  | None => Raise IndexError
  end.

(** [frame.copy()]: a fresh array with the same content; [None] has no
    such method. *)
Definition copy (o : pyobj) : result ndarray :=
  match o with
  | PyArray a => Ok a
  | PyNone => Raise AttributeError
  end.

(** [cv2.cvtColor(_, cv2.COLOR_BGR2RGB)] on a three-channel image:
    channels 0 and 2 of every pixel change places. *)
Definition swap_rb (p : list Z) : list Z :=
  match p with
  | [c0; c1; c2] => [c2; c1; c0]
  | _ => p
  end.

Definition cvtColor_BGR2RGB (a : ndarray) : ndarray :=
  mk_ndarray (height a) (width a) (channels a) (map (map swap_rb) (px a)).

(** ** Page files

    The codec is an external collaborator: a PDF file is kept as the list
    of its pages, a page as the image it was produced from.
    [PageImage a] is a page written by PIL's [Image.save(_, "PDF",
    resolution=300.0)]; [PageDrawn a] is a letter-size reportlab page on
    which [a] was scaled to fit and centred. *)

Inductive pdf_page : Type :=
  | PageImage (a : ndarray)
  | PageDrawn (a : ndarray).

(** ** The file system

    A map from directory path to the files of that directory.  Opening a
    file for writing fails when its directory does not exist. *)

Abbreviation FS := (gmap string (gmap string (list pdf_page))).

(** Split at the last ["/"]; [None] when the path has none. *)
Fixpoint rsplit_slash (p : string) : option (string * string) :=
  match p with
  | "" => None
  | String a p' =>
      match rsplit_slash p' with
      | Some (d, b) => Some (String a d, b)
      | None => if Ascii.eqb a "/"%char then Some ("", p') else None
      end
  end.

Definition split_path (p : string) : string * string :=
  match rsplit_slash p with
  | Some (d, b) => (d, b)
  | None => (".", p)
  end.

(** [os.path.basename] *)
Definition basename (p : string) : string := snd (split_path p).

(** [os.makedirs(d, exist_ok=True)] *)
Definition makedirs (d : string) (fs : FS) : FS :=
  match fs !! d with
  | Some _ => fs
  | None => <[d := ∅]> fs
  end.

(** [os.listdir(d)]: the names in some order. *)
Definition listdir (d : string) (fs : FS) : result (list string) :=
  match fs !! d with
  | Some files => Ok (fst <$> map_to_list files)
  | None => Raise FileNotFoundError
  end.

Definition write_file (p : string) (content : list pdf_page) (fs : FS)
  : result FS :=
  let '(d, b) := split_path p in
  match fs !! d with
  | Some files => Ok (<[d := <[b := content]> files]> fs)
  | None => Raise FileNotFoundError
  end.

Definition read_file (p : string) (fs : FS) : result (list pdf_page) :=
  let '(d, b) := split_path p in
  match fs !! d with
  | Some files => of_option FileNotFoundError (files !! b)
  | None => Raise FileNotFoundError
  end.

(** ** Strings: [str.endswith], [f"{n:03d}"], [sorted] *)

Fixpoint endswith (s suffix : string) : bool :=
  if String.eqb s suffix then true
  else match s with
       | "" => false
       | String _ s' => endswith s' suffix
       end.

Fixpoint zeros (n : nat) : string :=
  match n with
  | 0 => ""
  | S n' => String "0"%char (zeros n')
  end.

(** [f"{n:03d}"]: decimal, padded on the left with zeros to at least three
    characters. *)
Definition fmt_03d (n : nat) : string :=
  let digits := pretty n in
  zeros (3 - String.length digits) +:+ digits.

(** [sorted(names)]: code-point order on strings. *)
Definition sorted (names : list string) : list string :=
  merge_sort String.le names.

(** [sorted([f for f in os.listdir(d) if f.endswith('.pdf')])] *)
Definition pdf_files_in (d : string) (fs : FS) : result (list string) :=
  do names <- listdir d fs;
  Ok (sorted (filter (fun f => endswith f ".pdf" = true) names)).

(** ** Tk: status line, dialogs and [window.after] *)

Inductive status : Type :=
  | Ready
  | StartingCamera
  | CameraStarted
  | CameraError
  | StoppingCamera
  | CameraStopped
  | CapturingImage
  | ImageCaptured
  | CaptureError (e : exn)
  | SavingImage
  | ImageSavedAs (name : string)
  | ImageSavedPage (n : nat)
  | SaveError (e : exn)
  | Cancelling
  | CaptureCancelled
  | AutoModeOn
  | AutoModeOff
  | DocumentNameSet (name : string)
  | NewDocumentStarted (dir : string)
  | ExportingPDF
  | PDFExportedTo (name : string)
  | ExportError (e : exn).

Inductive dialog : Type :=
  | InfoCameraNotActive
  | InfoNoImageToSave
  | InfoNoImagesToExport
  | InfoExported (filename : string)
  | ErrorCamera (e : exn)
  | ErrorExport (e : exn).

(** The methods handed to [window.after]. *)
Inductive callback : Type :=
  | CbUpdateCameraCanvas
  | CbAutoCapture
  | CbAutoSave.

Record App : Type := mkApp {
  camera_active : bool;
  camera : bool;
  picam2 : bool;
  frame_queue : option pyobj;
  stop_event : bool;
  captured_images : list ndarray;
  current_image : option ndarray;
  pages_scanned : nat;
  capturing : bool;
  auto_mode : bool;
  current_doc_name : string;
  output_dir : string;
  status_label : status;
  pages_label : nat;
  messagebox : list dialog;
  after_queue : list (nat * callback);
  clock : nat;
  disk : gmap string (gmap string (list pdf_page))
}.

Definition set_camera_active (v : bool) (s : App) : App :=
  mkApp v (camera s) (picam2 s) (frame_queue s) (stop_event s)
    (captured_images s) (current_image s) (pages_scanned s) (capturing s)
    (auto_mode s) (current_doc_name s) (output_dir s) (status_label s)
    (pages_label s) (messagebox s) (after_queue s) (clock s) (disk s).

Definition set_camera (v : bool) (s : App) : App :=
  mkApp (camera_active s) v (picam2 s) (frame_queue s) (stop_event s)
    (captured_images s) (current_image s) (pages_scanned s) (capturing s)
    (auto_mode s) (current_doc_name s) (output_dir s) (status_label s)
    (pages_label s) (messagebox s) (after_queue s) (clock s) (disk s).

Definition set_picam2 (v : bool) (s : App) : App :=
  mkApp (camera_active s) (camera s) v (frame_queue s) (stop_event s)
    (captured_images s) (current_image s) (pages_scanned s) (capturing s)
    (auto_mode s) (current_doc_name s) (output_dir s) (status_label s)
    (pages_label s) (messagebox s) (after_queue s) (clock s) (disk s).

Definition set_frame_queue (v : option pyobj) (s : App) : App :=
  mkApp (camera_active s) (camera s) (picam2 s) v (stop_event s)
    (captured_images s) (current_image s) (pages_scanned s) (capturing s)
    (auto_mode s) (current_doc_name s) (output_dir s) (status_label s)
    (pages_label s) (messagebox s) (after_queue s) (clock s) (disk s).

Definition set_stop_event (v : bool) (s : App) : App :=
  mkApp (camera_active s) (camera s) (picam2 s) (frame_queue s) v
    (captured_images s) (current_image s) (pages_scanned s) (capturing s)
    (auto_mode s) (current_doc_name s) (output_dir s) (status_label s)
    (pages_label s) (messagebox s) (after_queue s) (clock s) (disk s).

Definition set_captured_images (v : list ndarray) (s : App) : App :=
  mkApp (camera_active s) (camera s) (picam2 s) (frame_queue s)
    (stop_event s) v (current_image s) (pages_scanned s) (capturing s)
    (auto_mode s) (current_doc_name s) (output_dir s) (status_label s)
    (pages_label s) (messagebox s) (after_queue s) (clock s) (disk s).

Definition set_current_image (v : option ndarray) (s : App) : App :=
  mkApp (camera_active s) (camera s) (picam2 s) (frame_queue s)
    (stop_event s) (captured_images s) v (pages_scanned s) (capturing s)
    (auto_mode s) (current_doc_name s) (output_dir s) (status_label s)
    (pages_label s) (messagebox s) (after_queue s) (clock s) (disk s).

Definition set_pages_scanned (v : nat) (s : App) : App :=
  mkApp (camera_active s) (camera s) (picam2 s) (frame_queue s)
    (stop_event s) (captured_images s) (current_image s) v (capturing s)
    (auto_mode s) (current_doc_name s) (output_dir s) (status_label s)
    (pages_label s) (messagebox s) (after_queue s) (clock s) (disk s).

Definition set_capturing (v : bool) (s : App) : App :=
  mkApp (camera_active s) (camera s) (picam2 s) (frame_queue s)
    (stop_event s) (captured_images s) (current_image s) (pages_scanned s) v
    (auto_mode s) (current_doc_name s) (output_dir s) (status_label s)
    (pages_label s) (messagebox s) (after_queue s) (clock s) (disk s).

Definition set_auto_mode (v : bool) (s : App) : App :=
  mkApp (camera_active s) (camera s) (picam2 s) (frame_queue s)
    (stop_event s) (captured_images s) (current_image s) (pages_scanned s)
    (capturing s) v (current_doc_name s) (output_dir s) (status_label s)
    (pages_label s) (messagebox s) (after_queue s) (clock s) (disk s).

Definition set_current_doc_name (v : string) (s : App) : App :=
  mkApp (camera_active s) (camera s) (picam2 s) (frame_queue s)
    (stop_event s) (captured_images s) (current_image s) (pages_scanned s)
    (capturing s) (auto_mode s) v (output_dir s) (status_label s)
    (pages_label s) (messagebox s) (after_queue s) (clock s) (disk s).

Definition set_output_dir (v : string) (s : App) : App :=
  mkApp (camera_active s) (camera s) (picam2 s) (frame_queue s)
    (stop_event s) (captured_images s) (current_image s) (pages_scanned s)
    (capturing s) (auto_mode s) (current_doc_name s) v (status_label s)
    (pages_label s) (messagebox s) (after_queue s) (clock s) (disk s).

Definition set_status_label (v : status) (s : App) : App :=
  mkApp (camera_active s) (camera s) (picam2 s) (frame_queue s)
    (stop_event s) (captured_images s) (current_image s) (pages_scanned s)
    (capturing s) (auto_mode s) (current_doc_name s) (output_dir s) v
    (pages_label s) (messagebox s) (after_queue s) (clock s) (disk s).

Definition set_pages_label (v : nat) (s : App) : App :=
  mkApp (camera_active s) (camera s) (picam2 s) (frame_queue s)
    (stop_event s) (captured_images s) (current_image s) (pages_scanned s)
    (capturing s) (auto_mode s) (current_doc_name s) (output_dir s)
    (status_label s) v (messagebox s) (after_queue s) (clock s) (disk s).

Definition set_messagebox (v : list dialog) (s : App) : App :=
  mkApp (camera_active s) (camera s) (picam2 s) (frame_queue s)
    (stop_event s) (captured_images s) (current_image s) (pages_scanned s)
    (capturing s) (auto_mode s) (current_doc_name s) (output_dir s)
    (status_label s) (pages_label s) v (after_queue s) (clock s) (disk s).

Definition set_after_queue (v : list (nat * callback)) (s : App) : App :=
  mkApp (camera_active s) (camera s) (picam2 s) (frame_queue s)
    (stop_event s) (captured_images s) (current_image s) (pages_scanned s)
    (capturing s) (auto_mode s) (current_doc_name s) (output_dir s)
    (status_label s) (pages_label s) (messagebox s) v (clock s) (disk s).

Definition set_clock (v : nat) (s : App) : App :=
  mkApp (camera_active s) (camera s) (picam2 s) (frame_queue s)
    (stop_event s) (captured_images s) (current_image s) (pages_scanned s)
    (capturing s) (auto_mode s) (current_doc_name s) (output_dir s)
    (status_label s) (pages_label s) (messagebox s) (after_queue s) v
    (disk s).

Definition set_disk (v : gmap string (gmap string (list pdf_page))) (s : App) : App :=
  mkApp (camera_active s) (camera s) (picam2 s) (frame_queue s)
    (stop_event s) (captured_images s) (current_image s) (pages_scanned s)
    (capturing s) (auto_mode s) (current_doc_name s) (output_dir s)
    (status_label s) (pages_label s) (messagebox s) (after_queue s)
    (clock s) v.

(** ** [queue.Queue(maxsize=1)]

    The queue holds at most one item, so it is an [option]. *)

Definition Queue_full {A} (q : option A) : bool :=
  match q with Some _ => true | None => false end.

Definition Queue_empty {A} (q : option A) : bool := negb (Queue_full q).

(** [q.put(x)] waits while the queue is full: [None] says that the caller
    is blocked. *)
Definition Queue_put {A} (x : A) (q : option A) : option (option A) :=
  match q with
  | None => Some (Some x)
  | Some _ => None
  end.

(** [q.get(False)]: the item and the emptied queue; [queue.Empty] (here
    [IndexError]) when there is none. *)
Definition Queue_get_nowait {A} (q : option A) : result (A * option A) :=
  match q with
  | Some x => Ok (x, None)
  | None => Raise IndexError
  end.

(** ** The timers of [window.after]

    An armed timer is its due time and its callback.  The Tk main loop
    runs the timer that is due first, timers due together in the order
    they were armed. *)

Fixpoint pop_min (q : list (nat * callback))
  : option ((nat * callback) * list (nat * callback)) :=
  match q with
  | [] => None
  | e :: q' =>
      match pop_min q' with
      | None => Some (e, [])
      | Some (m, rest) =>
          if (fst e <=? fst m)%nat then Some (e, q') else Some (m, e :: rest)
      end
  end.

Definition set_status (message : status) (s : App) : App :=
  set_status_label message s.

Definition show (d : dialog) (s : App) : App :=
  set_messagebox (messagebox s ++ [d]) s.

Definition window_after (ms : nat) (cb : callback) (s : App) : App :=
  set_after_queue (after_queue s ++ [(clock s + ms, cb)]) s.

(** The thread-local variable [frame] of [camera_stream]: unbound until
    the first assignment. *)
Abbreviation local := (option pyobj).

(** What the first half of the loop body of [camera_stream] ends in. *)
Inductive acquired : Type :=
  | Acquired (frame : local)      (* go on to the queue *)
  | Continue (frame : local)      (* [continue]: back to the loop test *)
  | Sleep (frame : local).        (* on to [time.sleep], through the
                                     [except] clause or a false [if] *)

(** Where the camera thread stands in [camera_stream]. *)
Inductive pc : Type :=
  | AtTest          (* about to evaluate the [while] condition *)
  | AtAcquire       (* about to read a frame from the device *)
  | AtDeliver       (* about to offer the frame to the queue *)
  | AtSleep         (* in [time.sleep(0.01)] *)
  | Exited.         (* the loop was left, the thread is over *)

Record thread : Type := mk_thread { at_pc : pc; frame : local }.

(** The application object and the threads started for [camera_stream]. *)
Record world : Type := mk_world { threads : list thread; app : App }.

(** * test_main_v2.py *)

Module V2.
Section WithBackend.

(** [USING_PICAMERA] is fixed when the module is imported. *)
Variable USING_PICAMERA : bool.

(** [np.array(PILImage.open(path))] on a page file. *)
Variable pil_open : list pdf_page -> result ndarray.

Definition init (t : nat) : App :=
  let output_dir := "scanned_document_" +:+ pretty t in
  mkApp false false false None false [] None 0 false false
    "Document" output_dir Ready 0 [] [] 0 (makedirs output_dir ∅).

(** [opened]: [Picamera2()] came up, or [camera.isOpened()]. *)
Definition start_camera (opened : bool) (s : App) : App :=
  if camera_active s then s
  else
    let s := set_status StartingCamera s in
    let s := if USING_PICAMERA
             then if opened then set_picam2 true s else s
             else set_camera true s in
    if opened then
      let s := set_camera_active true s in
      let s := set_stop_event false s in
      set_status CameraStarted s
    else
      let e := if USING_PICAMERA then CameraFailure
               else CouldNotOpenCamera in
      set_status CameraError (show (ErrorCamera e) s).

(** The loop test of [camera_stream]. *)
Definition camera_stream_test (s : App) : bool :=
  camera_active s && negb (stop_event s).

(** Lines 174-184: [lores] is what [capture_array("lores")] gives,
    [read] what [camera.read()] gives. *)
Definition acquire (lores : result ndarray) (read : bool * pyobj)
    (frame : local) (s : App) : acquired :=
  if USING_PICAMERA && picam2 s then
    match lores with
    | Ok a => Acquired (Some (PyArray a))
    | Raise _ => Sleep frame
    end
  else if camera s then
    let '(ret, fr) := read in
    if negb ret then Continue (Some fr)
    else match fr with
         | PyArray a => Acquired (Some (PyArray (cvtColor_BGR2RGB a)))
         | PyNone => Sleep (Some fr)
         end
  else Acquired frame.

(** Lines 186-196; [None] when the thread is blocked in [put]. *)
Definition deliver (frame : local) (s : App) : option (result App) :=
  let queued : option (result App) :=
    if Queue_full (frame_queue s) then Some (Ok s)
    else match frame with
         | None => Some (Raise NameError)
         | Some fr =>
             match Queue_put fr (frame_queue s) with
             | Some q => Some (Ok (set_frame_queue q s))
             | None => None
             end
         end in
  match queued with
  | Some (Ok s) =>
      let s := window_after 1 CbUpdateCameraCanvas s in
      if auto_mode s && negb (capturing s)
      then Some (Ok (window_after 100 CbAutoCapture (set_capturing true s)))
      else Some (Ok s)
  | other => other
  end.

(** One pass through the body of the [while] loop of [camera_stream];
    [None] when the thread is blocked. *)
Definition camera_stream_body (lores : result ndarray)
    (read : bool * pyobj) (frame : local) (s : App)
  : option (local * App) :=
  match acquire lores read frame s with
  | Acquired frame' =>
      match deliver frame' s with
      | Some (Ok s') => Some (frame', s')
      | Some (Raise _) => Some (frame', s)
      | None => None
      end
  | Continue frame' => Some (frame', s)
  | Sleep frame' => Some (frame', s)
  end.

Definition update_camera_canvas (s : App) : App :=
  if negb (Queue_empty (frame_queue s)) then
    match Queue_get_nowait (frame_queue s) with
    | Ok (_, q) => set_frame_queue q s
    | Raise _ => s
    end
  else s.

Definition stop_camera (s : App) : App :=
  if negb (camera_active s) then s
  else
    let s := set_status StoppingCamera s in
    let s := set_camera_active false s in
    let s := set_stop_event true s in
    let s := if USING_PICAMERA && picam2 s then set_picam2 false s
             else if camera s then set_camera false s
             else s in
    set_status CameraStopped s.

(** [main] is what [capture_array("main")] gives. *)
Definition capture_image (main : result ndarray) (s : App) : App :=
  if negb (camera_active s) then show InfoCameraNotActive s
  else
    let s := set_status CapturingImage s in
    let got : result (pyobj * App) :=
      if USING_PICAMERA && picam2 s then
        do a <- main; Ok (PyArray a, s)
      else if negb (Queue_empty (frame_queue s)) then
        do xq <- Queue_get_nowait (frame_queue s);
        Ok (fst xq, set_frame_queue (snd xq) s)
      else Raise NoFrameAvailable in
    match got with
    | Ok (frame, s) =>
        match copy frame with
        | Ok a => set_status ImageCaptured (set_current_image (Some a) s)
        | Raise e => set_status (CaptureError e) s
        end
    | Raise e => set_status (CaptureError e) s
    end.

(** Lines 336-340 of [save_as_pdf]: the array handed to PIL. *)
Definition as_rgb (image_array : ndarray) : result ndarray :=
  if (channels image_array =? 3)%nat then
    do c0 <- item image_array 0 0 0;
    do c2 <- item image_array 0 0 2;
    if (c0 >? c2)%Z then Ok (cvtColor_BGR2RGB image_array)
    else Ok image_array
  else Ok image_array.

Definition save_as_pdf (image_array : ndarray) (filename : string)
    (fs : FS) : result FS :=
  do image_array <- as_rgb image_array;
  write_file filename [PageImage image_array] fs.

Definition page_path (s : App) : string :=
  output_dir s +:+ "/" +:+ current_doc_name s +:+ "_"
    +:+ fmt_03d (pages_scanned s) +:+ ".pdf".

Definition save_image (s : App) : App :=
  match current_image s with
  | None => show InfoNoImageToSave s
  | Some img =>
      let s := set_status SavingImage s in
      let s := set_captured_images (captured_images s ++ [img]) s in
      let s := set_pages_scanned (pages_scanned s + 1) s in
      let file_path := page_path s in
      match save_as_pdf img file_path (disk s) with
      | Ok fs =>
          let s := set_disk fs s in
          let s := set_pages_label (pages_scanned s) s in
          let s := set_current_image None s in
          let s := set_status (ImageSavedAs (basename file_path)) s in
          if auto_mode s then set_capturing false s else s
      | Raise e => set_status (SaveError e) s
      end
  end.

Definition cancel_capture (s : App) : App :=
  match current_image s with
  | None => s
  | Some _ =>
      let s := set_status Cancelling s in
      let s := set_current_image None s in
      let s := set_status CaptureCancelled s in
      if auto_mode s then set_capturing false s else s
  end.

Definition toggle_auto_mode (s : App) : App :=
  let s := set_auto_mode (negb (auto_mode s)) s in
  if auto_mode s then set_capturing false (set_status AutoModeOn s)
  else set_status AutoModeOff s.

Definition auto_save (s : App) : App :=
  match current_image s with
  | Some _ => save_image s
  | None => s
  end.

Definition auto_capture (main : result ndarray) (s : App) : App :=
  if negb (auto_mode s) || negb (camera_active s)
  then set_capturing false s
  else
    let got : result (option (pyobj * App)) :=
      if USING_PICAMERA && picam2 s then
        do a <- main; Ok (Some (PyArray a, s))
      else if negb (Queue_empty (frame_queue s)) then
        do xq <- Queue_get_nowait (frame_queue s);
        Ok (Some (fst xq, set_frame_queue (snd xq) s))
      else Ok None in
    match got with
    | Ok (Some (frame, s)) =>
        match copy frame with
        | Ok a => window_after 2000 CbAutoSave (set_current_image (Some a) s)
        | Raise _ => set_capturing false s
        end
    | Ok None => set_capturing false s
    | Raise _ => set_capturing false s
    end.

(** [answer]: what [simpledialog.askstring] returns. *)
Definition set_document_name (answer : option string) (s : App) : App :=
  match answer with
  | Some name =>
      if String.eqb name "" then s
      else set_status (DocumentNameSet name) (set_current_doc_name name s)
  | None => s
  end.

(** The [for pdf in pdf_files: merger.append(...)] loop. *)
Fixpoint append_all (dir : string) (pdf_files : list string) (fs : FS)
  : result (list pdf_page) :=
  match pdf_files with
  | [] => Ok []
  | pdf :: rest =>
      do pages <- read_file (dir +:+ "/" +:+ pdf) fs;
      do more <- append_all dir rest fs;
      Ok (pages ++ more)
  end.

(** Lines 449-467, the merge of the page files; [pypdf2] says whether
    [find_spec('PyPDF2')] finds the package. *)
Definition merge_with_pypdf2 (pypdf2 : bool) (filename : string)
    (s : App) : result FS :=
  if negb pypdf2 then Raise ImportError
  else
    do pdf_files <- pdf_files_in (output_dir s) (disk s);
    do merged <- append_all (output_dir s) pdf_files (disk s);
    write_file filename merged (disk s).

(** Lines 487-495: a page file that cannot be loaded is skipped. *)
Fixpoint load_pages (dir : string) (pdf_files : list string) (fs : FS)
  : list ndarray :=
  match pdf_files with
  | [] => []
  | pdf :: rest =>
      match bind (read_file (dir +:+ "/" +:+ pdf) fs) pil_open with
      | Ok img_np => img_np :: load_pages dir rest fs
      | Raise _ => load_pages dir rest fs
      end
  end.

(** Lines 477-522, the reportlab rendering. *)
Definition render_with_reportlab (filename : string) (s : App)
  : result FS :=
  do image_list <-
    (match captured_images s with
     | _ :: _ => Ok (captured_images s)
     | [] =>
         do pdf_files <- pdf_files_in (output_dir s) (disk s);
         Ok (load_pages (output_dir s) pdf_files (disk s))
     end);
  write_file filename (PageDrawn <$> image_list) (disk s).

(** [filename]: what [asksaveasfilename] returns, empty when the dialog
    is dismissed. *)
Definition export_pdf (filename : string) (pypdf2 : bool) (s : App)
  : App :=
  if bool_decide (captured_images s = []) && (pages_scanned s =? 0)%nat
  then show InfoNoImagesToExport s
  else if String.eqb filename "" then s
  else
    let s := set_status ExportingPDF s in
    let exported (fs : FS) : App :=
      show (InfoExported filename)
        (set_status (PDFExportedTo (basename filename)) (set_disk fs s)) in
    let fallback : App :=
      match render_with_reportlab filename s with
      | Ok fs => exported fs
      | Raise e => show (ErrorExport e) (set_status (ExportError e) s)
      end in
    if (0 <? pages_scanned s)%nat then
      match merge_with_pypdf2 pypdf2 filename s with
      | Ok fs => exported fs
      | Raise _ => fallback
      end
    else fallback.

(** [yes]: the answer to "Create PDF from scanned pages?"; [t]:
    [int(time.time())]. *)
Definition new_document (yes : bool) (filename : string) (pypdf2 : bool)
    (t : nat) (s : App) : App :=
  let s := if (0 <? pages_scanned s)%nat && yes
           then export_pdf filename pypdf2 s else s in
  let s := set_output_dir ("scanned_document_" +:+ pretty t) s in
  let s := set_disk (makedirs (output_dir s) (disk s)) s in
  let s := set_pages_scanned 0 s in
  let s := set_pages_label (pages_scanned s) s in
  let s := set_captured_images [] s in
  set_status (NewDocumentStarted (output_dir s)) s.

Definition run_callback (cb : callback) (main : result ndarray) (s : App)
  : App :=
  match cb with
  | CbUpdateCameraCanvas => update_camera_canvas s
  | CbAutoCapture => auto_capture main s
  | CbAutoSave => auto_save s
  end.

(** The Tk main loop runs the next due timer, if any is armed. *)
Definition fire_timer (main : result ndarray) (s : App) : App :=
  match pop_min (after_queue s) with
  | Some ((due, cb), rest) =>
      run_callback cb main
        (set_clock (clock s `max` due) (set_after_queue rest s))
  | None => s
  end.

(** One step of a camera thread; [None] when it is blocked. *)
Definition thread_step (lores : result ndarray) (read : bool * pyobj)
    (th : thread) (s : App) : option (thread * App) :=
  match at_pc th with
  | AtTest =>
      let next := if camera_stream_test s then AtAcquire else Exited in
      Some (mk_thread next (frame th), s)
  | AtAcquire =>
      match acquire lores read (frame th) s with
      | Acquired f => Some (mk_thread AtDeliver f, s)
      | Continue f => Some (mk_thread AtTest f, s)
      | Sleep f => Some (mk_thread AtSleep f, s)
      end
  | AtDeliver =>
      match deliver (frame th) s with
      | Some (Ok s') => Some (mk_thread AtSleep (frame th), s')
      | Some (Raise _) => Some (mk_thread AtSleep (frame th), s)
      | None => None
      end
  | AtSleep => Some (mk_thread AtTest (frame th), s)
  | Exited => Some (th, s)
  end.

(** What can happen next: a menu entry or button of the main thread, the
    main loop running a timer, or a camera thread taking a step. *)
Inductive event : Type :=
  | StartCamera (opened : bool)
  | StopCamera
  | Capture (main : result ndarray)
  | Save
  | Cancel
  | ToggleAuto
  | SetDocumentName (answer : option string)
  | NewDocument (yes : bool) (filename : string) (pypdf2 : bool) (t : nat)
  | ExportPDF (filename : string) (pypdf2 : bool)
  | Timer (main : result ndarray)
  | Thread (i : nat) (lores : result ndarray) (read : bool * pyobj).

Definition on_app (f : App -> App) (w : world) : world :=
  mk_world (threads w) (f (app w)).

Definition step (e : event) (w : world) : world :=
  match e with
  | StartCamera opened =>
      let starts := negb (camera_active (app w)) && opened in
      mk_world
        (if starts then threads w ++ [mk_thread AtTest None]
         else threads w)
        (start_camera opened (app w))
  | StopCamera => on_app stop_camera w
  | Capture main => on_app (capture_image main) w
  | Save => on_app save_image w
  | Cancel => on_app cancel_capture w
  | ToggleAuto => on_app toggle_auto_mode w
  | SetDocumentName answer => on_app (set_document_name answer) w
  | NewDocument yes filename pypdf2 t =>
      on_app (new_document yes filename pypdf2 t) w
  | ExportPDF filename pypdf2 => on_app (export_pdf filename pypdf2) w
  | Timer main => on_app (fire_timer main) w
  | Thread i lores read =>
      match threads w !! i with
      | Some th =>
          match thread_step lores read th (app w) with
          | Some (th', s') => mk_world (<[i := th']> (threads w)) s'
          | None => w
          end
      | None => w
      end
  end.

Definition run (trace : list event) (w : world) : world :=
  foldl (fun w e => step e w) w trace.

End WithBackend.
End V2.

(** * test_main.py

    The first variant: OpenCV only, no page files and no document name.
    It uses the attributes of [App] that it has; [picam2],
    [current_doc_name] and [output_dir] are never read or written. *)

Module V1.

Definition init : App :=
  mkApp false false false None false [] None 0 false false
    "" "" Ready 0 [] [] 0 ∅.

Definition start_camera (opened : bool) (s : App) : App :=
  if camera_active s then s
  else
    let s := set_status StartingCamera s in
    let s := set_camera true s in
    if opened then
      let s := set_camera_active true s in
      let s := set_stop_event false s in
      set_status CameraStarted s
    else set_status CameraError (show (ErrorCamera CouldNotOpenCamera) s).

Definition camera_stream_test (s : App) : bool :=
  camera_active s && negb (stop_event s).

(** Lines 142-145. *)
Definition acquire (read : bool * pyobj) (s : App) : acquired :=
  if camera s then
    let '(ret, fr) := read in
    if ret then
      match fr with
      | PyArray a => Acquired (Some (PyArray (cvtColor_BGR2RGB a)))
      | PyNone => Sleep (Some fr)
      end
    else Sleep (Some fr)
  else Sleep None.

(** Lines 147-157; [None] when the thread is blocked in [put]. *)
Definition deliver (rgb_frame : pyobj) (s : App) : option App :=
  let queued : option App :=
    if Queue_full (frame_queue s) then Some s
    else match Queue_put rgb_frame (frame_queue s) with
         | Some q => Some (set_frame_queue q s)
         | None => None
         end in
  match queued with
  | Some s =>
      let s := window_after 1 CbUpdateCameraCanvas s in
      if auto_mode s && negb (capturing s)
      then Some (window_after 100 CbAutoCapture (set_capturing true s))
      else Some s
  | None => None
  end.

Definition camera_stream_body (read : bool * pyobj) (s : App)
  : option App :=
  match acquire read s with
  | Acquired (Some rgb_frame) => deliver rgb_frame s
  | _ => Some s
  end.

Definition update_camera_canvas (s : App) : App :=
  if negb (Queue_empty (frame_queue s)) then
    match Queue_get_nowait (frame_queue s) with
    | Ok (_, q) => set_frame_queue q s
    | Raise _ => s
    end
  else s.

Definition stop_camera (s : App) : App :=
  if negb (camera_active s) then s
  else
    let s := set_status StoppingCamera s in
    let s := set_camera_active false s in
    let s := set_stop_event true s in
    let s := if camera s then set_camera false s else s in
    set_status CameraStopped s.

Definition capture_image (s : App) : App :=
  if negb (camera_active s) || Queue_empty (frame_queue s)
  then show InfoCameraNotActive s
  else
    let s := set_status CapturingImage s in
    match Queue_get_nowait (frame_queue s) with
    | Ok (frame, q) =>
        let s := set_frame_queue q s in
        match copy frame with
        | Ok a => set_status ImageCaptured (set_current_image (Some a) s)
        | Raise e => set_status (CaptureError e) s
        end
    | Raise e => set_status (CaptureError e) s
    end.

Definition save_image (s : App) : App :=
  match current_image s with
  | None => show InfoNoImageToSave s
  | Some img =>
      let s := set_status SavingImage s in
      let s := set_captured_images (captured_images s ++ [img]) s in
      let s := set_pages_scanned (pages_scanned s + 1) s in
      let s := set_pages_label (pages_scanned s) s in
      let s := set_current_image None s in
      let s := set_status (ImageSavedPage (pages_scanned s)) s in
      if auto_mode s then set_capturing false s else s
  end.

Definition cancel_capture (s : App) : App :=
  match current_image s with
  | None => s
  | Some _ =>
      let s := set_status Cancelling s in
      let s := set_current_image None s in
      let s := set_status CaptureCancelled s in
      if auto_mode s then set_capturing false s else s
  end.

Definition toggle_auto_mode (s : App) : App :=
  let s := set_auto_mode (negb (auto_mode s)) s in
  if auto_mode s then set_capturing false (set_status AutoModeOn s)
  else set_status AutoModeOff s.

Definition auto_save (s : App) : App :=
  match current_image s with
  | Some _ => save_image s
  | None => s
  end.

(** No [try] here: an exception of [frame.copy()] leaves the callback
    with the frame already taken from the queue. *)
Definition auto_capture (s : App) : App :=
  if negb (auto_mode s) || negb (camera_active s)
  then set_capturing false s
  else if negb (Queue_empty (frame_queue s)) then
    match Queue_get_nowait (frame_queue s) with
    | Ok (frame, q) =>
        let s := set_frame_queue q s in
        match copy frame with
        | Ok a => window_after 2000 CbAutoSave (set_current_image (Some a) s)
        | Raise _ => s
        end
    | Raise _ => s
    end
  else s.

Definition export_pdf (filename : string) (s : App) : App :=
  match captured_images s with
  | [] => show InfoNoImagesToExport s
  | _ :: _ =>
      if String.eqb filename "" then s
      else
        let s := set_status ExportingPDF s in
        match write_file filename (PageDrawn <$> captured_images s)
                (disk s) with
        | Ok fs =>
            show (InfoExported filename)
              (set_status (PDFExportedTo (basename filename))
                 (set_disk fs s))
        | Raise e => show (ErrorExport e) (set_status (ExportError e) s)
        end
  end.

Definition run_callback (cb : callback) (s : App) : App :=
  match cb with
  | CbUpdateCameraCanvas => update_camera_canvas s
  | CbAutoCapture => auto_capture s
  | CbAutoSave => auto_save s
  end.

Definition fire_timer (s : App) : App :=
  match pop_min (after_queue s) with
  | Some ((due, cb), rest) =>
      run_callback cb
        (set_clock (clock s `max` due) (set_after_queue rest s))
  | None => s
  end.

Definition thread_step (read : bool * pyobj) (th : thread) (s : App)
  : option (thread * App) :=
  match at_pc th with
  | AtTest =>
      let next := if camera_stream_test s then AtAcquire else Exited in
      Some (mk_thread next (frame th), s)
  | AtAcquire =>
      match acquire read s with
      | Acquired f => Some (mk_thread AtDeliver f, s)
      | Continue f => Some (mk_thread AtTest f, s)
      | Sleep f => Some (mk_thread AtSleep f, s)
      end
  | AtDeliver =>
      match frame th with
      | Some rgb_frame =>
          match deliver rgb_frame s with
          | Some s' => Some (mk_thread AtSleep (frame th), s')
          | None => None
          end
      | None => Some (mk_thread AtSleep (frame th), s)
      end
  | AtSleep => Some (mk_thread AtTest (frame th), s)
  | Exited => Some (th, s)
  end.

Inductive event : Type :=
  | StartCamera (opened : bool)
  | StopCamera
  | Capture
  | Save
  | Cancel
  | ToggleAuto
  | ExportPDF (filename : string)
  | Timer
  | Thread (i : nat) (read : bool * pyobj).

Definition on_app (f : App -> App) (w : world) : world :=
  mk_world (threads w) (f (app w)).

Definition step (e : event) (w : world) : world :=
  match e with
  | StartCamera opened =>
      let starts := negb (camera_active (app w)) && opened in
      mk_world
        (if starts then threads w ++ [mk_thread AtTest None]
         else threads w)
        (start_camera opened (app w))
  | StopCamera => on_app stop_camera w
  | Capture => on_app capture_image w
  | Save => on_app save_image w
  | Cancel => on_app cancel_capture w
  | ToggleAuto => on_app toggle_auto_mode w
  | ExportPDF filename => on_app (export_pdf filename) w
  | Timer => on_app fire_timer w
  | Thread i read =>
      match threads w !! i with
      | Some th =>
          match thread_step read th (app w) with
          | Some (th', s') => mk_world (<[i := th']> (threads w)) s'
          | None => w
          end
      | None => w
      end
  end.

Definition run (trace : list event) (w : world) : world :=
  foldl (fun w e => step e w) w trace.

End V1.

(** * scanner.py *)

Module Scanner.

Record SimpleDocumentScanner : Type := mk_scanner {
  current_doc_name : string;
  mouse_x : Z;
  mouse_y : Z;
  output_dir : string;
  page_count : nat;
  disk : FS
}.

Definition create_new_document (t : nat) (s : SimpleDocumentScanner)
  : SimpleDocumentScanner :=
  let output_dir := "document_scan_" +:+ pretty t in
  mk_scanner (current_doc_name s) (mouse_x s) (mouse_y s) output_dir 0
    (makedirs output_dir (disk s)).

Definition init (t : nat) : SimpleDocumentScanner :=
  create_new_document t (mk_scanner "Document" 0 0 "" 0 ∅).

Definition save_as_pdf (image_array : ndarray) (filename : string)
    (fs : FS) : result FS :=
  write_file filename [PageImage (cvtColor_BGR2RGB image_array)] fs.

Definition page_path (s : SimpleDocumentScanner) : string :=
  output_dir s +:+ "/" +:+ current_doc_name s +:+ "_"
    +:+ fmt_03d (page_count s) +:+ ".pdf".

(** [main] is what [capture_array("main")] gives.  The method has no
    [try]: the second component is the exception that leaves it. *)
Definition process_and_save (main : result ndarray)
    (s : SimpleDocumentScanner) : SimpleDocumentScanner * option exn :=
  match main with
  | Raise e => (s, Some e)
  | Ok high_res_frame =>
      let s := mk_scanner (current_doc_name s) (mouse_x s) (mouse_y s)
                 (output_dir s) (page_count s + 1) (disk s) in
      match save_as_pdf high_res_frame (page_path s) (disk s) with
      | Ok fs =>
          (mk_scanner (current_doc_name s) (mouse_x s) (mouse_y s)
             (output_dir s) (page_count s) fs, None)
      | Raise e => (s, Some e)
      end
  end.

Fixpoint append_all (dir : string) (pdf_files : list string) (fs : FS)
  : result (list pdf_page) :=
  match pdf_files with
  | [] => Ok []
  | pdf :: rest =>
      do pages <- read_file (dir +:+ "/" +:+ pdf) fs;
      do more <- append_all dir rest fs;
      Ok (pages ++ more)
  end.

Definition complete_path (s : SimpleDocumentScanner) : string :=
  output_dir s +:+ "/" +:+ current_doc_name s +:+ "_complete.pdf".

(** [pypdf2]: [find_spec('PyPDF2')] finds the package; [pip]: the
    [pip install] succeeds.  The value is what the method returns:
    [None], [True] or [False]. *)
Definition merge_pdfs (pypdf2 pip : bool) (s : SimpleDocumentScanner)
  : SimpleDocumentScanner * option bool :=
  let attempt : result (option FS) :=
    do _ <- (if pypdf2 || pip then Ok () else Raise PipFailure);
    do pdf_files <- pdf_files_in (output_dir s) (disk s);
    match pdf_files with
    | [] => Ok None
    | _ :: _ =>
        do merged <- append_all (output_dir s) pdf_files (disk s);
        do fs <- write_file (complete_path s) merged (disk s);
        Ok (Some fs)
    end in
  match attempt with
  | Ok (Some fs) =>
      (mk_scanner (current_doc_name s) (mouse_x s) (mouse_y s)
         (output_dir s) (page_count s) fs, Some true)
  | Ok None => (s, None)
  | Raise _ => (s, Some false)
  end.

(** The "New Document" button and the [d] key; [merge] is the answer
    of the merge dialog. *)
Definition new_document (merge pypdf2 pip : bool) (t : nat)
    (s : SimpleDocumentScanner) : SimpleDocumentScanner :=
  let s := if (0 <? page_count s)%nat && merge
           then fst (merge_pdfs pypdf2 pip s) else s in
  create_new_document t s.

End Scanner.

(** * Vocabulary of the properties *)

(** The file name of page [i] of the document called [doc]. *)
Definition page_suffix (i : nat) : string := "_" +:+ fmt_03d i +:+ ".pdf".
Definition page_name (doc : string) (i : nat) : string :=
  doc +:+ page_suffix i.

(** The document as the application holds it: where it is written, its
    name, its page counter, its pages in memory, the file system. *)
Definition document (s : App)
  : string * string * nat * list ndarray * FS :=
  (output_dir s, current_doc_name s, pages_scanned s, captured_images s,
   disk s).

(** A document nothing was committed to: counter at zero, an existing and
    empty directory. *)
Definition fresh_document (s : App) : Prop :=
  pages_scanned s = 0 /\ disk s !! output_dir s = Some ∅.

(** No ["/"] in a name. *)
Definition plain_name (name : string) : Prop := rsplit_slash name = None.

(** [commit_all save frames s]: one commit per frame, each frame being
    the pending candidate when [save] runs. *)
Definition commit_all (save : App -> App) (frames : list ndarray) (s : App)
  : App :=
  foldl (fun s img => save (set_current_image (Some img) s)) s frames.

(** A thread taking its next steps on the inputs given, while the main
    thread does nothing. *)
Fixpoint thread_run {I : Type}
    (thread_step : I -> thread -> App -> option (thread * App))
    (inputs : list I) (th : thread) (s : App) : option (thread * App) :=
  match inputs with
  | [] => Some (th, s)
  | i :: inputs' =>
      match thread_step i th s with
      | Some (th', s') => thread_run thread_step inputs' th' s'
      | None => None
      end
  end.

(** The image with the channel order of every pixel reversed. *)
Definition reverse_channels (a : ndarray) : ndarray :=
  mk_ndarray (height a) (width a) (channels a) (map (map reverse) (px a)).

(** Every pixel has [c] channels. *)
Definition uniform_channels (c : nat) (a : ndarray) : Prop :=
  Forall (Forall (fun p => length p = c)) (px a).

(** The pixel at row [i], column [j]. *)
Definition pixel (a : ndarray) (i j : nat) : option (list Z) :=
  match px a !! i with
  | Some row => row !! j
  | None => None
  end.

(** The image a page file holds, for a file of one page. *)
Definition page_image (fs : FS) (dir name : string) : option ndarray :=
  match fs !! dir with
  | Some files =>
      match files !! name with
      | Some [PageImage a] => Some a
      | _ => None
      end
  | None => None
  end.

(** How many steps a camera thread needs at most to leave its loop once
    the loop test has become false. *)
Definition steps_to_exit (p : pc) : nat :=
  match p with
  | Exited => 0
  | AtTest => 1
  | AtSleep => 2
  | AtDeliver => 3
  | AtAcquire => 4
  end.

(** The page counter counts the pages held in memory. *)
Definition counter_matches (s : App) : Prop :=
  length (captured_images s) = pages_scanned s.

(** The names of pages 1 to [n] of [doc], in page order. *)
Definition page_names (doc : string) (n : nat) : list string :=
  page_name doc <$> seq 1 n.

(** Directory [dir] holds one file per element of [stored], named as
    pages 1, 2, ... of [doc], and nothing else. *)
Definition holds_pages (fs : FS) (dir doc : string) (stored : list ndarray)
  : Prop :=
  exists files : gmap string (list pdf_page),
    fs !! dir = Some files
    /\ (forall name,
          is_Some (files !! name) <-> name ∈ page_names doc (length stored))
    /\ (forall i a,
          stored !! i = Some a ->
          files !! page_name doc (S i) = Some [PageImage a]).

(** [scanner.py]: one press of "Capture" per frame. *)
Definition scan_all (frames : list ndarray)
    (s : Scanner.SimpleDocumentScanner) : Scanner.SimpleDocumentScanner :=
  foldl (fun s img => fst (Scanner.process_and_save (Ok img) s)) s frames.

(** * Sample frames and states *)

(** Two 1x2 frames that differ in pixel (0,0) only. *)
Definition frame_low : ndarray :=
  mk_ndarray 1 2 3 [[[1; 0; 2]; [10; 20; 30]]]%Z.
Definition frame_high : ndarray :=
  mk_ndarray 1 2 3 [[[2; 0; 1]; [10; 20; 30]]]%Z.

Definition no_pil (_ : list pdf_page) : result ndarray := Raise DecodeError.

(** The OpenCV camera is running, [frame_low] waits in the queue. *)
Definition streaming (s : App) : App :=
  set_frame_queue (Some (PyArray frame_low))
    (set_camera true (set_camera_active true s)).

(** As [streaming], with [frame_high] as the pending candidate. *)
Definition previewing (s : App) : App :=
  set_current_image (Some frame_high) (streaming s).

(** The Pi camera runs, the document was named ["a/b"] through "Set
    Document Name", and [frame_low] was captured. *)
Definition slash_named : App :=
  V2.capture_image true (Ok frame_low)
    (V2.set_document_name (Some "a/b")
       (V2.start_camera true true (V2.init 0))).

(** Automatic mode on the Pi camera up to the capture of a candidate:
    the camera thread passes its loop once and arms the canvas update and
    [auto_capture]; the main loop runs both timers, the second captures
    [frame_high] and arms [auto_save]. *)
Definition auto_until_candidate : list V2.event :=
  [V2.StartCamera true; V2.ToggleAuto;
   V2.Thread 0 (Ok frame_low) (false, PyNone);
   V2.Thread 0 (Ok frame_low) (false, PyNone);
   V2.Thread 0 (Ok frame_low) (false, PyNone);
   V2.Timer (Ok frame_high);
   V2.Timer (Ok frame_high)].

(** The OpenCV camera thread of [test_main.py] has read a frame and is
    about to offer it to the queue. *)
Definition thread_before_put : list V1.event :=
  [V1.StartCamera true;
   V1.Thread 0 (true, PyArray frame_low);
   V1.Thread 0 (true, PyArray frame_low)].

(** The same for [test_main_v2.py]. *)
Definition thread_before_put_v2 : list V2.event :=
  [V2.StartCamera true;
   V2.Thread 0 (Ok frame_low) (true, PyArray frame_low);
   V2.Thread 0 (Ok frame_low) (true, PyArray frame_low)].

(** A thousand pages saved into one document. *)
Definition thousand_pages : App :=
  commit_all V2.save_image (replicate 1000 frame_low) (V2.init 0).

(** Two pages, the document being renamed between them. *)
Definition renamed_between_pages : list V2.event :=
  [V2.StartCamera true;
   V2.Capture (Ok frame_low); V2.Save;
   V2.SetDocumentName (Some "Appendix");
   V2.Capture (Ok frame_high); V2.Save].

(** * Vocabulary of the further properties *)

(** The page label shows the page counter; the page label has not run
    ahead of the page counter. *)
Definition label_current (s : App) : Prop := pages_label s = pages_scanned s.
Definition label_behind (s : App) : Prop := pages_label s <= pages_scanned s.

(** The content of file [name] of directory [dir], if there is one. *)
Definition file_at (fs : FS) (dir name : string) : option (list pdf_page) :=
  match fs !! dir with
  | Some files => files !! name
  | None => None
  end.

(** Everything of the application but the status line, the dialogs shown
    and the file system. *)
Definition session (s : App) :=
  (camera_active s, camera s, picam2 s, frame_queue s, stop_event s,
   captured_images s, current_image s, pages_scanned s, capturing s,
   auto_mode s, current_doc_name s, output_dir s, pages_label s,
   after_queue s, clock s).

(** The name of the merged file of the document called [doc]. *)
Definition complete_name (doc : string) : string := doc +:+ "_complete.pdf".

(** * scanner.py: the window *)

Module ScannerUI.

(** [cv2.EVENT_LBUTTONDOWN] *)
Definition EVENT_LBUTTONDOWN : Z := 1.

Inductive button : Type :=
  | BtnCapture
  | BtnNewDocument
  | BtnSetName.

(** What the actions of one event take from outside: the frame of
    [capture_array("main")], whether the merge dialog ends in
    [merge_pdfs], whether PyPDF2 is found and whether [pip] succeeds,
    the clock, the line typed at "Enter document name: ". *)
Record inputs : Type := mk_inputs {
  main : result ndarray;
  merge : bool;
  pypdf2 : bool;
  pip : bool;
  now : nat;
  typed : string
}.

(** The [if]/[elif] chain of [mouse_callback], lines 100-111. *)
Definition button_hit (x y : Z) : option button :=
  if ((50 <=? x) && (x <=? 200) && (380 <=? y) && (y <=? 430))%Z
  then Some BtnCapture
  else if ((250 <=? x) && (x <=? 400) && (380 <=? y) && (y <=? 430))%Z
  then Some BtnNewDocument
  else if ((450 <=? x) && (x <=? 600) && (380 <=? y) && (y <=? 430))%Z
  then Some BtnSetName
  else None.

(** [name = input(...); if name: self.current_doc_name = name] *)
Definition set_name (name : string) (s : Scanner.SimpleDocumentScanner)
  : Scanner.SimpleDocumentScanner :=
  if String.eqb name "" then s
  else Scanner.mk_scanner name (Scanner.mouse_x s) (Scanner.mouse_y s)
         (Scanner.output_dir s) (Scanner.page_count s) (Scanner.disk s).

Definition press (b : button) (i : inputs) (s : Scanner.SimpleDocumentScanner)
  : Scanner.SimpleDocumentScanner * option exn :=
  match b with
  | BtnCapture => Scanner.process_and_save (main i) s
  | BtnNewDocument =>
      (Scanner.new_document (merge i) (pypdf2 i) (pip i) (now i) s, None)
  | BtnSetName => (set_name (typed i) s, None)
  end.

Definition mouse_callback (event x y : Z) (i : inputs)
    (s : Scanner.SimpleDocumentScanner)
  : Scanner.SimpleDocumentScanner * option exn :=
  let s := Scanner.mk_scanner (Scanner.current_doc_name s) x y
             (Scanner.output_dir s) (Scanner.page_count s)
             (Scanner.disk s) in
  if (event =? EVENT_LBUTTONDOWN)%Z then
    match button_hit x y with
    | Some b => press b i s
    | None => (s, None)
    end
  else (s, None).

(** What [draw_ui] paints on the copy of the frame.  Colours are BGR
    triples; the font scale is kept in tenths. *)
Inductive drawing : Type :=
  | PutText (text : string) (org : Z * Z) (scale : nat)
      (color : Z * Z * Z) (thickness : Z)
  | Rectangle (pt1 pt2 : Z * Z) (color : Z * Z * Z) (thickness : Z).

Definition draw_ui (s : Scanner.SimpleDocumentScanner) : list drawing :=
  let mouse_x := Scanner.mouse_x s in
  let mouse_y := Scanner.mouse_y s in
  [ PutText "Document Scanner" (10, 30)%Z 7 (0, 255, 0)%Z 2;
    PutText ("Document: " +:+ Scanner.current_doc_name s) (10, 60)%Z 7
      (255, 255, 255)%Z 2;
    PutText ("Pages: " +:+ pretty (Scanner.page_count s)) (10, 90)%Z 7
      (255, 255, 255)%Z 2;
    PutText ("Folder: " +:+ Scanner.output_dir s) (10, 120)%Z 5
      (200, 200, 200)%Z 1;
    Rectangle (50, 380)%Z (200, 430)%Z
      (if ((50 <=? mouse_x) && (mouse_x <=? 200)
           && (380 <=? mouse_y) && (mouse_y <=? 430))%Z
       then (0, 200, 0)%Z else (0, 150, 0)%Z) (-1);
    PutText "Capture" (90, 415)%Z 7 (255, 255, 255)%Z 2;
    Rectangle (250, 380)%Z (400, 430)%Z
      (if ((250 <=? mouse_x) && (mouse_x <=? 400)
           && (380 <=? mouse_y) && (mouse_y <=? 430))%Z
       then (0, 0, 200)%Z else (0, 0, 150)%Z) (-1);
    PutText "New Doc" (290, 415)%Z 7 (255, 255, 255)%Z 2;
    Rectangle (450, 380)%Z (600, 430)%Z
      (if ((450 <=? mouse_x) && (mouse_x <=? 600)
           && (380 <=? mouse_y) && (mouse_y <=? 430))%Z
       then (200, 0, 200)%Z else (150, 0, 150)%Z) (-1);
    PutText "Set Name" (480, 415)%Z 7 (255, 255, 255)%Z 2 ].

(** What the keyboard part of one pass of the loop of [run] ends in. *)
Inductive pass : Type :=
  | Break                       (* ESC: the loop is left *)
  | Next (s : Scanner.SimpleDocumentScanner) (e : option exn).

(** Lines 243-259; [raw] is what [cv2.waitKey(1)] returns and [frame] the
    preview frame of this pass. *)
Definition handle_key (raw : Z) (i : inputs)
    (s : Scanner.SimpleDocumentScanner) : pass :=
  let key := Z.land raw 255 in
  if (key =? 27)%Z then Break
  else if (key =? 32)%Z then
    let r := Scanner.process_and_save (main i) s in Next r.1 r.2
  else if (key =? 100)%Z then
    Next (Scanner.new_document (merge i) (pypdf2 i) (pip i) (now i) s) None
  else if (key =? 110)%Z then Next (set_name (typed i) s) None
  else Next s None.

End ScannerUI.

(** Whether a point lies in the rectangle with corners [pt1] and [pt2],
    the border included. *)
Definition inside (pt1 pt2 : Z * Z) (x y : Z) : Prop :=
  (pt1.1 <= x <= pt2.1 /\ pt1.2 <= y <= pt2.2)%Z.

(** The filled rectangles among the drawings, in drawing order. *)
Definition rectangles (ds : list ScannerUI.drawing)
  : list ((Z * Z) * (Z * Z) * (Z * Z * Z)) :=
  omap (fun d => match d with
                 | ScannerUI.Rectangle pt1 pt2 color _ =>
                     Some (pt1, pt2, color)
                 | ScannerUI.PutText _ _ _ _ _ => None
                 end) ds.

(** The colours of a button under the mouse. *)
Definition bright (b : ScannerUI.button) : Z * Z * Z :=
  match b with
  | ScannerUI.BtnCapture => (0, 200, 0)%Z
  | ScannerUI.BtnNewDocument => (0, 0, 200)%Z
  | ScannerUI.BtnSetName => (200, 0, 200)%Z
  end.

(** Timers of the canvas update only. *)
Definition only_canvas_updates (q : list (nat * callback)) : Prop :=
  Forall (fun e => e.2 = CbUpdateCameraCanvas) q.

(** Automatic mode is on and a capture counts as under way, but there is
    neither a candidate nor a timer that would capture or save one. *)
Definition auto_stalled (s : App) : Prop :=
  auto_mode s = true /\ capturing s = true /\ current_image s = None
  /\ only_canvas_updates (after_queue s).

(** Camera-thread steps and timer firings: what happens without the
    user. *)
Definition background (e : V1.event) : Prop :=
  match e with
  | V1.Thread _ _ | V1.Timer => True
  | _ => False
  end.

(** Automatic mode of [test_main.py] with the OpenCV camera: the camera
    thread delivers a frame and arms the canvas update and
    [auto_capture]; the main loop runs both timers, and the canvas
    update has taken the frame when [auto_capture] looks for it. *)
Definition auto_until_stall : list V1.event :=
  [V1.StartCamera true; V1.ToggleAuto;
   V1.Thread 0 (true, PyArray frame_low);
   V1.Thread 0 (true, PyArray frame_low);
   V1.Thread 0 (true, PyArray frame_low);
   V1.Timer;
   V1.Timer].

(** The camera thread passes its loop once more and the main loop runs
    the timers armed. *)
Definition one_more_frame : list V1.event :=
  [V1.Thread 0 (true, PyArray frame_high);
   V1.Thread 0 (true, PyArray frame_high);
   V1.Thread 0 (true, PyArray frame_high);
   V1.Thread 0 (true, PyArray frame_high);
   V1.Timer;
   V1.Timer].

(** The rectangle [draw_ui] paints for a button: "Capture" is the first
    rectangle drawn, "New Doc" the second, "Set Name" the third. *)
Definition rectangle_of (b : ScannerUI.button)
    (ds : list ScannerUI.drawing)
  : option ((Z * Z) * (Z * Z) * (Z * Z * Z)) :=
  rectangles ds !! match b with
                   | ScannerUI.BtnCapture => 0
                   | ScannerUI.BtnNewDocument => 1
                   | ScannerUI.BtnSetName => 2
                   end.

(** The key of [run] that stands for a button: SPACE, [d], [n]. *)
Definition key (b : ScannerUI.button) : Z :=
  match b with
  | ScannerUI.BtnCapture => 32
  | ScannerUI.BtnNewDocument => 100
  | ScannerUI.BtnSetName => 110
  end.

(** What the sample events of [scanner.py] take from outside. *)
Definition sample_inputs : ScannerUI.inputs :=
  ScannerUI.mk_inputs (Ok frame_low) false true true 0 "Report".

(** The scanner after the mouse was moved onto "Capture". *)
Definition pointer_on_capture : Scanner.SimpleDocumentScanner :=
  (ScannerUI.mouse_callback 0 100 400 sample_inputs (Scanner.init 0)).1.

(** Every event of [test_main.py] but the PDF export. *)
Definition not_export (e : V1.event) : Prop :=
  match e with
  | V1.ExportPDF _ => False
  | _ => True
  end.

(** [test_main.py] started in a working directory; two frames are
    captured from the OpenCV camera and saved. *)
Definition in_working_directory : world :=
  mk_world [] (set_disk (makedirs "." ∅) V1.init).

Definition two_pages_in_memory : list V1.event :=
  [V1.StartCamera true;
   V1.Thread 0 (true, PyArray frame_low);
   V1.Thread 0 (true, PyArray frame_low);
   V1.Thread 0 (true, PyArray frame_low);
   V1.Capture; V1.Save;
   V1.Thread 0 (true, PyArray frame_high);
   V1.Thread 0 (true, PyArray frame_high);
   V1.Thread 0 (true, PyArray frame_high);
   V1.Thread 0 (true, PyArray frame_high);
   V1.Capture; V1.Save].

(** [test_main_v2.py] with the Pi camera running in automatic mode,
    between two captures: no capture under way, no candidate, the queue
    empty, no timer armed. *)
Definition auto_ready (s : App) : Prop :=
  camera_active s = true /\ picam2 s = true /\ auto_mode s = true
  /\ capturing s = false /\ current_image s = None
  /\ frame_queue s = None /\ after_queue s = [].

(** One round of automatic mode on the Pi camera: the camera thread
    passes the body of its loop, then the main loop runs the three timers
    that come due. *)
Definition auto_cycle (lores main : result ndarray) (read : bool * pyobj)
    (frame : local) (s : App) : option App :=
  match V2.camera_stream_body true lores read frame s with
  | Some (_, s1) =>
      Some (V2.fire_timer true main
              (V2.fire_timer true main (V2.fire_timer true main s1)))
  | None => None
  end.

(** The Pi camera was started and automatic mode switched on. *)
Definition pi_auto_on : App :=
  V2.toggle_auto_mode (V2.start_camera true true (V2.init 0)).

(** * Vocabulary: what a capture pulls, restarts, stale timers *)

(** The frame [capture_image] gets hold of: none when the camera is off,
    when the queue is empty, when the read of the Pi camera raises, or
    when what it pulled has no [copy]. *)
Definition V1_pulled (s : App) : option ndarray :=
  if camera_active s then
    match frame_queue s with
    | Some (PyArray fr) => Some fr
    | _ => None
    end
  else None.

Definition V2_pulled (picam : bool) (main : result ndarray) (s : App)
  : option ndarray :=
  if camera_active s then
    if picam && picam2 s then
      match main with
      | Ok fr => Some fr
      | Raise _ => None
      end
    else
      match frame_queue s with
      | Some (PyArray fr) => Some fr
      | _ => None
      end
  else None.

(** Every event but a start of the camera. *)
Definition V1_no_start (e : V1.event) : Prop :=
  match e with
  | V1.StartCamera _ => False
  | _ => True
  end.

Definition V2_no_start (e : V2.event) : Prop :=
  match e with
  | V2.StartCamera _ => False
  | _ => True
  end.

(** The steps thread [i] takes in a trace. *)
Definition V1_is_step_of (i : nat) (e : V1.event) : bool :=
  match e with
  | V1.Thread j _ => (i =? j)%nat
  | _ => false
  end.

Definition V2_is_step_of (i : nat) (e : V2.event) : bool :=
  match e with
  | V2.Thread j _ _ => (i =? j)%nat
  | _ => false
  end.

Fixpoint V1_own_steps (i : nat) (trace : list V1.event) : nat :=
  match trace with
  | [] => 0
  | e :: trace' =>
      (if V1_is_step_of i e then 1 else 0) + V1_own_steps i trace'
  end.

Fixpoint V2_own_steps (i : nat) (trace : list V2.event) : nat :=
  match trace with
  | [] => 0
  | e :: trace' =>
      (if V2_is_step_of i e then 1 else 0) + V2_own_steps i trace'
  end.

(** Automatic mode on the Pi camera: the candidate [frame_high] is
    cancelled by the user, the camera thread passes its loop once more,
    and the main loop runs the canvas update and [auto_capture], which
    takes [frame_low] as the next candidate.  The timer of [auto_save]
    armed for [frame_high] is still armed. *)
Definition cancelled_and_recaptured : list V2.event :=
  auto_until_candidate
  ++ [V2.Cancel;
      V2.Thread 0 (Ok frame_low) (false, PyNone);
      V2.Thread 0 (Ok frame_low) (false, PyNone);
      V2.Thread 0 (Ok frame_low) (false, PyNone);
      V2.Thread 0 (Ok frame_low) (false, PyNone);
      V2.Timer (Ok frame_low);
      V2.Timer (Ok frame_low)].


(** * Properties *)

(** ** The setters *)

Lemma document_set_status (st : status) (s : App) :
  document (set_status st s) = document s.
Proof. reflexivity. Qed.

Lemma document_show (d : dialog) (s : App) :
  document (show d s) = document s.
Proof. reflexivity. Qed.

(** ** Cancel *)

Lemma V2_cancel_capture_document (s : App) :
  document (V2.cancel_capture s) = document s.
Proof.
  unfold V2.cancel_capture.
  destruct (current_image s); [|done].
  cbn. by destruct (auto_mode s).
Qed.

Lemma V1_cancel_capture_document (s : App) :
  document (V1.cancel_capture s) = document s.
Proof.
  unfold V1.cancel_capture.
  destruct (current_image s); [|done].
  cbn. by destruct (auto_mode s).
Qed.

Lemma V2_cancel_capture_idle (s : App) :
  current_image (V2.cancel_capture s) = None.
Proof.
  unfold V2.cancel_capture.
  destruct (current_image s) eqn:E; [|done].
  cbn. by destruct (auto_mode s).
Qed.

Lemma V1_cancel_capture_idle (s : App) :
  current_image (V1.cancel_capture s) = None.
Proof.
  unfold V1.cancel_capture.
  destruct (current_image s) eqn:E; [|done].
  cbn. by destruct (auto_mode s).
Qed.

Lemma V2_capture_image_document (picam : bool) (main : result ndarray)
    (s : App) :
  document (V2.capture_image picam main s) = document s.
Proof.
  unfold V2.capture_image.
  destruct (camera_active s); [|done]. cbn.
  destruct (picam && picam2 s).
  - destruct main as [a|e]; done.
  - destruct (frame_queue s) as [[|a]|]; done.
Qed.

Lemma V1_capture_image_document (s : App) :
  document (V1.capture_image s) = document s.
Proof.
  unfold V1.capture_image.
  destruct (camera_active s); [|done]. cbn.
  destruct (frame_queue s) as [[|a]|]; done.
Qed.

(** C8.  With a candidate pending, [cancel_capture] leaves no candidate
    (the session is idle) and does not touch the document: output
    directory, name, page counter, pages in memory and page files are
    what they were, and what they were before the capture that produced
    the candidate.  Both variants of the application. *)
Theorem C8_cancel_discards_candidate_keeps_document
    (s : App) (candidate : ndarray) :
  current_image s = Some candidate ->
  (current_image (V2.cancel_capture s) = None
   /\ document (V2.cancel_capture s) = document s
   /\ forall picam main s0,
        s = V2.capture_image picam main s0 ->
        document (V2.cancel_capture s) = document s0)
  /\ (current_image (V1.cancel_capture s) = None
      /\ document (V1.cancel_capture s) = document s
      /\ forall s0,
           s = V1.capture_image s0 ->
           document (V1.cancel_capture s) = document s0).
Proof.
  intros _. repeat split.
  - apply V2_cancel_capture_idle.
  - apply V2_cancel_capture_document.
  - intros picam main s0 ->.
    by rewrite V2_cancel_capture_document, V2_capture_image_document.
  - apply V1_cancel_capture_idle.
  - apply V1_cancel_capture_document.
  - intros s0 ->.
    by rewrite V1_cancel_capture_document, V1_capture_image_document.
Qed.

Lemma C8_witness :
  current_image (previewing V1.init) = Some frame_high
  /\ current_image (V2.cancel_capture (previewing V1.init)) = None
  /\ current_image (V1.cancel_capture (previewing V1.init)) = None.
Proof.
  pose proof (C8_cancel_discards_candidate_keeps_document
                (previewing V1.init) frame_high eq_refl) as [[H2 _] [H1 _]].
  exact (conj eq_refl (conj H2 H1)).
Defined.

(** ** The timer of the automatic save *)

Lemma V2_save_image_appends (s : App) (img : ndarray) :
  current_image s = Some img ->
  captured_images (V2.save_image s) = captured_images s ++ [img]
  /\ pages_scanned (V2.save_image s) = pages_scanned s + 1.
Proof.
  intros Hc. unfold V2.save_image. rewrite Hc. cbn.
  destruct (V2.save_as_pdf _ _ _); cbn; [|done].
  by destruct (auto_mode s).
Qed.

Lemma V1_save_image_appends (s : App) (img : ndarray) :
  current_image s = Some img ->
  captured_images (V1.save_image s) = captured_images s ++ [img]
  /\ pages_scanned (V1.save_image s) = pages_scanned s + 1.
Proof.
  intros Hc. unfold V1.save_image. rewrite Hc. cbn.
  by destruct (auto_mode s).
Qed.

(** In automatic mode on the Pi camera the candidate [frame_high] is
    cancelled before its timer fires.  The cancel resets [capturing], the
    camera thread arms [auto_capture] again, and [frame_low] becomes the
    next candidate, with a timer of its own due at 2200.  The timer armed
    for [frame_high], due at 2100, is still armed; when it fires, it
    commits [frame_low] as page 1. *)
Lemma C10_stale_timer_commits_next_candidate :
  let before := V2.run true no_pil auto_until_candidate
                  (mk_world [] (V2.init 0)) in
  let cancelled := V2.step true no_pil V2.Cancel before in
  let w := V2.run true no_pil cancelled_and_recaptured
             (mk_world [] (V2.init 0)) in
  let fired := V2.step true no_pil (V2.Timer (Ok frame_low)) w in
  current_image (app before) = Some frame_high
  /\ after_queue (app before) = [(2100, CbAutoSave)]
  /\ current_image (app cancelled) = None
  /\ after_queue (app cancelled) = [(2100, CbAutoSave)]
  /\ current_image (app w) = Some frame_low
  /\ after_queue (app w) = [(2100, CbAutoSave); (2200, CbAutoSave)]
  /\ pages_scanned (app w) = 0
  /\ pages_scanned (app fired) = 1
  /\ captured_images (app fired) = [frame_low]
  /\ listdir (output_dir (app fired)) (disk (app fired))
     = Ok ["Document_001.pdf"]
  /\ clock (app fired) = 2100
  /\ after_queue (app fired) = [(2200, CbAutoSave)]
  /\ frame_low <> frame_high.
Proof. vm_compute. repeat split; done. Qed.

(** C10, as the code has it.  The timer of [auto_save] carries no
    reference to the candidate it was armed for and is never cancelled.
    When it fires, a commit happens exactly when a candidate is pending
    at that moment, and the candidate committed is the one pending then,
    whichever capture armed the timer.  With no candidate pending the
    firing commits nothing and changes nothing; run from the main loop,
    it only retires the timer and advances the clock. *)
Theorem C10_auto_save_commits_what_is_pending
    (s : App) (due : nat) (rest : list (nat * callback)) :
  pop_min (after_queue s) = Some ((due, CbAutoSave), rest) ->
  (current_image s = None ->
   V2.auto_save s = s
   /\ V1.auto_save s = s
   /\ (forall picam main,
         V2.fire_timer picam main s
         = set_clock (clock s `max` due) (set_after_queue rest s))
   /\ V1.fire_timer s
      = set_clock (clock s `max` due) (set_after_queue rest s))
  /\ (forall img,
        current_image s = Some img ->
        V2.auto_save s = V2.save_image s
        /\ V1.auto_save s = V1.save_image s
        /\ (forall picam main,
              V2.fire_timer picam main s
              = V2.save_image
                  (set_clock (clock s `max` due) (set_after_queue rest s))
              /\ captured_images (V2.fire_timer picam main s)
                 = captured_images s ++ [img]
              /\ pages_scanned (V2.fire_timer picam main s)
                 = pages_scanned s + 1)
        /\ V1.fire_timer s
           = V1.save_image
               (set_clock (clock s `max` due) (set_after_queue rest s))
        /\ captured_images (V1.fire_timer s) = captured_images s ++ [img]
        /\ pages_scanned (V1.fire_timer s) = pages_scanned s + 1).
Proof.
  intros Hpop. split.
  - intros Hnone.
    unfold V2.fire_timer, V1.fire_timer, V2.run_callback, V1.run_callback,
      V2.auto_save, V1.auto_save.
    rewrite Hpop. cbn. rewrite Hnone. done.
  - intros img Hsome.
    set (s1 := set_clock (clock s `max` due) (set_after_queue rest s)).
    assert (current_image s1 = Some img) as Hsome1 by done.
    assert (captured_images s1 = captured_images s) as Himgs by done.
    assert (pages_scanned s1 = pages_scanned s) as Hn by done.
    assert (forall picam main,
              V2.fire_timer picam main s = V2.save_image s1) as Hf2.
    { intros picam main. unfold V2.fire_timer. rewrite Hpop.
      cbn [V2.run_callback]. unfold V2.auto_save. fold s1.
      by rewrite Hsome1. }
    assert (V1.fire_timer s = V1.save_image s1) as Hf1.
    { unfold V1.fire_timer. rewrite Hpop.
      cbn [V1.run_callback]. unfold V1.auto_save. fold s1.
      by rewrite Hsome1. }
    clearbody s1.
    split; [unfold V2.auto_save; by rewrite Hsome|].
    split; [unfold V1.auto_save; by rewrite Hsome|].
    destruct (V2_save_image_appends s1 img Hsome1) as [A2 N2].
    destruct (V1_save_image_appends s1 img Hsome1) as [A1 N1].
    split.
    + intros picam main. rewrite Hf2.
      by rewrite A2, N2, Himgs, Hn.
    + by rewrite Hf1, A1, N1, Himgs, Hn.
Qed.

Lemma C10_witness :
  let w := V2.run true no_pil cancelled_and_recaptured
             (mk_world [] (V2.init 0)) in
  captured_images (V2.fire_timer true (Ok frame_low) (app w)) = [frame_low]
  /\ pages_scanned (V2.fire_timer true (Ok frame_low) (app w)) = 1.
Proof.
  cbv zeta.
  destruct (proj2 (C10_auto_save_commits_what_is_pending
                     (app (V2.run true no_pil cancelled_and_recaptured
                             (mk_world [] (V2.init 0))))
                     2100 [(2200, CbAutoSave)] eq_refl)
                  frame_low eq_refl)
    as (_ & _ & H2 & _).
  destruct (H2 true (Ok frame_low)) as (_ & Himgs & Hn).
  split; [exact Himgs|exact Hn].
Defined.

(** ** Capture *)

(** A second capture while a candidate is pending is carried out: the
    candidate [frame_high] is replaced by the frame pulled from the queue
    (OpenCV) or from the camera (Pi camera), with status "Image captured"
    and no error. *)
Lemma C2_capture_replaces_pending_candidate :
  current_image (previewing V1.init) = Some frame_high
  /\ current_image (V1.capture_image (previewing V1.init)) = Some frame_low
  /\ status_label (V1.capture_image (previewing V1.init)) = ImageCaptured
  /\ current_image (V2.capture_image false (Raise CameraFailure)
                      (previewing (V2.init 0))) = Some frame_low
  /\ current_image (V2.capture_image true (Ok frame_low)
                      (set_picam2 true (previewing (V2.init 0))))
     = Some frame_low
  /\ frame_low <> frame_high.
Proof. repeat split; done. Qed.

(** C2, as the code has it.  With a candidate pending, [capture_image]
    is not refused.  When the camera is active and a frame can be pulled,
    that frame replaces the candidate and the status is "Image captured";
    when the camera is off or no frame can be pulled (the queue is empty,
    the read of the Pi camera raises, what was pulled has no [copy]), the
    candidate stays as it was.  In every case exactly one candidate is
    pending afterwards, the pulled frame if there is one and the old
    candidate otherwise, and the document is untouched. *)
Theorem C2_capture_with_pending_candidate
    (s : App) (candidate : ndarray) :
  current_image s = Some candidate ->
  (* test_main.py *)
  ((forall fr, camera_active s = true ->
      frame_queue s = Some (PyArray fr) ->
      current_image (V1.capture_image s) = Some fr
      /\ status_label (V1.capture_image s) = ImageCaptured)
   /\ (camera_active s = false \/ frame_queue s = None ->
       V1.capture_image s = show InfoCameraNotActive s)
   /\ is_Some (current_image (V1.capture_image s))
   /\ document (V1.capture_image s) = document s
   /\ current_image (V1.capture_image s)
      = Some (default candidate (V1_pulled s)))
  (* test_main_v2.py *)
  /\ ((forall fr, camera_active s = true -> picam2 s = true ->
         current_image (V2.capture_image true (Ok fr) s) = Some fr
         /\ status_label (V2.capture_image true (Ok fr) s) = ImageCaptured)
      /\ (forall picam main fr, camera_active s = true ->
            picam && picam2 s = false ->
            frame_queue s = Some (PyArray fr) ->
            current_image (V2.capture_image picam main s) = Some fr
            /\ status_label (V2.capture_image picam main s) = ImageCaptured)
      /\ (forall picam main, camera_active s = false ->
            V2.capture_image picam main s = show InfoCameraNotActive s)
      /\ (forall picam main, camera_active s = true ->
            picam && picam2 s = false -> frame_queue s = None ->
            V2.capture_image picam main s
            = set_status (CaptureError NoFrameAvailable) s)
      /\ (forall picam main,
            is_Some (current_image (V2.capture_image picam main s)))
      /\ (forall picam main,
            document (V2.capture_image picam main s) = document s)
      /\ (forall e, camera_active s = true -> picam2 s = true ->
            V2.capture_image true (Raise e) s
            = set_status (CaptureError e) s)
      /\ (forall picam main,
            current_image (V2.capture_image picam main s)
            = Some (default candidate (V2_pulled picam main s)))).
Proof.
  intros Hc. split.
  - (* test_main.py *)
    split; [|split; [|split; [|split]]].
    + intros fr Hact Hq. unfold V1.capture_image.
      rewrite Hact. cbn. by rewrite Hq.
    + intros [H|H]; unfold V1.capture_image; rewrite H; [done|].
      by rewrite orb_true_r.
    + unfold V1.capture_image. cbn.
      destruct (camera_active s); cbn; rewrite ?Hc; eauto.
      destruct (frame_queue s) as [[|a]|]; cbn; rewrite ?Hc; eauto.
    + apply V1_capture_image_document.
    + unfold V1.capture_image, V1_pulled.
      destruct (camera_active s); cbn; [|done].
      by destruct (frame_queue s) as [[|a]|]; cbn.
  - (* test_main_v2.py *)
    split; [|split; [|split; [|split; [|split; [|split; [|split]]]]]].
    + intros fr Hact Hpi. unfold V2.capture_image.
      rewrite Hact. cbn. by rewrite Hpi.
    + intros picam main fr Hact Hpi Hq. unfold V2.capture_image.
      rewrite Hact. cbn. by rewrite Hpi, Hq.
    + intros picam main H. unfold V2.capture_image. by rewrite H.
    + intros picam main Hact Hpi Hq. unfold V2.capture_image.
      rewrite Hact. cbn. by rewrite Hpi, Hq.
    + intros picam main. unfold V2.capture_image. cbn.
      destruct (camera_active s); cbn; rewrite ?Hc; eauto.
      destruct (picam && picam2 s).
      * destruct main; cbn; rewrite ?Hc; eauto.
      * destruct (frame_queue s) as [[|a]|]; cbn; rewrite ?Hc; eauto.
    + intros. apply V2_capture_image_document.
    + intros e Hact Hpi. unfold V2.capture_image.
      rewrite Hact. cbn. by rewrite Hpi.
    + intros picam main. unfold V2.capture_image, V2_pulled.
      destruct (camera_active s); cbn; [|done].
      destruct (picam && picam2 s).
      * by destruct main.
      * by destruct (frame_queue s) as [[|a]|]; cbn.
Qed.

(** The Pi camera fails to deliver while [frame_high] is pending: the
    candidate is still [frame_high]. *)
Lemma C2_witness :
  current_image
    (V2.capture_image true (Raise CameraFailure)
       (set_picam2 true (previewing (V2.init 0))))
  = Some frame_high.
Proof.
  exact (proj2 (proj2 (proj2 (proj2 (proj2 (proj2 (proj2 (proj2
           (C2_capture_with_pending_candidate
              (set_picam2 true (previewing (V2.init 0)))
              frame_high eq_refl))))))))
           true (Raise CameraFailure)).
Defined.

(** ** The frame queue *)

(** [put] is only reached when the queue is not full, so it never waits. *)
Lemma V1_deliver_never_blocks (rgb_frame : pyobj) (s : App) :
  is_Some (V1.deliver rgb_frame s).
Proof.
  unfold V1.deliver.
  destruct (frame_queue s) as [x|]; cbn;
    by destruct (auto_mode s && negb (capturing s)).
Qed.

Lemma V2_deliver_never_blocks (frame : local) (s : App) :
  is_Some (V2.deliver frame s).
Proof.
  unfold V2.deliver.
  destruct (frame_queue s) as [x|]; cbn.
  - by destruct (auto_mode s && negb (capturing s)).
  - destruct frame as [fr|]; cbn; [|done].
    by destruct (auto_mode s && negb (capturing s)).
Qed.

Lemma V1_deliver_full_keeps_queue (rgb_frame held : pyobj) (s s' : App) :
  frame_queue s = Some held ->
  V1.deliver rgb_frame s = Some s' ->
  frame_queue s' = Some held.
Proof.
  unfold V1.deliver. intros Hq. rewrite Hq. cbn.
  destruct (auto_mode s && negb (capturing s)); intros [= <-]; done.
Qed.

Lemma V2_deliver_full_keeps_queue (frame : local) (held : pyobj)
    (s s' : App) :
  frame_queue s = Some held ->
  V2.deliver frame s = Some (Ok s') ->
  frame_queue s' = Some held.
Proof.
  unfold V2.deliver. intros Hq. rewrite Hq. cbn.
  destruct (auto_mode s && negb (capturing s)); intros [= <-]; done.
Qed.

(** A frame offered to the full queue is dropped: after the camera
    thread read [frame_high] while [frame_low] was waiting, the queue
    still holds [frame_low], and that is the frame the next capture
    takes. *)
Lemma C1_full_queue_keeps_old_frame :
  frame_queue (streaming V1.init) = Some (PyArray frame_low)
  /\ (exists s',
        V1.camera_stream_body (true, PyArray frame_high) (streaming V1.init)
        = Some s'
        /\ frame_queue s' = Some (PyArray frame_low)
        /\ current_image (V1.capture_image s') = Some frame_low)
  /\ (exists fr s',
        V2.camera_stream_body false (Raise CameraFailure)
          (true, PyArray frame_high) None (streaming (V2.init 0))
        = Some (fr, s')
        /\ fr = Some (PyArray (cvtColor_BGR2RGB frame_high))
        /\ frame_queue s' = Some (PyArray frame_low)
        /\ current_image (V2.capture_image false (Raise CameraFailure) s')
           = Some frame_low)
  /\ cvtColor_BGR2RGB frame_high <> frame_low.
Proof.
  split; [done|]. split; [|split].
  - eexists. split; [reflexivity|]. done.
  - eexists _, _. split; [reflexivity|]. done.
  - done.
Qed.

(** C1, as the code has it.  When the queue is occupied, one pass of the
    camera thread through its loop body does not wait, leaves the held
    frame in the queue and drops the frame it has just read; the next
    capture takes the held frame. *)
Theorem C1_put_on_full_queue_drops_new_frame (s : App) (held : pyobj) :
  frame_queue s = Some held ->
  (forall read, exists s',
      V1.camera_stream_body read s = Some s'
      /\ frame_queue s' = Some held
      /\ forall a, held = PyArray a -> camera_active s = true ->
           current_image (V1.capture_image s') = Some a)
  /\ (forall picam lores read frame, exists frame' s',
        V2.camera_stream_body picam lores read frame s = Some (frame', s')
        /\ frame_queue s' = Some held
        /\ forall a main, held = PyArray a -> camera_active s = true ->
             picam && picam2 s = false ->
             current_image (V2.capture_image picam main s') = Some a).
Proof.
  intros Hq. split.
  - intros read.
    assert (exists s', V1.camera_stream_body read s = Some s'
                       /\ frame_queue s' = Some held
                       /\ camera_active s' = camera_active s)
      as (s' & Hbody & Hq' & Hact).
    { unfold V1.camera_stream_body.
      destruct (V1.acquire read s) as [[fr|]| |]; eauto.
      unfold V1.deliver. rewrite Hq. cbn.
      destruct (auto_mode s && negb (capturing s)); eauto. }
    exists s'. split; [done|]. split; [done|].
    intros a -> Hact'. unfold V1.capture_image.
    rewrite Hact, Hact'. cbn. by rewrite Hq'.
  - intros picam lores read frame.
    assert (exists frame' s',
              V2.camera_stream_body picam lores read frame s
              = Some (frame', s')
              /\ frame_queue s' = Some held
              /\ camera_active s' = camera_active s
              /\ picam2 s' = picam2 s)
      as (frame' & s' & Hbody & Hq' & Hact & Hpi).
    { unfold V2.camera_stream_body.
      destruct (V2.acquire picam lores read frame s) as [fr|fr|fr]; eauto 10.
      unfold V2.deliver. rewrite Hq. cbn.
      destruct (auto_mode s && negb (capturing s)); eauto 10. }
    exists frame', s'. split; [done|]. split; [done|].
    intros a main -> Hact' Hpi'. unfold V2.capture_image.
    rewrite Hact, Hact'. cbn. by rewrite Hpi, Hpi', Hq'.
Qed.

Lemma C1_witness :
  exists s',
    V1.camera_stream_body (true, PyArray frame_high) (streaming V1.init)
    = Some s'
    /\ frame_queue s' = Some (PyArray frame_low).
Proof.
  destruct (proj1 (C1_put_on_full_queue_drops_new_frame
                     (streaming V1.init) (PyArray frame_low) eq_refl)
              (true, PyArray frame_high)) as (s' & Hbody & Hq & _).
  exists s'. exact (conj Hbody Hq).
Defined.

(** ** The page writer *)

Lemma swap_rb_reverse (p : list Z) : length p = 3 -> swap_rb p = reverse p.
Proof. destruct p as [|c0 [|c1 [|c2 [|c3 p]]]]; done. Qed.

Lemma cvtColor_reverse_channels (a : ndarray) :
  uniform_channels 3 a -> cvtColor_BGR2RGB a = reverse_channels a.
Proof.
  unfold uniform_channels, cvtColor_BGR2RGB, reverse_channels.
  intros Hu. f_equal.
  induction Hu as [|row rows Hrow _ IH]; [done|].
  cbn. f_equal; [|done].
  induction Hrow as [|p ps Hp _ IHp]; [done|].
  cbn. f_equal; [|done]. by apply swap_rb_reverse.
Qed.

(** C9.  What [save_as_pdf] writes depends on one pixel of the frame:
    for a three-channel frame, the page holds the image with the channel
    order of every pixel reversed exactly when channel 0 of pixel (0,0)
    is greater than channel 2, and the image as captured otherwise.
    [frame_low] and [frame_high] differ in pixel (0,0) only, and their
    pages hold pixel (0,1) in opposite channel orders. *)
Theorem C9_channel_order_decided_by_first_pixel
    (image_array : ndarray) (filename : string) (fs : FS) (c0 c2 : Z) :
  channels image_array = 3 ->
  uniform_channels 3 image_array ->
  item image_array 0 0 0 = Ok c0 ->
  item image_array 0 0 2 = Ok c2 ->
  ((c0 > c2)%Z ->
     V2.save_as_pdf image_array filename fs
     = write_file filename [PageImage (reverse_channels image_array)] fs)
  /\ ((c0 <= c2)%Z ->
        V2.save_as_pdf image_array filename fs
        = write_file filename [PageImage image_array] fs)
  /\ ((forall i j, (i, j) <> (0, 0) ->
         pixel frame_low i j = pixel frame_high i j)
      /\ V2.save_as_pdf frame_low filename fs
         = write_file filename [PageImage frame_low] fs
      /\ V2.save_as_pdf frame_high filename fs
         = write_file filename [PageImage (reverse_channels frame_high)] fs
      /\ pixel frame_low 0 1 = Some [10; 20; 30]%Z
      /\ pixel (reverse_channels frame_high) 0 1 = Some [30; 20; 10]%Z).
Proof.
  intros Hch Hu H0 H2. split; [|split].
  - intros Hgt. unfold V2.save_as_pdf, V2.as_rgb. rewrite Hch, H0, H2. cbn.
    rewrite (proj2 (Z.gtb_gt c0 c2)) by lia. cbn.
    by rewrite cvtColor_reverse_channels.
  - intros Hle. unfold V2.save_as_pdf, V2.as_rgb. rewrite Hch, H0, H2. cbn.
    destruct (Z.gtb_spec c0 c2); [lia|done].
  - split; [|done].
    intros [|i] [|j] Hij; done.
Qed.

Lemma C9_witness :
  V2.save_as_pdf frame_high "out/Document_001.pdf" (makedirs "out" ∅)
  = write_file "out/Document_001.pdf"
      [PageImage (reverse_channels frame_high)] (makedirs "out" ∅).
Proof.
  refine (proj1 (C9_channel_order_decided_by_first_pixel
                   frame_high "out/Document_001.pdf" (makedirs "out" ∅)
                   2 1 eq_refl _ eq_refl eq_refl) _).
  - repeat constructor.
  - reflexivity.
Defined.

(** ** Saving a page *)

(** C3.  What [save_image] leaves behind when the page write raises [e]:
    no file is written, the candidate stays and the status reads "Save
    error", but the page counter has advanced and the frame has joined
    [captured_images]; the page label still shows the old count. *)
Theorem C3_failed_write_advances_page_count
    (s : App) (img : ndarray) (e : exn) :
  current_image s = Some img ->
  V2.save_as_pdf img
    (V2.page_path (set_pages_scanned (pages_scanned s + 1) s)) (disk s)
  = Raise e ->
  pages_scanned (V2.save_image s) = pages_scanned s + 1
  /\ captured_images (V2.save_image s) = captured_images s ++ [img]
  /\ current_image (V2.save_image s) = Some img
  /\ disk (V2.save_image s) = disk s
  /\ pages_label (V2.save_image s) = pages_label s
  /\ status_label (V2.save_image s) = SaveError e.
Proof.
  intros Hc Hw. unfold V2.save_image. rewrite Hc. cbn.
  unfold V2.page_path in *. cbn in *. rewrite Hw. cbn. by rewrite Hc.
Qed.

(** With the document named ["a/b"] the page path lies in a directory
    that does not exist: the write fails, and the counter stands at 1
    with no page file in the document directory. *)
Lemma C3_witness :
  pages_scanned slash_named = 0
  /\ pages_scanned (V2.save_image slash_named) = 0 + 1
  /\ captured_images (V2.save_image slash_named) = [frame_low]
  /\ current_image (V2.save_image slash_named) = Some frame_low
  /\ listdir (output_dir slash_named) (disk (V2.save_image slash_named))
     = Ok [].
Proof.
  destruct (C3_failed_write_advances_page_count slash_named frame_low
              FileNotFoundError eq_refl eq_refl)
    as (Hn & Hl & Hc & _).
  exact (conj eq_refl (conj Hn (conj Hl (conj Hc eq_refl)))).
Defined.

(** ** Automatic mode *)

Lemma V2_toggle_auto_mode_keeps (s : App) :
  after_queue (V2.toggle_auto_mode s) = after_queue s
  /\ current_image (V2.toggle_auto_mode s) = current_image s
  /\ document (V2.toggle_auto_mode s) = document s.
Proof. unfold V2.toggle_auto_mode. cbn. by destruct (auto_mode s). Qed.

Lemma V2_save_image_commits (s : App) (img : ndarray) :
  current_image s = Some img ->
  pages_scanned (V2.save_image s) = pages_scanned s + 1.
Proof.
  intros Hc. unfold V2.save_image. rewrite Hc. cbn.
  destruct (V2.save_as_pdf _ _ _); cbn; [|done].
  by destruct (auto_mode s).
Qed.

(** Automatic mode is switched on, a candidate is captured, automatic
    mode is switched off at once; the timer of [auto_save] is still armed
    and, when it fires, saves the candidate as page 1. *)
Lemma C4_timer_fires_after_auto_mode_off :
  let w := V2.run true no_pil auto_until_candidate
             (mk_world [] (V2.init 0)) in
  let off := V2.step true no_pil V2.ToggleAuto w in
  let fired := V2.step true no_pil (V2.Timer (Ok frame_low)) off in
  auto_mode (app w) = true
  /\ pages_scanned (app w) = 0
  /\ auto_mode (app off) = false
  /\ after_queue (app off) = [(2100, CbAutoSave)]
  /\ pages_scanned (app off) = 0
  /\ after_queue (app fired) = []
  /\ pages_scanned (app fired) = 1
  /\ listdir (output_dir (app fired)) (disk (app fired))
     = Ok ["Document_001.pdf"].
Proof. vm_compute. repeat split. Qed.

(** C4, as the code has it.  Switching automatic mode off cancels no
    timer and keeps the pending candidate and the document.  A timer of
    [auto_capture] that fires afterwards captures nothing, arms no save
    timer and leaves the document alone; a timer of [auto_save] that fires
    afterwards does nothing when no candidate is pending, and otherwise
    saves the candidate as one more page, whatever the mode. *)
Theorem C4_auto_mode_off_cancels_no_timer (s : App) :
  auto_mode s = true ->
  auto_mode (V2.toggle_auto_mode s) = false
  /\ after_queue (V2.toggle_auto_mode s) = after_queue s
  /\ current_image (V2.toggle_auto_mode s) = current_image s
  /\ document (V2.toggle_auto_mode s) = document s
  /\ (forall picam main t, auto_mode t = false ->
        V2.auto_capture picam main t = set_capturing false t)
  /\ (forall t, current_image t = None -> V2.auto_save t = t)
  /\ (forall t img, current_image t = Some img ->
        V2.auto_save t = V2.save_image t
        /\ pages_scanned (V2.auto_save t) = pages_scanned t + 1).
Proof.
  intros Hon. split.
  { unfold V2.toggle_auto_mode. cbn. by rewrite Hon. }
  destruct (V2_toggle_auto_mode_keeps s) as (Hq & Hc & Hd).
  do 3 (split; [done|]). split; [|split].
  - intros picam main t Hoff. unfold V2.auto_capture. by rewrite Hoff.
  - intros t Hnone. unfold V2.auto_save. by rewrite Hnone.
  - intros t img Hsome. unfold V2.auto_save. rewrite Hsome.
    split; [done|]. by apply (V2_save_image_commits t img).
Qed.

Lemma C4_witness :
  after_queue
    (V2.toggle_auto_mode
       (app (V2.run true no_pil auto_until_candidate
               (mk_world [] (V2.init 0)))))
  = [(2100, CbAutoSave)].
Proof.
  destruct (C4_auto_mode_off_cancels_no_timer
              (app (V2.run true no_pil auto_until_candidate
                      (mk_world [] (V2.init 0)))) eq_refl)
    as (_ & Hq & _).
  rewrite Hq. reflexivity.
Defined.

(** ** Stopping the camera *)

Lemma V1_stop_camera_inactive (s : App) :
  V1.camera_stream_test (V1.stop_camera s) = false.
Proof.
  unfold V1.stop_camera, V1.camera_stream_test.
  destruct (camera_active s) eqn:Hact; cbn; [|by rewrite Hact].
  by destruct (camera s).
Qed.

Lemma V2_stop_camera_inactive (picam : bool) (s : App) :
  V2.camera_stream_test (V2.stop_camera picam s) = false.
Proof.
  unfold V2.stop_camera, V2.camera_stream_test.
  destruct (camera_active s) eqn:Hact; cbn; [|by rewrite Hact].
  by destruct (picam && picam2 s), (camera s).
Qed.

Lemma V1_stop_camera_idempotent (s : App) :
  V1.stop_camera (V1.stop_camera s) = V1.stop_camera s.
Proof.
  unfold V1.stop_camera at 2 3.
  destruct (camera_active s) eqn:Hact; cbn.
  - by destruct (camera s).
  - unfold V1.stop_camera. by rewrite Hact.
Qed.

Lemma V2_stop_camera_idempotent (picam : bool) (s : App) :
  V2.stop_camera picam (V2.stop_camera picam s) = V2.stop_camera picam s.
Proof.
  unfold V2.stop_camera at 2 3.
  destruct (camera_active s) eqn:Hact; cbn.
  - by destruct (picam && picam2 s), (camera s).
  - unfold V2.stop_camera. by rewrite Hact.
Qed.

(** A step of the camera thread never changes what its loop test reads. *)
Lemma V1_thread_step_test (i : bool * pyobj) (th th' : thread) (s s' : App) :
  V1.thread_step i th s = Some (th', s') ->
  V1.camera_stream_test s' = V1.camera_stream_test s.
Proof.
  unfold V1.thread_step.
  destruct (at_pc th); try (intros [= <- <-]; done).
  - destruct (V1.acquire i s); intros [= <- <-]; done.
  - destruct (frame th) as [fr|]; [|intros [= <- <-]; done].
    unfold V1.deliver.
    destruct (frame_queue s); cbn;
      destruct (auto_mode s && negb (capturing s)); intros [= <- <-]; done.
Qed.

Lemma V2_thread_step_test (picam : bool) (i : result ndarray * (bool * pyobj))
    (th th' : thread) (s s' : App) :
  V2.thread_step picam (fst i) (snd i) th s = Some (th', s') ->
  V2.camera_stream_test s' = V2.camera_stream_test s.
Proof.
  unfold V2.thread_step.
  destruct (at_pc th); try (intros [= <- <-]; done).
  - destruct (V2.acquire _ _ _ _ s); intros [= <- <-]; done.
  - unfold V2.deliver.
    destruct (frame_queue s); cbn.
    + destruct (auto_mode s && negb (capturing s)); intros [= <- <-]; done.
    + destruct (frame th); cbn; [|intros [= <- <-]; done].
      destruct (auto_mode s && negb (capturing s)); intros [= <- <-]; done.
Qed.

(** Once the loop test is false, every step brings the thread closer to
    the end of [camera_stream]. *)
Lemma V1_thread_step_progress (i : bool * pyobj) (th : thread) (s : App) :
  V1.camera_stream_test s = false ->
  exists th' s',
    V1.thread_step i th s = Some (th', s')
    /\ steps_to_exit (at_pc th') <= steps_to_exit (at_pc th) - 1.
Proof.
  intros Htest. unfold V1.thread_step.
  destruct (at_pc th) eqn:Hpc; cbn.
  - rewrite Htest. eexists _, _. split; [done|]. cbn. lia.
  - destruct (V1.acquire i s); eexists _, _; (split; [done|]); cbn; lia.
  - destruct (frame th) as [fr|].
    + destruct (V1_deliver_never_blocks fr s) as [s' ->].
      eexists _, _. split; [done|]. cbn. lia.
    + eexists _, _. split; [done|]. cbn. lia.
  - eexists _, _. split; [done|]. cbn. lia.
  - eexists _, _. split; [done|]. rewrite Hpc. cbn. lia.
Qed.

Lemma V2_thread_step_progress (picam : bool)
    (i : result ndarray * (bool * pyobj)) (th : thread) (s : App) :
  V2.camera_stream_test s = false ->
  exists th' s',
    V2.thread_step picam (fst i) (snd i) th s = Some (th', s')
    /\ steps_to_exit (at_pc th') <= steps_to_exit (at_pc th) - 1.
Proof.
  intros Htest. unfold V2.thread_step.
  destruct (at_pc th) eqn:Hpc; cbn.
  - rewrite Htest. eexists _, _. split; [done|]. cbn. lia.
  - destruct (V2.acquire _ _ _ _ s); eexists _, _; (split; [done|]); cbn; lia.
  - destruct (V2_deliver_never_blocks (frame th) s) as [[s'|e] ->];
      eexists _, _; (split; [done|]); cbn; lia.
  - eexists _, _. split; [done|]. cbn. lia.
  - eexists _, _. split; [done|]. rewrite Hpc. cbn. lia.
Qed.

Lemma V1_thread_run_exits (inputs : list (bool * pyobj)) :
  forall (th : thread) (s : App),
    V1.camera_stream_test s = false ->
    steps_to_exit (at_pc th) <= length inputs ->
    exists th' s',
      thread_run V1.thread_step inputs th s = Some (th', s')
      /\ at_pc th' = Exited.
Proof.
  induction inputs as [|i inputs IH]; intros th s Htest Hlen; cbn in *.
  - exists th, s. split; [done|]. destruct (at_pc th); cbn in *; done || lia.
  - destruct (V1_thread_step_progress i th s Htest) as (th1 & s1 & Hstep & Hd).
    rewrite Hstep. apply IH; [|lia].
    by rewrite (V1_thread_step_test _ _ _ _ _ Hstep).
Qed.

Lemma V2_thread_run_exits (picam : bool)
    (inputs : list (result ndarray * (bool * pyobj))) :
  forall (th : thread) (s : App),
    V2.camera_stream_test s = false ->
    steps_to_exit (at_pc th) <= length inputs ->
    exists th' s',
      thread_run (fun i => V2.thread_step picam (fst i) (snd i))
        inputs th s = Some (th', s')
      /\ at_pc th' = Exited.
Proof.
  induction inputs as [|i inputs IH]; intros th s Htest Hlen; cbn in *.
  - exists th, s. split; [done|]. destruct (at_pc th); cbn in *; done || lia.
  - destruct (V2_thread_step_progress picam i th s Htest)
      as (th1 & s1 & Hstep & Hd).
    rewrite Hstep. apply IH; [|lia].
    by rewrite (V2_thread_step_test _ _ _ _ _ _ Hstep).
Qed.

(** The camera thread has read a frame and stands before the queue when
    the main thread runs [stop_camera].  [stop_camera] returns with the
    thread still at that point, and the thread's next step puts the frame
    into the empty queue of the stopped application. *)
Lemma C5_frame_delivered_after_stop :
  let w := V1.run thread_before_put (mk_world [] V1.init) in
  let stopped := V1.step V1.StopCamera w in
  let later := V1.step (V1.Thread 0 (true, PyArray frame_low)) stopped in
  let w2 := V2.run false no_pil thread_before_put_v2
              (mk_world [] (V2.init 0)) in
  let stopped2 := V2.step false no_pil V2.StopCamera w2 in
  let later2 :=
    V2.step false no_pil (V2.Thread 0 (Ok frame_low) (true, PyArray frame_low))
      stopped2 in
  (camera_active (app stopped) = false
   /\ at_pc <$> threads stopped = [AtDeliver]
   /\ frame_queue (app stopped) = None
   /\ frame_queue (app later)
      = Some (PyArray (cvtColor_BGR2RGB frame_low)))
  /\ (camera_active (app stopped2) = false
      /\ at_pc <$> threads stopped2 = [AtDeliver]
      /\ frame_queue (app stopped2) = None
      /\ frame_queue (app later2)
         = Some (PyArray (cvtColor_BGR2RGB frame_low))).
Proof. vm_compute. repeat split. Qed.

(** ** The page counter and the pages in memory *)

Ltac app_cases :=
  repeat (unfold bind, of_option in *; cbn in *; simplify_eq;
          match goal with
          | |- context [match ?x with _ => _ end] => destruct x eqn:?
          | |- context [if ?b then _ else _] => destruct b eqn:?
          | H : context [match ?x with _ => _ end] |- _ => destruct x eqn:?
          | H : context [if ?b then _ else _] |- _ => destruct b eqn:?
          end);
  cbn in *; simplify_eq; try done.

Lemma counter_matches_document (s s' : App) :
  document s' = document s -> counter_matches s -> counter_matches s'.
Proof. unfold document, counter_matches. intros [= _ _ -> ->]. done. Qed.

Lemma V2_save_image_counter (s : App) :
  counter_matches s -> counter_matches (V2.save_image s).
Proof.
  unfold counter_matches, V2.save_image. intros H.
  app_cases; rewrite length_app; cbn; lia.
Qed.

Lemma V1_save_image_counter (s : App) :
  counter_matches s -> counter_matches (V1.save_image s).
Proof.
  unfold counter_matches, V1.save_image. intros H.
  app_cases; rewrite length_app; cbn; lia.
Qed.

Lemma V2_export_pdf_counter (pil : list pdf_page -> result ndarray)
    (filename : string) (pypdf2 : bool) (s : App) :
  captured_images (V2.export_pdf pil filename pypdf2 s) = captured_images s
  /\ pages_scanned (V2.export_pdf pil filename pypdf2 s) = pages_scanned s.
Proof. unfold V2.export_pdf. app_cases. Qed.

Lemma V2_step_counter (picam : bool) (pil : list pdf_page -> result ndarray)
    (e : V2.event) (w : world) :
  counter_matches (app w) -> counter_matches (app (V2.step picam pil e w)).
Proof.
  destruct w as [ths s]. intros H.
  destruct e; cbn [V2.step V2.on_app app threads].
  - revert H. unfold counter_matches, V2.start_camera. app_cases.
  - revert H. unfold counter_matches, V2.stop_camera. app_cases.
  - revert H. apply counter_matches_document, V2_capture_image_document.
  - by apply V2_save_image_counter.
  - revert H. unfold counter_matches, V2.cancel_capture. app_cases.
  - revert H. unfold counter_matches, V2.toggle_auto_mode. app_cases.
  - revert H. unfold counter_matches, V2.set_document_name. app_cases.
  - unfold counter_matches, V2.new_document. cbn. done.
  - unfold counter_matches in *.
    by destruct (V2_export_pdf_counter pil filename pypdf2 s) as [-> ->].
  - unfold V2.fire_timer.
    destruct (pop_min (after_queue s)) as [[[due cb] rest]|]; [|done].
    destruct cb; cbn [V2.run_callback].
    + revert H. unfold counter_matches, V2.update_camera_canvas. app_cases.
    + revert H. unfold counter_matches, V2.auto_capture. app_cases.
    + unfold V2.auto_save. cbn [current_image set_clock set_after_queue].
      destruct (current_image s) eqn:Hc; [|done].
      by apply V2_save_image_counter.
  - destruct (ths !! i) as [th|]; [|done].
    destruct (V2.thread_step picam lores read th s) as [[th' s']|] eqn:Hstep;
      [|done].
    cbn. revert H Hstep.
    unfold counter_matches, V2.thread_step, V2.acquire, V2.deliver.
    app_cases; intros; simplify_eq; done.
Qed.

Lemma V1_step_counter (e : V1.event) (w : world) :
  counter_matches (app w) -> counter_matches (app (V1.step e w)).
Proof.
  destruct w as [ths s]. intros H.
  destruct e; cbn [V1.step V1.on_app app threads].
  - revert H. unfold counter_matches, V1.start_camera. app_cases.
  - revert H. unfold counter_matches, V1.stop_camera. app_cases.
  - revert H. apply counter_matches_document, V1_capture_image_document.
  - by apply V1_save_image_counter.
  - revert H. unfold counter_matches, V1.cancel_capture. app_cases.
  - revert H. unfold counter_matches, V1.toggle_auto_mode. app_cases.
  - revert H. unfold counter_matches, V1.export_pdf.
    app_cases; intros;
      repeat match goal with
             | E : captured_images _ = _ |- _ => rewrite E; clear E
             end; done.
  - unfold V1.fire_timer.
    destruct (pop_min (after_queue s)) as [[[due cb] rest]|]; [|done].
    destruct cb; cbn [V1.run_callback].
    + revert H. unfold counter_matches, V1.update_camera_canvas. app_cases.
    + revert H. unfold counter_matches, V1.auto_capture. app_cases.
    + unfold V1.auto_save. cbn [current_image set_clock set_after_queue].
      destruct (current_image s) eqn:Hc; [|done].
      by apply V1_save_image_counter.
  - destruct (ths !! i) as [th|]; [|done].
    destruct (V1.thread_step read th s) as [[th' s']|] eqn:Hstep; [|done].
    cbn. revert H Hstep.
    unfold counter_matches, V1.thread_step, V1.acquire, V1.deliver.
    app_cases; intros; simplify_eq; done.
Qed.

Lemma V2_run_counter (picam : bool) (pil : list pdf_page -> result ndarray)
    (trace : list V2.event) :
  forall w, counter_matches (app w) ->
            counter_matches (app (V2.run picam pil trace w)).
Proof.
  induction trace as [|e trace IH]; intros w H; [done|].
  cbn. apply IH. by apply V2_step_counter.
Qed.

Lemma V1_run_counter (trace : list V1.event) :
  forall w, counter_matches (app w) -> counter_matches (app (V1.run trace w)).
Proof.
  induction trace as [|e trace IH]; intros w H; [done|].
  cbn. apply IH. by apply V1_step_counter.
Qed.

(** ** Stopping the camera while the application goes on *)

Lemma steps_to_exit_0 (p : pc) : steps_to_exit p = 0 -> p = Exited.
Proof. by destruct p. Qed.

Lemma steps_to_exit_le (p : pc) : steps_to_exit p <= 4.
Proof. destruct p; cbn; lia. Qed.

Lemma V2_export_pdf_flags (pil : list pdf_page -> result ndarray)
    (filename : string) (pypdf2 : bool) (s : App) :
  camera_active (V2.export_pdf pil filename pypdf2 s) = camera_active s
  /\ stop_event (V2.export_pdf pil filename pypdf2 s) = stop_event s.
Proof. unfold V2.export_pdf. app_cases. Qed.

(** Nothing but [start_camera] makes a false loop test true again. *)
Lemma V1_step_test_false (e : V1.event) (w : world) :
  V1_no_start e ->
  V1.camera_stream_test (app w) = false ->
  V1.camera_stream_test (app (V1.step e w)) = false.
Proof.
  destruct w as [ths s]. intros He Ht.
  destruct e; try done; cbn [V1.step V1.on_app app threads] in *.
  - apply V1_stop_camera_inactive.
  - revert Ht. unfold V1.camera_stream_test, V1.capture_image. app_cases.
  - revert Ht. unfold V1.camera_stream_test, V1.save_image. app_cases.
  - revert Ht. unfold V1.camera_stream_test, V1.cancel_capture. app_cases.
  - revert Ht. unfold V1.camera_stream_test, V1.toggle_auto_mode. app_cases.
  - revert Ht. unfold V1.camera_stream_test, V1.export_pdf. app_cases.
  - unfold V1.fire_timer.
    destruct (pop_min (after_queue s)) as [[[due cb] rest]|]; [|done].
    destruct cb; cbn [V1.run_callback].
    + revert Ht. unfold V1.camera_stream_test, V1.update_camera_canvas.
      app_cases.
    + revert Ht. unfold V1.camera_stream_test, V1.auto_capture. app_cases.
    + revert Ht. unfold V1.camera_stream_test, V1.auto_save, V1.save_image.
      app_cases.
  - destruct (ths !! i) as [th|]; [|done].
    destruct (V1.thread_step read th s) as [[th' s']|] eqn:Hstep; [|done].
    cbn. by rewrite (V1_thread_step_test _ _ _ _ _ Hstep).
Qed.

Lemma V2_step_test_false (picam : bool)
    (pil : list pdf_page -> result ndarray) (e : V2.event) (w : world) :
  V2_no_start e ->
  V2.camera_stream_test (app w) = false ->
  V2.camera_stream_test (app (V2.step picam pil e w)) = false.
Proof.
  destruct w as [ths s]. intros He Ht.
  destruct e; try done; cbn [V2.step V2.on_app app threads] in *.
  - apply V2_stop_camera_inactive.
  - revert Ht. unfold V2.camera_stream_test, V2.capture_image. app_cases.
  - revert Ht. unfold V2.camera_stream_test, V2.save_image. app_cases.
  - revert Ht. unfold V2.camera_stream_test, V2.cancel_capture. app_cases.
  - revert Ht. unfold V2.camera_stream_test, V2.toggle_auto_mode. app_cases.
  - revert Ht. unfold V2.camera_stream_test, V2.set_document_name.
    app_cases.
  - revert Ht. unfold V2.camera_stream_test, V2.new_document.
    destruct ((0 <? pages_scanned s)%nat && yes); cbn; [|done].
    by destruct (V2_export_pdf_flags pil filename pypdf2 s) as [-> ->].
  - revert Ht. unfold V2.camera_stream_test.
    by destruct (V2_export_pdf_flags pil filename pypdf2 s) as [-> ->].
  - unfold V2.fire_timer.
    destruct (pop_min (after_queue s)) as [[[due cb] rest]|]; [|done].
    destruct cb; cbn [V2.run_callback].
    + revert Ht. unfold V2.camera_stream_test, V2.update_camera_canvas.
      app_cases.
    + revert Ht. unfold V2.camera_stream_test, V2.auto_capture. app_cases.
    + revert Ht. unfold V2.camera_stream_test, V2.auto_save, V2.save_image.
      app_cases.
  - destruct (ths !! i) as [th|]; [|done].
    destruct (V2.thread_step picam lores read th s) as [[th' s']|] eqn:Hstep;
      [|done].
    cbn. by rewrite (V2_thread_step_test picam (lores, read) _ _ _ _ Hstep).
Qed.

(** With the loop test false and the camera not started again, a thread
    stays where it is while others act and comes closer to the end of
    [camera_stream] with each step of its own. *)
Lemma V1_step_towards_exit (e : V1.event) (w : world) (i : nat)
    (th : thread) :
  V1_no_start e ->
  V1.camera_stream_test (app w) = false ->
  threads w !! i = Some th ->
  exists th',
    threads (V1.step e w) !! i = Some th'
    /\ steps_to_exit (at_pc th')
       <= steps_to_exit (at_pc th) - (if V1_is_step_of i e then 1 else 0).
Proof.
  destruct w as [ths s]. intros He Ht Hth. cbn in Ht, Hth.
  destruct e; try done; cbn [V1.step V1.on_app app threads V1_is_step_of];
    try (exists th; split; [done|lia]).
  destruct (decide (i = i0)) as [<-|Hne].
  - rewrite Nat.eqb_refl, Hth.
    destruct (V1_thread_step_progress read th s Ht) as (th' & s' & -> & Hd).
    cbn. exists th'. split; [|done].
    apply list_lookup_insert_eq. by eapply lookup_lt_Some.
  - rewrite (proj2 (Nat.eqb_neq i i0) Hne).
    destruct (ths !! i0) as [thj|] eqn:Hj; [|exists th; split; [done|lia]].
    destruct (V1_thread_step_progress read thj s Ht) as (thj' & s' & -> & _).
    cbn. exists th. split; [|lia].
    by rewrite list_lookup_insert_ne.
Qed.

Lemma V2_step_towards_exit (picam : bool)
    (pil : list pdf_page -> result ndarray) (e : V2.event) (w : world)
    (i : nat) (th : thread) :
  V2_no_start e ->
  V2.camera_stream_test (app w) = false ->
  threads w !! i = Some th ->
  exists th',
    threads (V2.step picam pil e w) !! i = Some th'
    /\ steps_to_exit (at_pc th')
       <= steps_to_exit (at_pc th) - (if V2_is_step_of i e then 1 else 0).
Proof.
  destruct w as [ths s]. intros He Ht Hth. cbn in Ht, Hth.
  destruct e; try done; cbn [V2.step V2.on_app app threads V2_is_step_of];
    try (exists th; split; [done|lia]).
  destruct (decide (i = i0)) as [<-|Hne].
  - rewrite Nat.eqb_refl, Hth.
    destruct (V2_thread_step_progress picam (lores, read) th s Ht)
      as (th' & s' & Hstep & Hd).
    cbn in Hstep. rewrite Hstep.
    cbn. exists th'. split; [|done].
    apply list_lookup_insert_eq. by eapply lookup_lt_Some.
  - rewrite (proj2 (Nat.eqb_neq i i0) Hne).
    destruct (ths !! i0) as [thj|] eqn:Hj; [|exists th; split; [done|lia]].
    destruct (V2_thread_step_progress picam (lores, read) thj s Ht)
      as (thj' & s' & Hstep & _).
    cbn in Hstep. rewrite Hstep.
    cbn. exists th. split; [|lia].
    by rewrite list_lookup_insert_ne.
Qed.

Lemma V1_run_towards_exit (trace : list V1.event) :
  forall (w : world) (i : nat) (th : thread),
    Forall V1_no_start trace ->
    V1.camera_stream_test (app w) = false ->
    threads w !! i = Some th ->
    V1.camera_stream_test (app (V1.run trace w)) = false
    /\ exists th',
         threads (V1.run trace w) !! i = Some th'
         /\ steps_to_exit (at_pc th')
            <= steps_to_exit (at_pc th) - V1_own_steps i trace.
Proof.
  induction trace as [|e trace IH]; intros w i th Htrace Ht Hth.
  { split; [done|]. exists th. split; [done|]. cbn. lia. }
  apply Forall_cons in Htrace as [He Htrace].
  destruct (V1_step_towards_exit e w i th He Ht Hth) as (th1 & Hth1 & Hd1).
  pose proof (V1_step_test_false e w He Ht) as Ht1.
  destruct (IH (V1.step e w) i th1 Htrace Ht1 Hth1)
    as (Ht2 & th2 & Hth2 & Hd2).
  cbn. fold (V1.run trace (V1.step e w)).
  split; [done|]. exists th2. split; [done|]. lia.
Qed.

Lemma V2_run_towards_exit (picam : bool)
    (pil : list pdf_page -> result ndarray) (trace : list V2.event) :
  forall (w : world) (i : nat) (th : thread),
    Forall V2_no_start trace ->
    V2.camera_stream_test (app w) = false ->
    threads w !! i = Some th ->
    V2.camera_stream_test (app (V2.run picam pil trace w)) = false
    /\ exists th',
         threads (V2.run picam pil trace w) !! i = Some th'
         /\ steps_to_exit (at_pc th')
            <= steps_to_exit (at_pc th) - V2_own_steps i trace.
Proof.
  induction trace as [|e trace IH]; intros w i th Htrace Ht Hth.
  { split; [done|]. exists th. split; [done|]. cbn. lia. }
  apply Forall_cons in Htrace as [He Htrace].
  destruct (V2_step_towards_exit picam pil e w i th He Ht Hth)
    as (th1 & Hth1 & Hd1).
  pose proof (V2_step_test_false picam pil e w He Ht) as Ht1.
  destruct (IH (V2.step picam pil e w) i th1 Htrace Ht1 Hth1)
    as (Ht2 & th2 & Hth2 & Hd2).
  cbn. fold (V2.run picam pil trace (V2.step picam pil e w)).
  split; [done|]. exists th2. split; [done|]. lia.
Qed.

(** [start_camera] after [stop_camera] makes the loop test true again. *)
Lemma V1_restart_test (s : App) :
  V1.camera_stream_test (V1.start_camera true (V1.stop_camera s)) = true
  /\ camera_active (V1.stop_camera s) = false.
Proof.
  unfold V1.stop_camera, V1.start_camera, V1.camera_stream_test.
  destruct (camera_active s) eqn:Hact; cbn; [|by rewrite Hact].
  by destruct (camera s).
Qed.

Lemma V2_restart_test (picam : bool) (s : App) :
  V2.camera_stream_test (V2.start_camera picam true (V2.stop_camera picam s))
  = true
  /\ camera_active (V2.stop_camera picam s) = false.
Proof.
  unfold V2.stop_camera, V2.start_camera, V2.camera_stream_test.
  destruct (camera_active s) eqn:Hact; cbn.
  - destruct picam, (picam2 s), (camera s); done.
  - rewrite Hact. by destruct picam.
Qed.

(** C5, as the code has it.  [stop_camera] is idempotent.  It does not
    wait for the camera thread: the threads are where they were when it
    returns.  A thread that is at its loop test then leaves the loop
    without touching the application; a thread inside the loop body
    finishes that pass, in which it may still put its frame into the
    queue, and is over after at most four steps.  This holds whatever
    the user, the timers and other threads do in between, as long as the
    camera is not started again.  [start_camera] shares the flags with
    the old thread and waits for no thread either: run before the old
    thread has reached its loop test, it makes that test true again, and
    the old thread goes on beside the new one. *)
Theorem C5_stop_camera_idempotent_without_join
    (s : App) (ths : list thread) (th : thread) :
  (V1.stop_camera (V1.stop_camera s) = V1.stop_camera s
   /\ forall picam,
        V2.stop_camera picam (V2.stop_camera picam s)
        = V2.stop_camera picam s)
  /\ (threads (V1.step V1.StopCamera (mk_world ths s)) = ths
      /\ forall picam pil,
           threads (V2.step picam pil V2.StopCamera (mk_world ths s)) = ths)
  /\ ((forall i, at_pc th = AtTest ->
         V1.thread_step i th (V1.stop_camera s)
         = Some (mk_thread Exited (frame th), V1.stop_camera s))
      /\ forall picam lores read, at_pc th = AtTest ->
           V2.thread_step picam lores read th (V2.stop_camera picam s)
           = Some (mk_thread Exited (frame th), V2.stop_camera picam s))
  /\ ((forall inputs, 4 <= length inputs ->
         exists th' s',
           thread_run V1.thread_step inputs th (V1.stop_camera s)
           = Some (th', s')
           /\ at_pc th' = Exited)
      /\ forall picam inputs, 4 <= length inputs ->
           exists th' s',
             thread_run (fun i => V2.thread_step picam (fst i) (snd i))
               inputs th (V2.stop_camera picam s)
             = Some (th', s')
             /\ at_pc th' = Exited)
  (* whatever else happens, the camera not being started again *)
  /\ ((forall trace i,
         Forall V1_no_start trace ->
         ths !! i = Some th ->
         V1.camera_stream_test
           (app (V1.run trace (V1.step V1.StopCamera (mk_world ths s))))
         = false
         /\ exists th',
              threads (V1.run trace
                         (V1.step V1.StopCamera (mk_world ths s))) !! i
              = Some th'
              /\ steps_to_exit (at_pc th')
                 <= steps_to_exit (at_pc th) - V1_own_steps i trace
              /\ (4 <= V1_own_steps i trace -> at_pc th' = Exited))
      /\ forall picam pil trace i,
           Forall V2_no_start trace ->
           ths !! i = Some th ->
           V2.camera_stream_test
             (app (V2.run picam pil trace
                     (V2.step picam pil V2.StopCamera (mk_world ths s))))
           = false
           /\ exists th',
                threads (V2.run picam pil trace
                           (V2.step picam pil V2.StopCamera
                              (mk_world ths s))) !! i
                = Some th'
                /\ steps_to_exit (at_pc th')
                   <= steps_to_exit (at_pc th) - V2_own_steps i trace
                /\ (4 <= V2_own_steps i trace -> at_pc th' = Exited))
  (* the camera started again before the thread has left *)
  /\ ((V1.camera_stream_test (V1.start_camera true (V1.stop_camera s))
       = true
       /\ threads (V1.step (V1.StartCamera true)
                     (V1.step V1.StopCamera (mk_world ths s)))
          = ths ++ [mk_thread AtTest None]
       /\ forall i, at_pc th = AtTest ->
            V1.thread_step i th (V1.start_camera true (V1.stop_camera s))
            = Some (mk_thread AtAcquire (frame th),
                    V1.start_camera true (V1.stop_camera s)))
      /\ forall picam pil,
           V2.camera_stream_test
             (V2.start_camera picam true (V2.stop_camera picam s))
           = true
           /\ threads (V2.step picam pil (V2.StartCamera true)
                         (V2.step picam pil V2.StopCamera
                            (mk_world ths s)))
              = ths ++ [mk_thread AtTest None]
           /\ forall lores read, at_pc th = AtTest ->
                V2.thread_step picam lores read th
                  (V2.start_camera picam true (V2.stop_camera picam s))
                = Some (mk_thread AtAcquire (frame th),
                        V2.start_camera picam true
                          (V2.stop_camera picam s))).
Proof.
  split; [|split; [|split; [|split; [|split]]]].
  - split; [apply V1_stop_camera_idempotent|].
    intros. apply V2_stop_camera_idempotent.
  - done.
  - split.
    + intros i Hpc. unfold V1.thread_step.
      by rewrite Hpc, V1_stop_camera_inactive.
    + intros picam lores read Hpc. unfold V2.thread_step.
      by rewrite Hpc, V2_stop_camera_inactive.
  - split.
    + intros inputs Hlen. apply V1_thread_run_exits.
      * apply V1_stop_camera_inactive.
      * destruct (at_pc th); cbn; lia.
    + intros picam inputs Hlen. apply V2_thread_run_exits.
      * apply V2_stop_camera_inactive.
      * destruct (at_pc th); cbn; lia.
  - split.
    + intros trace i Htrace Hth.
      destruct (V1_run_towards_exit trace
                  (V1.step V1.StopCamera (mk_world ths s)) i th Htrace)
        as (Ht & th' & Hth' & Hd); [apply V1_stop_camera_inactive|done|].
      split; [done|]. exists th'. split; [done|]. split; [done|].
      intros Hown. apply steps_to_exit_0.
      pose proof (steps_to_exit_le (at_pc th)). lia.
    + intros picam pil trace i Htrace Hth.
      destruct (V2_run_towards_exit picam pil trace
                  (V2.step picam pil V2.StopCamera (mk_world ths s)) i th
                  Htrace)
        as (Ht & th' & Hth' & Hd); [apply V2_stop_camera_inactive|done|].
      split; [done|]. exists th'. split; [done|]. split; [done|].
      intros Hown. apply steps_to_exit_0.
      pose proof (steps_to_exit_le (at_pc th)). lia.
  - split.
    + destruct (V1_restart_test s) as [Htest Hoff].
      split; [done|]. split.
      * cbn. by rewrite Hoff.
      * intros i Hpc. unfold V1.thread_step. by rewrite Hpc, Htest.
    + intros picam pil.
      destruct (V2_restart_test picam s) as [Htest Hoff].
      split; [done|]. split.
      * cbn. by rewrite Hoff.
      * intros lores read Hpc. unfold V2.thread_step.
        by rewrite Hpc, Htest.
Qed.

(** The camera thread stands before the queue when the camera is
    stopped; the user cancels and the main loop runs a timer while the
    thread takes its four steps. *)
Lemma C5_witness :
  let w := V1.run thread_before_put (mk_world [] V1.init) in
  let trace := [V1.Thread 0 (true, PyArray frame_low); V1.Cancel;
                V1.Thread 0 (true, PyArray frame_low); V1.Timer;
                V1.Thread 0 (true, PyArray frame_low);
                V1.Thread 0 (true, PyArray frame_low)] in
  at_pc <$> threads w = [AtDeliver]
  /\ exists th',
       threads (V1.run trace (V1.step V1.StopCamera w)) !! 0 = Some th'
       /\ at_pc th' = Exited.
Proof.
  cbv zeta. split; [by vm_compute|].
  destruct (proj1 (proj1 (proj2 (proj2 (proj2 (proj2
              (C5_stop_camera_idempotent_without_join
                 (app (V1.run thread_before_put (mk_world [] V1.init)))
                 (threads (V1.run thread_before_put (mk_world [] V1.init)))
                 (mk_thread AtDeliver
                    (Some (PyArray (cvtColor_BGR2RGB frame_low))))))))))
              [V1.Thread 0 (true, PyArray frame_low); V1.Cancel;
               V1.Thread 0 (true, PyArray frame_low); V1.Timer;
               V1.Thread 0 (true, PyArray frame_low);
               V1.Thread 0 (true, PyArray frame_low)] 0
              ltac:(repeat constructor) eq_refl)
    as (_ & th' & Hth' & _ & Hexit).
  exists th'. split; [exact Hth'|].
  apply Hexit. cbn. lia.
Defined.


(** ** Export *)










(** ** Strings and paths *)

Lemma String_app_cons (c : ascii) (a b : string) :
  String c a +:+ b = String c (a +:+ b).
Proof. reflexivity. Qed.

Lemma String_app_empty (b : string) : "" +:+ b = b.
Proof. reflexivity. Qed.

Lemma rsplit_slash_app_None (a b : string) :
  rsplit_slash a = None -> rsplit_slash b = None ->
  rsplit_slash (a +:+ b) = None.
Proof.
  intros Ha Hb. induction a as [|c a IH]; [done|].
  rewrite String_app_cons. cbn in *.
  destruct (rsplit_slash a) as [[d x]|]; [done|].
  rewrite IH by done. by destruct (Ascii.eqb c "/").
Qed.

Lemma rsplit_slash_dir (d b : string) :
  rsplit_slash b = None -> rsplit_slash (d +:+ "/" +:+ b) = Some (d, b).
Proof.
  intros Hb. induction d as [|c d IH].
  - rewrite String_app_empty, String_app_cons, String_app_empty. cbn.
    by rewrite Hb.
  - rewrite String_app_cons. cbn. by rewrite IH.
Qed.

Lemma split_path_dir (d b : string) :
  plain_name b -> split_path (d +:+ "/" +:+ b) = (d, b).
Proof. intros Hb. unfold split_path. by rewrite rsplit_slash_dir. Qed.

Lemma endswith_app (x suffix : string) : endswith (x +:+ suffix) suffix = true.
Proof.
  induction x as [|c x IH].
  - rewrite String_app_empty.
    destruct suffix; cbn; by rewrite ?Ascii.eqb_refl, ?String.eqb_refl.
  - rewrite String_app_cons. cbn. rewrite IH. by case_match.
Qed.

Lemma String_compare_app (p a b : string) :
  String.compare (p +:+ a) (p +:+ b) = String.compare a b.
Proof.
  induction p as [|c p IH]; [done|]. rewrite !String_app_cons. cbn.
  unfold Ascii.compare. by rewrite N.compare_refl.
Qed.

Lemma String_le_app (p a b : string) :
  String.le a b -> String.le (p +:+ a) (p +:+ b).
Proof. unfold String.le, String.leb. by rewrite String_compare_app. Qed.

Lemma String_app_assoc (a b c : string) : (a +:+ b) +:+ c = a +:+ b +:+ c.
Proof.
  induction a as [|x a IH]; [done|]. rewrite !String_app_cons. by f_equal.
Qed.

(** ** Page names

    Up to page 999 the three-digit number makes code-point order and page
    order agree; what the proofs need about these names is checked by
    evaluation. *)

Lemma V2_page_path_name (s : App) :
  V2.page_path s
  = output_dir s +:+ "/" +:+ page_name (current_doc_name s) (pages_scanned s).
Proof. reflexivity. Qed.

Lemma Scanner_page_path_name (s : Scanner.SimpleDocumentScanner) :
  Scanner.page_path s
  = Scanner.output_dir s +:+ "/"
      +:+ page_name (Scanner.current_doc_name s) (Scanner.page_count s).
Proof. reflexivity. Qed.

Lemma page_suffixes_sorted : Sorted String.le (page_suffix <$> seq 1 999).
Proof. apply (bool_decide_unpack _). by vm_compute. Qed.

Lemma page_suffixes_NoDup : NoDup (page_suffix <$> seq 1 999).
Proof. apply (bool_decide_unpack _). by vm_compute. Qed.

Lemma page_suffixes_plain :
  Forall (fun i => rsplit_slash (page_suffix i) = None) (seq 1 999).
Proof. apply (bool_decide_unpack _). by vm_compute. Qed.

Lemma seq_999 (n : nat) :
  n <= 999 -> seq 1 999 = seq 1 n ++ seq (1 + n) (999 - n).
Proof. intros Hn. rewrite <- seq_app. f_equal. lia. Qed.

Lemma page_names_suffixes (doc : string) (n : nat) :
  page_names doc n = String.app doc <$> (page_suffix <$> seq 1 n).
Proof. by rewrite <- list_fmap_compose. Qed.

Lemma page_names_sorted (doc : string) (n : nat) :
  n <= 999 -> Sorted String.le (page_names doc n).
Proof.
  intros Hn. rewrite page_names_suffixes.
  apply (Sorted_fmap _ String.le); [intros x y; apply String_le_app|].
  pose proof page_suffixes_sorted as Hs.
  rewrite (seq_999 n Hn), fmap_app in Hs.
  apply Sorted_StronglySorted in Hs; [|apply _].
  apply StronglySorted_app_1_l in Hs.
  by apply StronglySorted_Sorted.
Qed.

Lemma page_names_NoDup (doc : string) (n : nat) :
  n <= 999 -> NoDup (page_names doc n).
Proof.
  intros Hn. rewrite page_names_suffixes.
  apply (NoDup_fmap_2 _).
  pose proof page_suffixes_NoDup as Hs.
  rewrite (seq_999 n Hn), fmap_app in Hs.
  by apply NoDup_app in Hs as (? & _).
Qed.

Lemma page_name_plain (doc : string) (i : nat) :
  plain_name doc -> 1 <= i <= 999 -> plain_name (page_name doc i).
Proof.
  intros Hdoc Hi. apply rsplit_slash_app_None; [done|].
  pose proof page_suffixes_plain as Hs.
  rewrite Forall_seq in Hs. apply Hs. lia.
Qed.

Lemma page_name_endswith (doc : string) (i : nat) :
  endswith (page_name doc i) ".pdf" = true.
Proof.
  unfold page_name, page_suffix.
  rewrite <- !String_app_assoc. apply endswith_app.
Qed.

Lemma elem_of_page_names (doc name : string) (n : nat) :
  name ∈ page_names doc n <-> exists i, name = page_name doc i /\ 1 <= i <= n.
Proof.
  unfold page_names. rewrite list_elem_of_fmap.
  split; intros (i & -> & Hi); exists i; (split; [done|]).
  - apply elem_of_seq in Hi. lia.
  - apply elem_of_seq. lia.
Qed.

Lemma page_names_S (doc : string) (n : nat) :
  page_names doc (S n) = page_names doc n ++ [page_name doc (S n)].
Proof. unfold page_names. by rewrite seq_S, fmap_app. Qed.

Lemma page_name_fresh (doc : string) (n : nat) :
  n < 999 -> page_name doc (S n) ∉ page_names doc n.
Proof.
  intros Hn Hin.
  pose proof (page_names_NoDup doc (S n) ltac:(lia)) as Hnd.
  rewrite page_names_S in Hnd.
  apply NoDup_app in Hnd as (_ & Hdisj & _).
  apply (Hdisj _ Hin). by apply list_elem_of_singleton.
Qed.

(** ** The document directory *)

Lemma filter_all {A} (P : A -> Prop) `{forall x, Decision (P x)}
    (l : list A) :
  Forall P l -> filter P l = l.
Proof.
  induction 1 as [|x l Hx _ IH]; [done|].
  rewrite filter_cons_True by done. by f_equal.
Qed.

(** Sorting a listing that holds the names of a sorted list gives that
    list. *)
Lemma sorted_listing (listing names : list string) :
  Sorted String.le names -> listing ≡ₚ names -> sorted listing = names.
Proof.
  intros Hs Hp. unfold sorted.
  apply (Sorted_unique String.le); [apply Sorted_merge_sort; apply _|done|].
  by rewrite merge_sort_Permutation.
Qed.

Lemma holds_pages_empty (fs : FS) (dir doc : string) :
  fs !! dir = Some ∅ -> holds_pages fs dir doc [].
Proof.
  intros Hdir. exists ∅. split; [done|]. split.
  - intros name. rewrite lookup_empty. split; [by intros [? ?]|].
    unfold page_names. cbn. by intros ?%elem_of_nil.
  - intros i a. by rewrite lookup_nil.
Qed.

Lemma holds_pages_write (fs : FS) (dir doc : string)
    (stored : list ndarray) (a : ndarray) :
  holds_pages fs dir doc stored ->
  plain_name doc ->
  length stored < 999 ->
  exists fs',
    write_file (dir +:+ "/" +:+ page_name doc (S (length stored)))
      [PageImage a] fs = Ok fs'
    /\ holds_pages fs' dir doc (stored ++ [a]).
Proof.
  intros (files & Hdir & Hdom & Hcontent) Hdoc Hlen.
  unfold write_file.
  rewrite split_path_dir by (apply page_name_plain; [done|lia]).
  rewrite Hdir. eexists. split; [done|].
  exists (<[page_name doc (S (length stored)) := [PageImage a]]> files).
  split; [by rewrite lookup_insert_eq|]. split.
  - intros name. rewrite length_app. cbn.
    replace (length stored + 1) with (S (length stored)) by lia.
    rewrite page_names_S, elem_of_app, list_elem_of_singleton.
    rewrite lookup_insert_is_Some, <- Hdom.
    split; [intros [<-|[_ ?]]|intros [?| ->]]; auto.
    destruct (decide (page_name doc (S (length stored)) = name)); auto.
  - intros i b Hi.
    apply lookup_app_Some in Hi as [Hi|[Hge Hi]].
    + rewrite lookup_insert_ne; [by apply Hcontent|].
      intros Heq. apply (page_name_fresh doc (length stored) Hlen).
      rewrite Heq. apply elem_of_page_names. exists (S i).
      split; [done|]. apply lookup_lt_Some in Hi. lia.
    + apply list_lookup_singleton_Some in Hi as [Hi ->].
      replace i with (length stored) by lia.
      by rewrite lookup_insert_eq.
Qed.

Lemma holds_pages_listing (fs : FS) (dir doc : string)
    (stored : list ndarray) :
  holds_pages fs dir doc stored ->
  length stored <= 999 ->
  pdf_files_in dir fs = Ok (page_names doc (length stored)).
Proof.
  intros (files & Hdir & Hdom & _) Hlen.
  unfold pdf_files_in, listdir. rewrite Hdir. cbn. f_equal.
  assert (fst <$> map_to_list files ≡ₚ page_names doc (length stored))
    as Hperm.
  { apply NoDup_Permutation.
    - apply NoDup_fst_map_to_list.
    - by apply page_names_NoDup.
    - intros name. rewrite <- Hdom. rewrite list_elem_of_fmap. split.
      + intros ([k v] & -> & Hkv%elem_of_map_to_list). eauto.
      + intros [v Hv]. exists (name, v). split; [done|].
        by apply elem_of_map_to_list. }
  rewrite filter_all.
  - apply sorted_listing; [by apply page_names_sorted|done].
  - rewrite Hperm. apply Forall_forall.
    intros name (i & -> & _)%elem_of_page_names. apply page_name_endswith.
Qed.

Lemma holds_pages_read (fs : FS) (dir doc : string)
    (stored : list ndarray) (i : nat) (a : ndarray) :
  holds_pages fs dir doc stored ->
  plain_name doc ->
  length stored <= 999 ->
  stored !! i = Some a ->
  read_file (dir +:+ "/" +:+ page_name doc (S i)) fs = Ok [PageImage a].
Proof.
  intros (files & Hdir & _ & Hcontent) Hdoc Hlen Hi.
  unfold read_file. rewrite split_path_dir.
  - by rewrite Hdir, (Hcontent i a Hi).
  - apply page_name_plain; [done|]. apply lookup_lt_Some in Hi. lia.
Qed.

Lemma V2_append_all_pages (fs : FS) (dir : string) (names : list string)
    (stored : list ndarray) :
  Forall2 (fun name a => read_file (dir +:+ "/" +:+ name) fs
                         = Ok [PageImage a]) names stored ->
  V2.append_all dir names fs = Ok (PageImage <$> stored).
Proof.
  induction 1 as [|name a names stored Hread _ IH]; [done|].
  cbn. by rewrite Hread, IH.
Qed.

Lemma Scanner_append_all_pages (fs : FS) (dir : string)
    (names : list string) (stored : list ndarray) :
  Forall2 (fun name a => read_file (dir +:+ "/" +:+ name) fs
                         = Ok [PageImage a]) names stored ->
  Scanner.append_all dir names fs = Ok (PageImage <$> stored).
Proof.
  induction 1 as [|name a names stored Hread _ IH]; [done|].
  cbn. by rewrite Hread, IH.
Qed.

Lemma holds_pages_read_all (fs : FS) (dir doc : string)
    (stored : list ndarray) :
  holds_pages fs dir doc stored ->
  plain_name doc ->
  length stored <= 999 ->
  Forall2 (fun name a => read_file (dir +:+ "/" +:+ name) fs
                         = Ok [PageImage a])
    (page_names doc (length stored)) stored.
Proof.
  intros Hh Hdoc Hlen. apply Forall2_same_length_lookup. split.
  - unfold page_names. by rewrite length_fmap, length_seq.
  - intros i name a Hname Ha.
    unfold page_names in Hname. rewrite list_lookup_fmap in Hname.
    apply fmap_Some in Hname as (k & Hk%lookup_seq & ->).
    destruct Hk as [-> _].
    by apply (holds_pages_read fs dir doc stored).
Qed.

(** ** N commits into a fresh document *)

Lemma V2_save_image_page (s : App) (img a : ndarray)
    (stored : list ndarray) :
  current_image s = Some img ->
  V2.as_rgb img = Ok a ->
  holds_pages (disk s) (output_dir s) (current_doc_name s) stored ->
  pages_scanned s = length stored ->
  plain_name (current_doc_name s) ->
  length stored < 999 ->
  holds_pages (disk (V2.save_image s)) (output_dir s) (current_doc_name s)
    (stored ++ [a])
  /\ pages_scanned (V2.save_image s) = length (stored ++ [a])
  /\ output_dir (V2.save_image s) = output_dir s
  /\ current_doc_name (V2.save_image s) = current_doc_name s.
Proof.
  intros Hc Ha Hh Hn Hdoc Hlen.
  destruct (holds_pages_write _ _ _ _ a Hh Hdoc Hlen) as (fs' & Hw & Hh').
  unfold V2.save_image. rewrite Hc. cbn.
  unfold V2.save_as_pdf. rewrite Ha. cbn.
  rewrite V2_page_path_name. cbn.
  rewrite Hn, Nat.add_1_r, Hw. cbn.
  rewrite length_app. cbn.
  destruct (auto_mode s); cbn; repeat split; try done; lia.
Qed.

Lemma commit_all_cons (save : App -> App) (img : ndarray)
    (frames : list ndarray) (s : App) :
  commit_all save (img :: frames) s
  = commit_all save frames (save (set_current_image (Some img) s)).
Proof. reflexivity. Qed.

Lemma V2_commit_all_pages (frames : list ndarray) :
  forall (stored stored0 : list ndarray) (s : App),
    Forall2 (fun img a => V2.as_rgb img = Ok a) frames stored ->
    holds_pages (disk s) (output_dir s) (current_doc_name s) stored0 ->
    pages_scanned s = length stored0 ->
    plain_name (current_doc_name s) ->
    length stored0 + length frames <= 999 ->
    holds_pages (disk (commit_all V2.save_image frames s)) (output_dir s)
      (current_doc_name s) (stored0 ++ stored)
    /\ pages_scanned (commit_all V2.save_image frames s)
       = length (stored0 ++ stored)
    /\ output_dir (commit_all V2.save_image frames s) = output_dir s
    /\ current_doc_name (commit_all V2.save_image frames s)
       = current_doc_name s.
Proof.
  induction frames as [|img frames IH];
    intros stored stored0 s Hf Hh Hn Hdoc Hlen; inv Hf.
  - by rewrite app_nil_r.
  - rewrite commit_all_cons.
    set (s1 := V2.save_image (set_current_image (Some img) s)).
    destruct (V2_save_image_page (set_current_image (Some img) s) img y
                stored0 eq_refl H1 Hh Hn Hdoc)
      as (Hh' & Hn' & Hdir' & Hname'); [cbn in Hlen; lia|].
    fold s1 in Hh', Hn', Hdir', Hname'.
    change (output_dir (set_current_image (Some img) s))
      with (output_dir s) in *.
    change (current_doc_name (set_current_image (Some img) s))
      with (current_doc_name s) in *.
    clearbody s1.
    destruct (IH l' (stored0 ++ [y]) s1) as (Hh2 & Hn2 & Hdir2 & Hname2).
    + done.
    + by rewrite Hdir', Hname'.
    + done.
    + by rewrite Hname'.
    + rewrite length_app. cbn in *. lia.
    + rewrite Hdir', Hname', <- app_assoc in Hh2.
      rewrite <- app_assoc in Hn2.
      rewrite Hdir2, Hname2, Hdir', Hname'.
      split; [exact Hh2|]. split; [exact Hn2|]. done.
Qed.

Lemma Scanner_process_and_save_page (s : Scanner.SimpleDocumentScanner)
    (img : ndarray) (stored : list ndarray) :
  holds_pages (Scanner.disk s) (Scanner.output_dir s)
    (Scanner.current_doc_name s) stored ->
  Scanner.page_count s = length stored ->
  plain_name (Scanner.current_doc_name s) ->
  length stored < 999 ->
  holds_pages (Scanner.disk (Scanner.process_and_save (Ok img) s).1)
    (Scanner.output_dir s) (Scanner.current_doc_name s)
    (stored ++ [cvtColor_BGR2RGB img])
  /\ Scanner.page_count (Scanner.process_and_save (Ok img) s).1
     = length (stored ++ [cvtColor_BGR2RGB img])
  /\ Scanner.output_dir (Scanner.process_and_save (Ok img) s).1
     = Scanner.output_dir s
  /\ Scanner.current_doc_name (Scanner.process_and_save (Ok img) s).1
     = Scanner.current_doc_name s.
Proof.
  intros Hh Hn Hdoc Hlen.
  destruct (holds_pages_write _ _ _ _ (cvtColor_BGR2RGB img) Hh Hdoc Hlen)
    as (fs' & Hw & Hh').
  unfold Scanner.process_and_save, Scanner.save_as_pdf.
  rewrite Scanner_page_path_name. cbn.
  rewrite Hn, Nat.add_1_r, Hw. cbn.
  rewrite length_app. cbn. repeat split; try done; lia.
Qed.

Lemma scan_all_cons (img : ndarray) (frames : list ndarray)
    (s : Scanner.SimpleDocumentScanner) :
  scan_all (img :: frames) s
  = scan_all frames (Scanner.process_and_save (Ok img) s).1.
Proof. reflexivity. Qed.

Lemma scan_all_pages (frames : list ndarray) :
  forall (stored0 : list ndarray) (s : Scanner.SimpleDocumentScanner),
    holds_pages (Scanner.disk s) (Scanner.output_dir s)
      (Scanner.current_doc_name s) stored0 ->
    Scanner.page_count s = length stored0 ->
    plain_name (Scanner.current_doc_name s) ->
    length stored0 + length frames <= 999 ->
    holds_pages (Scanner.disk (scan_all frames s)) (Scanner.output_dir s)
      (Scanner.current_doc_name s)
      (stored0 ++ (cvtColor_BGR2RGB <$> frames))
    /\ Scanner.page_count (scan_all frames s)
       = length (stored0 ++ (cvtColor_BGR2RGB <$> frames))
    /\ Scanner.output_dir (scan_all frames s) = Scanner.output_dir s
    /\ Scanner.current_doc_name (scan_all frames s)
       = Scanner.current_doc_name s.
Proof.
  induction frames as [|img frames IH];
    intros stored0 s Hh Hn Hdoc Hlen.
  - cbn. by rewrite app_nil_r.
  - rewrite scan_all_cons.
    destruct (Scanner_process_and_save_page s img stored0 Hh Hn Hdoc)
      as (Hh' & Hn' & Hdir' & Hname'); [cbn in Hlen; lia|].
    set (s1 := (Scanner.process_and_save (Ok img) s).1) in *.
    clearbody s1.
    destruct (IH (stored0 ++ [cvtColor_BGR2RGB img]) s1)
      as (Hh2 & Hn2 & Hdir2 & Hname2).
    + by rewrite Hdir', Hname'.
    + done.
    + by rewrite Hname'.
    + rewrite length_app. cbn in *. lia.
    + rewrite Hdir', Hname', <- app_assoc in Hh2.
      rewrite <- app_assoc in Hn2.
      rewrite Hdir2, Hname2, Hdir', Hname'.
      split; [exact Hh2|]. split; [exact Hn2|]. done.
Qed.

(** ** Merging the page files *)

(** With a thousand pages, [sorted] puts page 1000 between pages 100 and
    101; with the document renamed between two pages, it puts page 2
    before page 1, and so does the merge. *)
Lemma C6_sorted_names_leave_page_order :
  (pages_scanned thousand_pages = 1000
   /\ exists files,
        pdf_files_in (output_dir thousand_pages) (disk thousand_pages)
        = Ok files
        /\ files !! 100 = Some "Document_1000.pdf"
        /\ page_names "Document" 1000 !! 100 = Some "Document_101.pdf")
  /\ (let s := app (V2.run true no_pil renamed_between_pages
                      (mk_world [] (V2.init 0))) in
      pages_scanned s = 2
      /\ captured_images s = [frame_low; frame_high]
      /\ pdf_files_in (output_dir s) (disk s)
         = Ok ["Appendix_002.pdf"; "Document_001.pdf"]
      /\ V2.append_all (output_dir s)
           ["Appendix_002.pdf"; "Document_001.pdf"] (disk s)
         = Ok [PageImage (reverse_channels frame_high);
               PageImage frame_low]).
Proof.
  split.
  - split; [by vm_compute|].
    eexists. split; [by vm_compute|]. split; by vm_compute.
  - by vm_compute.
Qed.

(** C6, as the code has it.  When the directory of a document holds
    the page files of its N <= 999 pages, named after one document name
    without ["/"], and nothing else (no file of an earlier export or
    merge, no file of another name), the directory listing filtered for
    [.pdf] and sorted is exactly the N page names in page order 1..N,
    and the merge concatenates the page files in that order.  Saving N
    frames under one name into a document with no page yet and an empty
    directory gives such a directory.  Both for [test_main_v2.py] and
    for [scanner.py]. *)
Theorem C6_merge_follows_page_order (filename : string) (pip : bool) :
  (* N saves into a fresh document, test_main_v2.py *)
  (forall (s : App) (frames stored : list ndarray),
     fresh_document s ->
     plain_name (current_doc_name s) ->
     Forall2 (fun img a => V2.as_rgb img = Ok a) frames stored ->
     length frames <= 999 ->
     pages_scanned (commit_all V2.save_image frames s) = length frames
     /\ pdf_files_in (output_dir (commit_all V2.save_image frames s))
          (disk (commit_all V2.save_image frames s))
        = Ok (page_names (current_doc_name s) (length frames))
     /\ V2.merge_with_pypdf2 true filename
          (commit_all V2.save_image frames s)
        = write_file filename (PageImage <$> stored)
            (disk (commit_all V2.save_image frames s))
     /\ holds_pages (disk (commit_all V2.save_image frames s))
          (output_dir s) (current_doc_name s) stored)
  (* N captures into a fresh document, scanner.py *)
  /\ (forall (sc : Scanner.SimpleDocumentScanner) (frames : list ndarray),
        Scanner.page_count sc = 0 ->
        Scanner.disk sc !! Scanner.output_dir sc = Some ∅ ->
        plain_name (Scanner.current_doc_name sc) ->
        length frames <= 999 ->
        Scanner.page_count (scan_all frames sc) = length frames
        /\ pdf_files_in (Scanner.output_dir (scan_all frames sc))
             (Scanner.disk (scan_all frames sc))
           = Ok (page_names (Scanner.current_doc_name sc) (length frames))
        /\ (0 < length frames ->
            (Scanner.merge_pdfs true pip (scan_all frames sc)).2 = Some true
            /\ read_file (Scanner.complete_path (scan_all frames sc))
                 (Scanner.disk
                    (Scanner.merge_pdfs true pip (scan_all frames sc)).1)
               = Ok (PageImage <$> (cvtColor_BGR2RGB <$> frames)))
        /\ holds_pages (Scanner.disk (scan_all frames sc))
             (Scanner.output_dir sc) (Scanner.current_doc_name sc)
             (cvtColor_BGR2RGB <$> frames))
  (* every directory that holds the page files and nothing else,
     test_main_v2.py *)
  /\ (forall (t : App) (kept : list ndarray),
        holds_pages (disk t) (output_dir t) (current_doc_name t) kept ->
        plain_name (current_doc_name t) ->
        length kept <= 999 ->
        pdf_files_in (output_dir t) (disk t)
        = Ok (page_names (current_doc_name t) (length kept))
        /\ V2.merge_with_pypdf2 true filename t
           = write_file filename (PageImage <$> kept) (disk t))
  (* the same, scanner.py *)
  /\ (forall (sc : Scanner.SimpleDocumentScanner) (kept : list ndarray),
        holds_pages (Scanner.disk sc) (Scanner.output_dir sc)
          (Scanner.current_doc_name sc) kept ->
        plain_name (Scanner.current_doc_name sc) ->
        length kept <= 999 ->
        pdf_files_in (Scanner.output_dir sc) (Scanner.disk sc)
        = Ok (page_names (Scanner.current_doc_name sc) (length kept))
        /\ (0 < length kept ->
            (Scanner.merge_pdfs true pip sc).2 = Some true
            /\ read_file (Scanner.complete_path sc)
                 (Scanner.disk (Scanner.merge_pdfs true pip sc).1)
               = Ok (PageImage <$> kept))).
Proof.
  assert (forall (t : App) (kept : list ndarray),
            holds_pages (disk t) (output_dir t) (current_doc_name t) kept ->
            plain_name (current_doc_name t) ->
            length kept <= 999 ->
            pdf_files_in (output_dir t) (disk t)
            = Ok (page_names (current_doc_name t) (length kept))
            /\ V2.merge_with_pypdf2 true filename t
               = write_file filename (PageImage <$> kept) (disk t)) as G2.
  { intros t kept Hh Hdoc Hlen.
    pose proof (holds_pages_listing _ _ _ _ Hh Hlen) as Hl.
    split; [done|].
    unfold V2.merge_with_pypdf2. cbn. rewrite Hl. cbn.
    rewrite (V2_append_all_pages _ _ _ kept); [done|].
    by apply holds_pages_read_all. }
  assert (forall (sc : Scanner.SimpleDocumentScanner) (kept : list ndarray),
            holds_pages (Scanner.disk sc) (Scanner.output_dir sc)
              (Scanner.current_doc_name sc) kept ->
            plain_name (Scanner.current_doc_name sc) ->
            length kept <= 999 ->
            pdf_files_in (Scanner.output_dir sc) (Scanner.disk sc)
            = Ok (page_names (Scanner.current_doc_name sc) (length kept))
            /\ (0 < length kept ->
                (Scanner.merge_pdfs true pip sc).2 = Some true
                /\ read_file (Scanner.complete_path sc)
                     (Scanner.disk (Scanner.merge_pdfs true pip sc).1)
                   = Ok (PageImage <$> kept))) as G3.
  { intros sc kept Hh Hdoc Hlen.
    pose proof (holds_pages_listing _ _ _ _ Hh Hlen) as Hl.
    split; [done|]. intros Hpos.
    unfold Scanner.merge_pdfs. cbn. rewrite Hl. cbn.
    destruct (page_names (Scanner.current_doc_name sc) (length kept))
      as [|name names] eqn:Hnames.
    { apply (f_equal length) in Hnames. unfold page_names in Hnames.
      rewrite length_fmap, length_seq in Hnames. cbn in Hnames. lia. }
    rewrite (Scanner_append_all_pages _ _ _ kept).
    2:{ rewrite <- Hnames. by apply holds_pages_read_all. }
    cbn. unfold Scanner.complete_path, write_file, read_file.
    rewrite split_path_dir by (by apply rsplit_slash_app_None).
    destruct Hh as (files & Hfiles & _). rewrite Hfiles. cbn.
    split; [done|]. by rewrite !lookup_insert_eq. }
  split; [|split; [|split; [exact G2|exact G3]]].
  - intros s frames stored [Hzero Hdir] Hdoc Hf Hlen.
    pose proof (Forall2_length _ _ _ Hf) as Hflen.
    destruct (V2_commit_all_pages frames stored [] s Hf)
      as (Hh & Hn & Ho & Hname); try done.
    { by apply holds_pages_empty. }
    cbn in Hh, Hn. rewrite <- Hflen in Hn.
    set (t := commit_all V2.save_image frames s) in *. clearbody t.
    rewrite <- Ho, <- Hname in Hh.
    destruct (G2 t stored Hh) as [Hl Hm];
      [by rewrite Hname|by rewrite <- Hflen|].
    rewrite Hflen, <- Hname.
    split; [by rewrite <- Hflen|]. split; [done|]. split; [done|].
    by rewrite <- Ho.
  - intros sc frames Hzero Hdir Hdoc Hlen.
    destruct (scan_all_pages frames [] sc) as (Hh & Hn & Ho & Hname);
      try done.
    { by apply holds_pages_empty. }
    cbn in Hh, Hn. rewrite length_fmap in Hn.
    set (t := scan_all frames sc) in *. clearbody t.
    rewrite <- Ho, <- Hname in Hh.
    destruct (G3 t (cvtColor_BGR2RGB <$> frames) Hh) as [Hl Hm];
      [by rewrite Hname|by rewrite length_fmap|].
    rewrite length_fmap in Hl, Hm. rewrite <- Hname.
    split; [done|]. split; [done|]. split; [done|].
    by rewrite <- Ho.
Qed.

Lemma C6_witness :
  pdf_files_in
    (output_dir (commit_all V2.save_image [frame_low; frame_high]
                   (V2.init 0)))
    (disk (commit_all V2.save_image [frame_low; frame_high] (V2.init 0)))
  = Ok (page_names "Document" 2).
Proof.
  refine (proj1 (proj2 (proj1 (C6_merge_follows_page_order "out.pdf" true)
            (V2.init 0) [frame_low; frame_high]
            [frame_low; reverse_channels frame_high]
            (conj eq_refl _) eq_refl _ _))).
  - by vm_compute.
  - repeat constructor.
  - cbn. lia.
Defined.

(** * Further properties of the code *)

(** ** What holds in every reachable state *)

(** X1.  In every state either Tk application can reach from its start,
    whatever the user, the timers and the camera threads did, the page
    counter is the number of pages held in memory. *)
Theorem X1_page_counter_counts_pages_in_memory
    (picam : bool) (pil : list pdf_page -> result ndarray) (t0 : nat)
    (trace2 : list V2.event) (trace1 : list V1.event) :
  length (captured_images
            (app (V2.run picam pil trace2 (mk_world [] (V2.init t0)))))
  = pages_scanned (app (V2.run picam pil trace2 (mk_world [] (V2.init t0))))
  /\ length (captured_images (app (V1.run trace1 (mk_world [] V1.init))))
     = pages_scanned (app (V1.run trace1 (mk_world [] V1.init))).
Proof.
  split.
  - by apply (V2_run_counter picam pil trace2 (mk_world [] (V2.init t0))).
  - by apply (V1_run_counter trace1 (mk_world [] V1.init)).
Qed.

(** X2.  In a reachable state [export_pdf] never takes the branch that
    reads page files back into images (lines 483-495): with no page in
    memory the counter is zero and the export is refused, so the outcome
    of an export does not depend on what PIL would decode. *)
Theorem X2_export_never_reads_page_files_back
    (picam : bool) (pil pil' : list pdf_page -> result ndarray) (t0 : nat)
    (trace : list V2.event) (filename : string) (pypdf2 : bool) :
  V2.export_pdf pil' filename pypdf2
    (app (V2.run picam pil trace (mk_world [] (V2.init t0))))
  = V2.export_pdf pil filename pypdf2
      (app (V2.run picam pil trace (mk_world [] (V2.init t0)))).
Proof.
  pose proof (V2_run_counter picam pil trace (mk_world [] (V2.init t0))
                eq_refl) as Hc.
  set (s := app (V2.run picam pil trace (mk_world [] (V2.init t0)))) in *.
  clearbody s. unfold counter_matches in Hc.
  unfold V2.export_pdf, V2.render_with_reportlab.
  destruct (captured_images s) as [|img imgs] eqn:Himgs.
  - cbn in Hc. by rewrite <- Hc.
  - cbn. by rewrite Himgs.
Qed.

Lemma V2_step_label (picam : bool) (pil : list pdf_page -> result ndarray)
    (e : V2.event) (w : world) :
  label_behind (app w) -> label_behind (app (V2.step picam pil e w)).
Proof.
  destruct w as [ths s]. intros H.
  destruct e; cbn [V2.step V2.on_app app threads].
  - revert H. unfold label_behind, V2.start_camera. app_cases.
  - revert H. unfold label_behind, V2.stop_camera. app_cases.
  - revert H. unfold label_behind, V2.capture_image. app_cases.
  - revert H. unfold label_behind, V2.save_image. app_cases; lia.
  - revert H. unfold label_behind, V2.cancel_capture. app_cases.
  - revert H. unfold label_behind, V2.toggle_auto_mode. app_cases.
  - revert H. unfold label_behind, V2.set_document_name. app_cases.
  - unfold label_behind, V2.new_document. cbn. done.
  - revert H. unfold label_behind, V2.export_pdf. app_cases.
  - unfold V2.fire_timer.
    destruct (pop_min (after_queue s)) as [[[due cb] rest]|]; [|done].
    destruct cb; cbn [V2.run_callback].
    + revert H. unfold label_behind, V2.update_camera_canvas. app_cases.
    + revert H. unfold label_behind, V2.auto_capture. app_cases.
    + revert H. unfold label_behind, V2.auto_save, V2.save_image.
      app_cases; lia.
  - destruct (ths !! i) as [th|]; [|done].
    destruct (V2.thread_step picam lores read th s) as [[th' s']|] eqn:Hstep;
      [|done].
    cbn. revert H Hstep.
    unfold label_behind, V2.thread_step, V2.acquire, V2.deliver.
    app_cases; intros; simplify_eq; done.
Qed.

Lemma V1_step_label (e : V1.event) (w : world) :
  label_current (app w) -> label_current (app (V1.step e w)).
Proof.
  destruct w as [ths s]. intros H.
  destruct e; cbn [V1.step V1.on_app app threads].
  - revert H. unfold label_current, V1.start_camera. app_cases.
  - revert H. unfold label_current, V1.stop_camera. app_cases.
  - revert H. unfold label_current, V1.capture_image. app_cases.
  - revert H. unfold label_current, V1.save_image. app_cases.
  - revert H. unfold label_current, V1.cancel_capture. app_cases.
  - revert H. unfold label_current, V1.toggle_auto_mode. app_cases.
  - revert H. unfold label_current, V1.export_pdf. app_cases.
  - unfold V1.fire_timer.
    destruct (pop_min (after_queue s)) as [[[due cb] rest]|]; [|done].
    destruct cb; cbn [V1.run_callback].
    + revert H. unfold label_current, V1.update_camera_canvas. app_cases.
    + revert H. unfold label_current, V1.auto_capture. app_cases.
    + revert H. unfold label_current, V1.auto_save, V1.save_image.
      app_cases.
  - destruct (ths !! i) as [th|]; [|done].
    destruct (V1.thread_step read th s) as [[th' s']|] eqn:Hstep; [|done].
    cbn. revert H Hstep.
    unfold label_current, V1.thread_step, V1.acquire, V1.deliver.
    app_cases; intros; simplify_eq; done.
Qed.

(** X3.  The "Pages Scanned" label: in [test_main.py] it shows the page
    counter in every reachable state; in [test_main_v2.py], where a save
    can fail after the counter was advanced, it never shows more than
    the counter. *)
Theorem X3_page_label_follows_counter
    (picam : bool) (pil : list pdf_page -> result ndarray) (t0 : nat)
    (trace2 : list V2.event) (trace1 : list V1.event) :
  pages_label (app (V1.run trace1 (mk_world [] V1.init)))
  = pages_scanned (app (V1.run trace1 (mk_world [] V1.init)))
  /\ pages_label (app (V2.run picam pil trace2 (mk_world [] (V2.init t0))))
     <= pages_scanned
          (app (V2.run picam pil trace2 (mk_world [] (V2.init t0)))).
Proof.
  split.
  - assert (forall w, label_current (app w) ->
                      label_current (app (V1.run trace1 w))) as Hrun.
    { induction trace1 as [|e tr IH]; intros w H; [done|].
      cbn. apply IH. by apply V1_step_label. }
    by apply (Hrun (mk_world [] V1.init)).
  - assert (forall w, label_behind (app w) ->
                      label_behind (app (V2.run picam pil trace2 w))) as Hrun.
    { induction trace2 as [|e tr IH]; intros w H; [done|].
      cbn. apply IH. by apply V2_step_label. }
    apply (Hrun (mk_world [] (V2.init t0))). unfold label_behind. cbn. lia.
Qed.

(** ** Preview and capture share one frame *)

Lemma V1_update_camera_canvas_takes (s : App) :
  V1.update_camera_canvas s = s \/
  V1.update_camera_canvas s = set_frame_queue None s.
Proof.
  unfold V1.update_camera_canvas.
  destruct (frame_queue s); cbn; auto.
Qed.

Lemma V2_update_camera_canvas_takes (s : App) :
  V2.update_camera_canvas s = s \/
  V2.update_camera_canvas s = set_frame_queue None s.
Proof.
  unfold V2.update_camera_canvas.
  destruct (frame_queue s); cbn; auto.
Qed.

(** X4.  The preview and the capture take their frame from the same
    one-slot queue.  Once [update_camera_canvas] has run, the queue is
    empty, and with the OpenCV camera running a capture gets nothing
    until the camera thread delivers again: [test_main.py] answers
    "Camera is not active", [test_main_v2.py] ends with "No frame
    available"; a pending candidate is kept in both.  With the Pi camera
    the capture reads the main stream and succeeds. *)
Theorem X4_capture_after_preview_finds_no_frame
    (s : App) (main : result ndarray) (fr : ndarray) :
  camera_active s = true ->
  (frame_queue (V1.update_camera_canvas s) = None
   /\ V1.capture_image (V1.update_camera_canvas s)
      = show InfoCameraNotActive (V1.update_camera_canvas s)
   /\ current_image (V1.capture_image (V1.update_camera_canvas s))
      = current_image s)
  /\ (frame_queue (V2.update_camera_canvas s) = None
      /\ V2.capture_image false main (V2.update_camera_canvas s)
         = set_status (CaptureError NoFrameAvailable)
             (V2.update_camera_canvas s)
      /\ current_image
           (V2.capture_image false main (V2.update_camera_canvas s))
         = current_image s
      /\ (picam2 s = true ->
          current_image
            (V2.capture_image true (Ok fr) (V2.update_camera_canvas s))
          = Some fr)).
Proof.
  intros Hact. split.
  - assert (frame_queue (V1.update_camera_canvas s) = None) as Hq.
    { unfold V1.update_camera_canvas.
      by destruct (frame_queue s) eqn:E; cbn. }
    split; [done|].
    unfold V1.capture_image. rewrite Hq, orb_true_r.
    split; [done|].
    by destruct (V1_update_camera_canvas_takes s) as [-> | ->].
  - assert (frame_queue (V2.update_camera_canvas s) = None) as Hq.
    { unfold V2.update_camera_canvas.
      by destruct (frame_queue s) eqn:E; cbn. }
    split; [done|].
    assert (camera_active (V2.update_camera_canvas s) = true) as Hact'.
    { by destruct (V2_update_camera_canvas_takes s) as [-> | ->]. }
    unfold V2.capture_image. rewrite Hact'. cbn. rewrite Hq. cbn.
    split; [done|]. split.
    + by destruct (V2_update_camera_canvas_takes s) as [-> | ->].
    + intros Hpi.
      assert (picam2 (V2.update_camera_canvas s) = true) as ->; [|done].
      by destruct (V2_update_camera_canvas_takes s) as [-> | ->].
Qed.

Lemma X4_witness :
  V1.capture_image (V1.update_camera_canvas (previewing V1.init))
  = show InfoCameraNotActive (V1.update_camera_canvas (previewing V1.init)).
Proof.
  exact (proj1 (proj2 (proj1 (X4_capture_after_preview_finds_no_frame
            (previewing V1.init) (Raise CameraFailure) frame_low eq_refl)))).
Defined.

(** ** The camera thread *)

Lemma V1_thread_step_alive (i : bool * pyobj) (th th' : thread)
    (s s' : App) :
  V1.camera_stream_test s = true ->
  at_pc th <> Exited ->
  V1.thread_step i th s = Some (th', s') ->
  at_pc th' <> Exited.
Proof.
  intros Htest Hpc. unfold V1.thread_step.
  destruct (at_pc th); try done.
  - rewrite Htest. by intros [= <- <-].
  - destruct (V1.acquire i s); by intros [= <- <-].
  - destruct (frame th) as [fr|]; [|by intros [= <- <-]].
    destruct (V1.deliver fr s); [|done]. by intros [= <- <-].
  - by intros [= <- <-].
Qed.

Lemma V2_thread_step_alive (picam : bool)
    (i : result ndarray * (bool * pyobj)) (th th' : thread) (s s' : App) :
  V2.camera_stream_test s = true ->
  at_pc th <> Exited ->
  V2.thread_step picam i.1 i.2 th s = Some (th', s') ->
  at_pc th' <> Exited.
Proof.
  intros Htest Hpc. unfold V2.thread_step.
  destruct (at_pc th); try done.
  - rewrite Htest. by intros [= <- <-].
  - destruct (V2.acquire _ _ _ _ s); by intros [= <- <-].
  - destruct (V2.deliver (frame th) s) as [[s1|e]|]; [| |done];
      by intros [= <- <-].
  - by intros [= <- <-].
Qed.

Lemma V1_thread_step_total (i : bool * pyobj) (th : thread) (s : App) :
  is_Some (V1.thread_step i th s).
Proof.
  unfold V1.thread_step. destruct (at_pc th); try done.
  - by destruct (V1.acquire i s).
  - destruct (frame th) as [fr|]; [|done].
    by destruct (V1_deliver_never_blocks fr s) as [s' ->].
Qed.

Lemma V2_thread_step_total (picam : bool)
    (i : result ndarray * (bool * pyobj)) (th : thread) (s : App) :
  is_Some (V2.thread_step picam i.1 i.2 th s).
Proof.
  unfold V2.thread_step. destruct (at_pc th); try done.
  - by destruct (V2.acquire _ _ _ _ s).
  - by destruct (V2_deliver_never_blocks (frame th) s) as [[s'|e] ->].
Qed.

(** X5.  The camera thread of either variant, run on any device inputs,
    failed reads and raised exceptions included, never waits on the
    queue, and as long as the camera is active and the stop event is
    clear it never leaves [camera_stream]: one bad frame does not end
    the acquisition. *)
Theorem X5_camera_thread_neither_blocks_nor_dies
    (picam : bool) (inputs1 : list (bool * pyobj))
    (inputs2 : list (result ndarray * (bool * pyobj)))
    (th : thread) (s : App) :
  camera_active s = true ->
  stop_event s = false ->
  at_pc th <> Exited ->
  (exists th' s',
     thread_run V1.thread_step inputs1 th s = Some (th', s')
     /\ at_pc th' <> Exited)
  /\ (exists th' s',
        thread_run (fun i => V2.thread_step picam i.1 i.2) inputs2 th s
        = Some (th', s')
        /\ at_pc th' <> Exited).
Proof.
  intros Hact Hstop Hpc. split.
  - assert (V1.camera_stream_test s = true) as Htest.
    { unfold V1.camera_stream_test. by rewrite Hact, Hstop. }
    clear Hact Hstop. revert th s Hpc Htest.
    induction inputs1 as [|i inputs IH]; intros th s Hpc Htest; cbn.
    + by exists th, s.
    + destruct (V1_thread_step_total i th s) as [[th1 s1] Hstep].
      rewrite Hstep. apply IH.
      * by apply (V1_thread_step_alive i th th1 s s1).
      * by rewrite (V1_thread_step_test _ _ _ _ _ Hstep).
  - assert (V2.camera_stream_test s = true) as Htest.
    { unfold V2.camera_stream_test. by rewrite Hact, Hstop. }
    clear Hact Hstop. revert th s Hpc Htest.
    induction inputs2 as [|i inputs IH]; intros th s Hpc Htest; cbn.
    + by exists th, s.
    + destruct (V2_thread_step_total picam i th s) as [[th1 s1] Hstep].
      rewrite Hstep. apply IH.
      * by apply (V2_thread_step_alive picam i th th1 s s1).
      * by rewrite (V2_thread_step_test _ _ _ _ _ _ Hstep).
Qed.

Lemma X5_witness :
  exists th' s',
    thread_run V1.thread_step
      [(false, PyNone); (true, PyNone); (true, PyArray frame_low);
       (true, PyArray frame_low); (false, PyNone)]
      (mk_thread AtAcquire None) (streaming V1.init) = Some (th', s')
    /\ at_pc th' <> Exited.
Proof.
  exact (proj1 (X5_camera_thread_neither_blocks_nor_dies false
                  [(false, PyNone); (true, PyNone); (true, PyArray frame_low);
                   (true, PyArray frame_low); (false, PyNone)]
                  [] (mk_thread AtAcquire None) (streaming V1.init)
                  eq_refl eq_refl ltac:(discriminate))).
Defined.

(** ** Starting the camera *)

(** X6.  Starting after a stop.  A successful [start_camera] clears the
    stop event, so the loop test of a new camera thread holds, and a
    further [start_camera] changes nothing.  When the device does not
    open, the camera stays inactive, the loop test stays false and one
    "Camera Error" dialog is added.  Pages, candidate and files are
    untouched in every case. *)
Theorem X6_start_camera_after_stop (picam opened : bool) (s : App) :
  (V1.camera_stream_test (V1.start_camera true (V1.stop_camera s)) = true
   /\ V1.start_camera opened (V1.start_camera true (V1.stop_camera s))
      = V1.start_camera true (V1.stop_camera s)
   /\ V1.camera_stream_test (V1.start_camera false (V1.stop_camera s))
      = false
   /\ messagebox (V1.start_camera false (V1.stop_camera s))
      = messagebox s ++ [ErrorCamera CouldNotOpenCamera]
   /\ document (V1.start_camera opened (V1.stop_camera s)) = document s
   /\ current_image (V1.start_camera opened (V1.stop_camera s))
      = current_image s)
  /\ (V2.camera_stream_test
        (V2.start_camera picam true (V2.stop_camera picam s)) = true
      /\ V2.start_camera picam opened
           (V2.start_camera picam true (V2.stop_camera picam s))
         = V2.start_camera picam true (V2.stop_camera picam s)
      /\ V2.camera_stream_test
           (V2.start_camera picam false (V2.stop_camera picam s)) = false
      /\ messagebox (V2.start_camera picam false (V2.stop_camera picam s))
         = messagebox s
             ++ [ErrorCamera (if picam then CameraFailure
                              else CouldNotOpenCamera)]
      /\ document (V2.start_camera picam opened (V2.stop_camera picam s))
         = document s
      /\ current_image
           (V2.start_camera picam opened (V2.stop_camera picam s))
         = current_image s).
Proof.
  destruct s as [active cam pi q stop imgs cur n cap auto doc dir st lbl
                 box timers now fs].
  split.
  - unfold V1.start_camera, V1.stop_camera, V1.camera_stream_test.
    destruct active, cam, opened; cbn; done.
  - unfold V2.start_camera, V2.stop_camera, V2.camera_stream_test.
    destruct active, cam, pi, picam, opened; cbn; done.
Qed.

(** ** Files *)

Lemma file_at_makedirs (d : string) (fs : FS) (dir name : string) :
  file_at (makedirs d fs) dir name = file_at fs dir name.
Proof.
  unfold file_at, makedirs.
  destruct (fs !! d) eqn:Hd; [done|].
  destruct (decide (d = dir)) as [->|Hne].
  - by rewrite lookup_insert_eq, Hd, lookup_empty.
  - by rewrite lookup_insert_ne.
Qed.

Lemma file_at_write_file (p : string) (content : list pdf_page)
    (fs fs' : FS) (dir name : string) :
  write_file p content fs = Ok fs' ->
  file_at fs' dir name
  = if decide (split_path p = (dir, name)) then Some content
    else file_at fs dir name.
Proof.
  unfold write_file, file_at.
  destruct (split_path p) as [d b].
  destruct (fs !! d) as [files|] eqn:Hd; [|done].
  intros [= <-].
  destruct (decide (d = dir)) as [->|Hne].
  - rewrite lookup_insert_eq, Hd.
    destruct (decide (b = name)) as [->|Hne].
    + rewrite lookup_insert_eq. by rewrite decide_True.
    + rewrite lookup_insert_ne by done. rewrite decide_False; congruence.
  - rewrite lookup_insert_ne by done. rewrite decide_False; congruence.
Qed.

Lemma write_file_missing_directory (p : string) (content : list pdf_page)
    (fs : FS) :
  fs !! (split_path p).1 = None ->
  write_file p content fs = Raise FileNotFoundError.
Proof.
  unfold write_file. destruct (split_path p) as [d b]. cbn. by intros ->.
Qed.

Lemma read_file_file_at (p : string) (fs : FS) :
  read_file p fs
  = of_option FileNotFoundError
      (file_at fs (split_path p).1 (split_path p).2).
Proof.
  unfold read_file, file_at. destruct (split_path p) as [d b]. cbn.
  by destruct (fs !! d).
Qed.

Lemma basename_dir (d b : string) :
  plain_name b -> basename (d +:+ "/" +:+ b) = b.
Proof. intros Hb. unfold basename. by rewrite split_path_dir. Qed.

(** ** Saving a page and reading it back *)

Lemma V2_save_image_writes (s : App) (img a : ndarray)
    (files : gmap string (list pdf_page)) :
  current_image s = Some img ->
  V2.as_rgb img = Ok a ->
  disk s !! output_dir s = Some files ->
  plain_name (page_name (current_doc_name s) (pages_scanned s + 1)) ->
  disk (V2.save_image s)
  = <[output_dir s :=
        <[page_name (current_doc_name s) (pages_scanned s + 1) :=
            [PageImage a]]> files]> (disk s)
  /\ pages_scanned (V2.save_image s) = pages_scanned s + 1
  /\ pages_label (V2.save_image s) = pages_scanned s + 1
  /\ captured_images (V2.save_image s) = captured_images s ++ [img]
  /\ current_image (V2.save_image s) = None
  /\ status_label (V2.save_image s)
     = ImageSavedAs (page_name (current_doc_name s) (pages_scanned s + 1))
  /\ output_dir (V2.save_image s) = output_dir s
  /\ current_doc_name (V2.save_image s) = current_doc_name s.
Proof.
  intros Hc Ha Hdir Hplain.
  unfold V2.save_image. rewrite Hc. cbn.
  unfold V2.save_as_pdf. rewrite Ha. cbn.
  rewrite V2_page_path_name. cbn.
  unfold write_file. rewrite split_path_dir by done. rewrite Hdir.
  rewrite basename_dir by done.
  destruct (auto_mode s); cbn; done.
Qed.

(** X7.  A page saved by [test_main_v2.py] can be read back: after a
    successful [save_image] the file [{doc}_{n+1:03d}.pdf] of the
    document directory holds exactly one page, the frame in the channel
    order [save_as_pdf] chose, and no other file of any directory has
    changed; the counter and the label stand at n+1, the candidate is
    cleared and the status names the file. *)
Theorem X7_saved_page_reads_back
    (s : App) (img a : ndarray) (files : gmap string (list pdf_page)) :
  current_image s = Some img ->
  V2.as_rgb img = Ok a ->
  disk s !! output_dir s = Some files ->
  plain_name (page_name (current_doc_name s) (pages_scanned s + 1)) ->
  read_file (V2.page_path (set_pages_scanned (pages_scanned s + 1) s))
    (disk (V2.save_image s)) = Ok [PageImage a]
  /\ (forall dir name,
        (dir, name)
        <> (output_dir s,
            page_name (current_doc_name s) (pages_scanned s + 1)) ->
        file_at (disk (V2.save_image s)) dir name
        = file_at (disk s) dir name)
  /\ pages_scanned (V2.save_image s) = pages_scanned s + 1
  /\ pages_label (V2.save_image s) = pages_scanned s + 1
  /\ current_image (V2.save_image s) = None
  /\ status_label (V2.save_image s)
     = ImageSavedAs (page_name (current_doc_name s) (pages_scanned s + 1)).
Proof.
  intros Hc Ha Hdir Hplain.
  destruct (V2_save_image_writes s img a files Hc Ha Hdir Hplain)
    as (Hdisk & Hn & Hl & _ & Hcur & Hst & _).
  split; [|split; [|done]].
  - rewrite read_file_file_at, V2_page_path_name. cbn.
    rewrite split_path_dir by done. cbn.
    unfold file_at. by rewrite Hdisk, !lookup_insert_eq.
  - intros dir name Hne. rewrite Hdisk. unfold file_at.
    destruct (decide (output_dir s = dir)) as [<-|Hd].
    + rewrite lookup_insert_eq, Hdir.
      rewrite lookup_insert_ne; [done|]. congruence.
    + by rewrite lookup_insert_ne.
Qed.

Lemma X7_witness :
  read_file "scanned_document_0/Document_001.pdf"
    (disk (V2.save_image (set_current_image (Some frame_high) (V2.init 0))))
  = Ok [PageImage (reverse_channels frame_high)].
Proof.
  refine (proj1 (X7_saved_page_reads_back
                   (set_current_image (Some frame_high) (V2.init 0))
                   frame_high (reverse_channels frame_high) ∅
                   eq_refl eq_refl _ eq_refl)).
  by vm_compute.
Defined.

(** X8.  Renaming in the middle of a document.  A dismissed or empty
    answer of "Set Document Name" changes nothing.  A new name renames no
    file: the files of the document directory stay under their old
    names, and the next page saved continues the numbering under the new
    name. *)
Theorem X8_rename_keeps_files_and_numbering
    (s : App) (img a : ndarray) (name : string)
    (files : gmap string (list pdf_page)) :
  name <> "" ->
  current_image s = Some img ->
  V2.as_rgb img = Ok a ->
  disk s !! output_dir s = Some files ->
  plain_name (page_name name (pages_scanned s + 1)) ->
  V2.set_document_name None s = s
  /\ V2.set_document_name (Some "") s = s
  /\ disk (V2.set_document_name (Some name) s) = disk s
  /\ pages_scanned (V2.set_document_name (Some name) s) = pages_scanned s
  /\ file_at (disk (V2.save_image (V2.set_document_name (Some name) s)))
       (output_dir s) (page_name name (pages_scanned s + 1))
     = Some [PageImage a]
  /\ (forall old,
        old <> page_name name (pages_scanned s + 1) ->
        file_at (disk (V2.save_image (V2.set_document_name (Some name) s)))
          (output_dir s) old
        = files !! old).
Proof.
  intros Hname Hc Ha Hdir Hplain.
  assert (V2.set_document_name (Some name) s
          = set_status (DocumentNameSet name) (set_current_doc_name name s))
    as Hset.
  { unfold V2.set_document_name.
    by rewrite (proj2 (String.eqb_neq name "")). }
  split; [done|]. split; [done|]. rewrite Hset.
  split; [done|]. split; [done|].
  destruct (V2_save_image_writes
              (set_status (DocumentNameSet name)
                 (set_current_doc_name name s)) img a files Hc Ha Hdir Hplain)
    as (Hdisk & _).
  cbn in Hdisk. rewrite Hdisk. unfold file_at. rewrite lookup_insert_eq.
  split; [by rewrite lookup_insert_eq|].
  intros old Hold. by rewrite lookup_insert_ne.
Qed.

Lemma X8_witness :
  file_at
    (disk (V2.save_image
             (V2.set_document_name (Some "Invoice")
                (set_current_image (Some frame_low) (V2.init 0)))))
    "scanned_document_0" "Invoice_001.pdf"
  = Some [PageImage frame_low].
Proof.
  refine (proj1 (proj2 (proj2 (proj2 (proj2
            (X8_rename_keeps_files_and_numbering
               (set_current_image (Some frame_low) (V2.init 0))
               frame_low frame_low "Invoice" ∅
               ltac:(discriminate) eq_refl eq_refl _ eq_refl)))))).
  by vm_compute.
Defined.

(** ** What an export touches *)

Lemma V2_export_pdf_outcome (pil : list pdf_page -> result ndarray)
    (filename : string) (pypdf2 : bool) (s : App) :
  session (V2.export_pdf pil filename pypdf2 s) = session s
  /\ (disk (V2.export_pdf pil filename pypdf2 s) = disk s
      \/ exists content,
           write_file filename content (disk s)
           = Ok (disk (V2.export_pdf pil filename pypdf2 s))).
Proof.
  unfold V2.export_pdf.
  destruct (bool_decide (captured_images s = []) && _); [by auto|].
  destruct (String.eqb filename ""); [by auto|].
  set (fallback :=
         match V2.render_with_reportlab pil filename
                 (set_status ExportingPDF s) with
         | Ok fs =>
             show (InfoExported filename)
               (set_status (PDFExportedTo (basename filename))
                  (set_disk fs (set_status ExportingPDF s)))
         | Raise e =>
             show (ErrorExport e)
               (set_status (ExportError e) (set_status ExportingPDF s))
         end).
  assert (session fallback = session s
          /\ (disk fallback = disk s
              \/ exists content,
                   write_file filename content (disk s) = Ok (disk fallback)))
    as Hfallback.
  { unfold fallback, V2.render_with_reportlab. cbn.
    destruct (captured_images s) as [|img imgs]; cbn.
    - destruct (pdf_files_in (output_dir s) (disk s)) as [l|e]; cbn;
        [|by auto].
      destruct (write_file filename _ (disk s)) as [fs|e] eqn:Hw; cbn;
        [|by auto].
      split; [done|]. right. eauto.
    - destruct (write_file filename _ (disk s)) as [fs|e] eqn:Hw; cbn;
        [|by auto].
      split; [done|]. right. eauto. }
  destruct (0 <? pages_scanned (set_status ExportingPDF s))%nat; [|done].
  unfold V2.merge_with_pypdf2. cbn.
  destruct pypdf2; cbn; [|done].
  destruct (pdf_files_in (output_dir s) (disk s)) as [l|e]; cbn; [|done].
  destruct (V2.append_all (output_dir s) l (disk s)) as [merged|e]; cbn;
    [|done].
  destruct (write_file filename merged (disk s)) as [fs|e] eqn:Hw; cbn;
    [|done].
  split; [done|]. right. eauto.
Qed.

Lemma V2_export_pdf_other_files (pil : list pdf_page -> result ndarray)
    (filename : string) (pypdf2 : bool) (s : App) (dir name : string) :
  split_path filename <> (dir, name) ->
  file_at (disk (V2.export_pdf pil filename pypdf2 s)) dir name
  = file_at (disk s) dir name.
Proof.
  intros Hne.
  destruct (V2_export_pdf_outcome pil filename pypdf2 s)
    as [_ [Hd|[content Hw]]].
  - by rewrite Hd.
  - rewrite (file_at_write_file _ _ _ _ dir name Hw).
    by rewrite decide_False.
Qed.

(** X9.  [export_pdf] of [test_main_v2.py] is an observer of the
    session: whatever the strategy and the outcome, it leaves the camera
    state, the queue, the candidate, the pages in memory, the counter,
    the label, the document name and directory and the timers alone, and
    on disk it changes at most the file it was asked to write. *)
Theorem X9_export_changes_only_its_target
    (pil : list pdf_page -> result ndarray) (filename : string)
    (pypdf2 : bool) (s : App) (dir name : string) :
  split_path filename <> (dir, name) ->
  session (V2.export_pdf pil filename pypdf2 s) = session s
  /\ file_at (disk (V2.export_pdf pil filename pypdf2 s)) dir name
     = file_at (disk s) dir name.
Proof.
  intros Hne. split.
  - apply V2_export_pdf_outcome.
  - by apply V2_export_pdf_other_files.
Qed.

Lemma X9_witness :
  file_at
    (disk (V2.export_pdf no_pil "scanned_document_0/all.pdf" false
             (commit_all V2.save_image [frame_low] (V2.init 0))))
    "scanned_document_0" "Document_001.pdf"
  = file_at (disk (commit_all V2.save_image [frame_low] (V2.init 0)))
      "scanned_document_0" "Document_001.pdf".
Proof.
  refine (proj2 (X9_export_changes_only_its_target no_pil
                   "scanned_document_0/all.pdf" false
                   (commit_all V2.save_image [frame_low] (V2.init 0))
                   "scanned_document_0" "Document_001.pdf" _)).
  by vm_compute.
Defined.

(** X10.  Exporting to a path whose directory does not exist: neither
    strategy can write, no file is created anywhere, the status reads
    "Export error" and one "Export Error" dialog is shown.  For a
    document with at least one page in memory and a non-empty path. *)
Theorem X10_export_into_missing_directory
    (pil : list pdf_page -> result ndarray) (filename : string)
    (pypdf2 : bool) (s : App) :
  captured_images s <> [] ->
  filename <> "" ->
  disk s !! (split_path filename).1 = None ->
  disk (V2.export_pdf pil filename pypdf2 s) = disk s
  /\ status_label (V2.export_pdf pil filename pypdf2 s)
     = ExportError FileNotFoundError
  /\ messagebox (V2.export_pdf pil filename pypdf2 s)
     = messagebox s ++ [ErrorExport FileNotFoundError].
Proof.
  intros Himgs Hname Hdir.
  unfold V2.export_pdf.
  rewrite (bool_decide_eq_false_2 _ Himgs). cbn.
  rewrite (proj2 (String.eqb_neq filename "")) by done.
  unfold V2.render_with_reportlab, V2.merge_with_pypdf2. cbn.
  destruct (captured_images s) as [|img imgs] eqn:E; [done|]. cbn.
  rewrite !write_file_missing_directory by done. cbn.
  destruct (pages_scanned s); [done|].
  destruct pypdf2; cbn; [|done].
  destruct (pdf_files_in (output_dir s) (disk s)) as [l|e]; cbn; [|done].
  destruct (V2.append_all (output_dir s) l (disk s)) as [merged|e]; cbn;
    [|done].
  by rewrite write_file_missing_directory.
Qed.

Lemma X10_witness :
  status_label
    (V2.export_pdf no_pil "nowhere/all.pdf" true
       (commit_all V2.save_image [frame_low] (V2.init 0)))
  = ExportError FileNotFoundError.
Proof.
  refine (proj1 (proj2 (X10_export_into_missing_directory no_pil
                          "nowhere/all.pdf" true
                          (commit_all V2.save_image [frame_low] (V2.init 0))
                          _ _ _))).
  - by vm_compute.
  - discriminate.
  - by vm_compute.
Defined.

(** ** Starting a new document *)

(** X11.  [new_document] of [test_main_v2.py] deletes nothing: whether
    the merge is accepted or declined, every file on disk is still there
    with its content afterwards, except possibly the one file the export
    was asked to write.  The new document starts with counter and label
    at zero and no page in memory, in an existing directory named after
    the clock; the document name and a pending candidate are carried
    over into it. *)
Theorem X11_new_document_keeps_written_pages
    (pil : list pdf_page -> result ndarray) (yes : bool) (filename : string)
    (pypdf2 : bool) (t : nat) (s : App) (dir name : string) :
  split_path filename <> (dir, name) \/ yes = false ->
  file_at (disk (V2.new_document pil yes filename pypdf2 t s)) dir name
  = file_at (disk s) dir name
  /\ pages_scanned (V2.new_document pil yes filename pypdf2 t s) = 0
  /\ pages_label (V2.new_document pil yes filename pypdf2 t s) = 0
  /\ captured_images (V2.new_document pil yes filename pypdf2 t s) = []
  /\ output_dir (V2.new_document pil yes filename pypdf2 t s)
     = "scanned_document_" +:+ pretty t
  /\ is_Some (disk (V2.new_document pil yes filename pypdf2 t s)
              !! ("scanned_document_" +:+ pretty t))
  /\ current_doc_name (V2.new_document pil yes filename pypdf2 t s)
     = current_doc_name s
  /\ current_image (V2.new_document pil yes filename pypdf2 t s)
     = current_image s.
Proof.
  intros Hkeep. unfold V2.new_document.
  set (s1 := if (0 <? pages_scanned s)%nat && yes
             then V2.export_pdf pil filename pypdf2 s else s).
  assert (file_at (disk s1) dir name = file_at (disk s) dir name
          /\ current_doc_name s1 = current_doc_name s
          /\ current_image s1 = current_image s) as (Hf & Hn & Hc).
  { unfold s1. destruct (0 <? pages_scanned s)%nat; cbn; [|done].
    destruct yes; cbn; [|done].
    destruct (V2_export_pdf_outcome pil filename pypdf2 s) as [Hs Hd].
    unfold session in Hs. injection Hs as _ _ _ _ _ _ Hci _ _ _ Hdn _ _ _ _.
    split; [|done].
    destruct Hkeep as [Hne|?]; [|done].
    by apply V2_export_pdf_other_files. }
  clearbody s1. cbn.
  rewrite file_at_makedirs. do 5 (split; [done|]).
  split; [|done].
  unfold makedirs.
  destruct (disk s1 !! _) eqn:E; [by rewrite E|by rewrite lookup_insert_eq].
Qed.

Lemma X11_witness :
  file_at
    (disk (V2.new_document no_pil false "" true 5
             (commit_all V2.save_image [frame_low] (V2.init 0))))
    "scanned_document_0" "Document_001.pdf"
  = file_at (disk (commit_all V2.save_image [frame_low] (V2.init 0)))
      "scanned_document_0" "Document_001.pdf".
Proof.
  exact (proj1 (X11_new_document_keeps_written_pages no_pil false "" true 5
                  (commit_all V2.save_image [frame_low] (V2.init 0))
                  "scanned_document_0" "Document_001.pdf"
                  (or_intror eq_refl))).
Defined.

(** ** From the commits to the exported file *)

Lemma V2_save_image_keeps (s : App) (img : ndarray) (d : string) :
  current_image s = Some img ->
  captured_images (V2.save_image s) = captured_images s ++ [img]
  /\ (is_Some (disk s !! d) -> is_Some (disk (V2.save_image s) !! d)).
Proof.
  intros Hc. unfold V2.save_image. rewrite Hc. cbn.
  destruct (V2.save_as_pdf _ _ _) as [fs|e] eqn:Hw; cbn; [|done].
  assert (is_Some (disk s !! d) -> is_Some (fs !! d)) as Hd.
  { revert Hw. unfold V2.save_as_pdf, bind, write_file.
    destruct (V2.as_rgb img); [|done].
    destruct (split_path _) as [d' b].
    destruct (disk s !! d') eqn:E; [|done]. intros [= <-] Hsome.
    destruct (decide (d' = d)) as [->|Hne].
    - by rewrite lookup_insert_eq.
    - by rewrite lookup_insert_ne. }
  by destruct (auto_mode s).
Qed.

Lemma V2_commit_all_keeps (frames : list ndarray) (d : string) :
  forall s,
    captured_images (commit_all V2.save_image frames s)
    = captured_images s ++ frames
    /\ (is_Some (disk s !! d) ->
        is_Some (disk (commit_all V2.save_image frames s) !! d)).
Proof.
  induction frames as [|img frames IH]; intros s.
  - by rewrite app_nil_r.
  - rewrite commit_all_cons.
    destruct (V2_save_image_keeps (set_current_image (Some img) s) img d
                eq_refl) as [Himgs Hdir].
    destruct (IH (V2.save_image (set_current_image (Some img) s)))
      as [Himgs' Hdir'].
    split.
    + rewrite Himgs', Himgs. cbn. by rewrite <- app_assoc.
    + intros Hsome. apply Hdir', Hdir, Hsome.
Qed.

Lemma V2_merge_after_commits (s : App) (frames stored : list ndarray)
    (filename : string) :
  fresh_document s ->
  plain_name (current_doc_name s) ->
  Forall2 (fun img a => V2.as_rgb img = Ok a) frames stored ->
  length frames <= 999 ->
  pages_scanned (commit_all V2.save_image frames s) = length frames
  /\ V2.merge_with_pypdf2 true filename (commit_all V2.save_image frames s)
     = write_file filename (PageImage <$> stored)
         (disk (commit_all V2.save_image frames s)).
Proof.
  intros [Hzero Hdir] Hdoc Hf Hlen.
  pose proof (Forall2_length _ _ _ Hf) as Hflen.
  destruct (V2_commit_all_pages frames stored [] s Hf)
    as (Hh & Hn & Ho & Hname); try done.
  { by apply holds_pages_empty. }
  cbn in Hh, Hn. rewrite <- Hflen in Hn. split; [done|].
  unfold V2.merge_with_pypdf2. cbn. rewrite Ho.
  rewrite (holds_pages_listing _ _ _ _ Hh) by lia. cbn.
  rewrite (V2_append_all_pages _ _ _ stored); [done|].
  apply holds_pages_read_all; [done|done|lia].
Qed.

(** X12.  From the commits to the exported file.  N frames (1 <= N <=
    999) are saved into a fresh document with a name without ["/"], then
    the document is exported to a file in an existing directory.  With
    PyPDF2 the file holds the N page files' pages in commit order, each
    in the channel order [save_as_pdf] gave it; without PyPDF2 it holds
    the N frames as captured, drawn in commit order.  The status names
    the file in both cases. *)
Theorem X12_export_holds_pages_in_commit_order
    (pil : list pdf_page -> result ndarray) (s : App)
    (frames stored : list ndarray) (filename td tb : string) :
  fresh_document s ->
  captured_images s = [] ->
  plain_name (current_doc_name s) ->
  Forall2 (fun img a => V2.as_rgb img = Ok a) frames stored ->
  0 < length frames <= 999 ->
  filename <> "" ->
  split_path filename = (td, tb) ->
  is_Some (disk s !! td) ->
  (file_at
     (disk (V2.export_pdf pil filename true
              (commit_all V2.save_image frames s))) td tb
   = Some (PageImage <$> stored)
   /\ status_label (V2.export_pdf pil filename true
                      (commit_all V2.save_image frames s))
      = PDFExportedTo tb)
  /\ (file_at
        (disk (V2.export_pdf pil filename false
                 (commit_all V2.save_image frames s))) td tb
      = Some (PageDrawn <$> frames)
      /\ status_label (V2.export_pdf pil filename false
                         (commit_all V2.save_image frames s))
         = PDFExportedTo tb).
Proof.
  intros Hfresh Hempty Hdoc Hf [Hpos Hlen] Hname Hsplit Htd.
  destruct (V2_merge_after_commits s frames stored filename Hfresh Hdoc Hf
              Hlen) as [Hn Hmerge].
  destruct (V2_commit_all_keeps frames td s) as [Himgs Hdir].
  rewrite Hempty in Himgs. cbn in Himgs. specialize (Hdir Htd).
  set (s' := commit_all V2.save_image frames s) in *. clearbody s'.
  destruct Hdir as [files Hfiles].
  assert (forall content,
            write_file filename content (disk s')
            = Ok (<[td := <[tb := content]> files]> (disk s'))) as Hw.
  { intros content. unfold write_file. by rewrite Hsplit, Hfiles. }
  assert (forall content,
            file_at (<[td := <[tb := content]> files]> (disk s')) td tb
            = Some content) as Hread.
  { intros content. unfold file_at. by rewrite !lookup_insert_eq. }
  assert (basename filename = tb) as Hbase.
  { unfold basename. by rewrite Hsplit. }
  assert (bool_decide (captured_images s' = []) = false) as Hne.
  { apply bool_decide_eq_false_2. rewrite Himgs.
    destruct frames; [cbn in Hpos; lia|done]. }
  assert (V2.merge_with_pypdf2 true filename (set_status ExportingPDF s')
          = Ok (<[td := <[tb := PageImage <$> stored]> files]> (disk s')))
    as Hmerge'.
  { change (V2.merge_with_pypdf2 true filename (set_status ExportingPDF s'))
      with (V2.merge_with_pypdf2 true filename s').
    by rewrite Hmerge, Hw. }
  split.
  - unfold V2.export_pdf. rewrite Hne.
    rewrite (proj2 (String.eqb_neq filename "")) by done.
    rewrite Hmerge'. cbn.
    destruct (pages_scanned s'); [lia|]. cbn. by rewrite Hread, Hbase.
  - unfold V2.export_pdf. rewrite Hne.
    rewrite (proj2 (String.eqb_neq filename "")) by done.
    unfold V2.merge_with_pypdf2, V2.render_with_reportlab. cbn.
    rewrite Himgs. destruct frames as [|img frames]; [cbn in Hpos; lia|].
    unfold bind. rewrite Hw. cbn.
    destruct (pages_scanned s'); cbn; by rewrite Hread, Hbase.
Qed.

Lemma X12_witness :
  file_at
    (disk (V2.export_pdf no_pil "scanned_document_0/all.pdf" true
             (commit_all V2.save_image [frame_low; frame_high] (V2.init 0))))
    "scanned_document_0" "all.pdf"
  = Some [PageImage frame_low; PageImage (reverse_channels frame_high)].
Proof.
  refine (proj1 (proj1 (X12_export_holds_pages_in_commit_order no_pil
            (V2.init 0) [frame_low; frame_high]
            [frame_low; reverse_channels frame_high]
            "scanned_document_0/all.pdf" "scanned_document_0" "all.pdf"
            (conj eq_refl _) eq_refl eq_refl _ _ _ eq_refl _))).
  - by vm_compute.
  - repeat constructor.
  - cbn. lia.
  - discriminate.
  - exists ∅. by vm_compute.
Defined.

(** ** scanner.py: saving and merging *)

Lemma filter_none {A} (P : A -> Prop) `{forall x, Decision (P x)}
    (l : list A) :
  Forall (fun x => ~ P x) l -> filter P l = [].
Proof.
  induction 1 as [|x l Hx _ IH]; [done|].
  by rewrite filter_cons_False.
Qed.

Lemma Scanner_merge_pdfs_outcome (pypdf2 pip : bool)
    (s : Scanner.SimpleDocumentScanner) :
  Scanner.merge_pdfs pypdf2 pip s = (s, None)
  \/ Scanner.merge_pdfs pypdf2 pip s = (s, Some false)
  \/ exists merged fs,
       write_file (Scanner.complete_path s) merged (Scanner.disk s) = Ok fs
       /\ Scanner.merge_pdfs pypdf2 pip s
          = (Scanner.mk_scanner (Scanner.current_doc_name s)
               (Scanner.mouse_x s) (Scanner.mouse_y s)
               (Scanner.output_dir s) (Scanner.page_count s) fs,
             Some true).
Proof.
  unfold Scanner.merge_pdfs.
  destruct (pypdf2 || pip); cbn -[Scanner.append_all]; [|by auto].
  destruct (pdf_files_in _ _) as [[|name names]|e];
    cbn -[Scanner.append_all]; [by auto| |by auto].
  destruct (Scanner.append_all _ _ _) as [merged|e];
    cbn -[Scanner.append_all]; [|by auto].
  destruct (write_file _ merged _) as [fs|e] eqn:Hw; cbn; [|by auto].
  right. right. eauto.
Qed.

(** X13.  What [merge_pdfs] of [scanner.py] returns and leaves behind.
    It returns [False] when PyPDF2 is missing and cannot be installed and
    when the document directory does not exist, and [None] when the
    directory holds no [.pdf] file; in these cases, and whenever the
    result is not [True], the scanner and the disk are exactly as before.
    In every case the name, the directory and the page count are kept
    and no file other than [{doc}_complete.pdf] of the document
    directory changes. *)
Theorem X13_merge_pdfs_failures_leave_no_trace
    (pypdf2 pip : bool) (s : Scanner.SimpleDocumentScanner) :
  (pypdf2 || pip = false ->
   Scanner.merge_pdfs pypdf2 pip s = (s, Some false))
  /\ (Scanner.disk s !! Scanner.output_dir s = None ->
      Scanner.merge_pdfs pypdf2 pip s = (s, Some false))
  /\ (forall files,
        pypdf2 || pip = true ->
        Scanner.disk s !! Scanner.output_dir s = Some files ->
        (forall name, is_Some (files !! name) ->
                      endswith name ".pdf" = false) ->
        Scanner.merge_pdfs pypdf2 pip s = (s, None))
  /\ ((Scanner.merge_pdfs pypdf2 pip s).2 <> Some true ->
      (Scanner.merge_pdfs pypdf2 pip s).1 = s)
  /\ (Scanner.current_doc_name (Scanner.merge_pdfs pypdf2 pip s).1
      = Scanner.current_doc_name s
      /\ Scanner.output_dir (Scanner.merge_pdfs pypdf2 pip s).1
         = Scanner.output_dir s
      /\ Scanner.page_count (Scanner.merge_pdfs pypdf2 pip s).1
         = Scanner.page_count s)
  /\ (forall dir name,
        split_path (Scanner.complete_path s) <> (dir, name) ->
        file_at (Scanner.disk (Scanner.merge_pdfs pypdf2 pip s).1) dir name
        = file_at (Scanner.disk s) dir name).
Proof.
  split; [|split; [|split; [|split; [|split]]]].
  - intros Hno. unfold Scanner.merge_pdfs. by rewrite Hno.
  - intros Hdir. unfold Scanner.merge_pdfs, pdf_files_in, listdir.
    rewrite Hdir. by destruct (pypdf2 || pip).
  - intros files Hyes Hdir Hnone.
    unfold Scanner.merge_pdfs, pdf_files_in, listdir.
    rewrite Hyes, Hdir. cbn.
    rewrite filter_none; [done|].
    apply Forall_forall. intros name Hin Hpdf.
    apply list_elem_of_fmap in Hin as ([k v] & -> & Hkv%elem_of_map_to_list).
    cbn in Hpdf. rewrite Hnone in Hpdf; [done|eauto].
  - destruct (Scanner_merge_pdfs_outcome pypdf2 pip s)
      as [-> | [-> | (merged & fs & _ & ->)]]; done.
  - destruct (Scanner_merge_pdfs_outcome pypdf2 pip s)
      as [-> | [-> | (merged & fs & _ & ->)]]; done.
  - intros dir name Hne.
    destruct (Scanner_merge_pdfs_outcome pypdf2 pip s)
      as [-> | [-> | (merged & fs & Hw & ->)]]; [done..|].
    cbn. rewrite (file_at_write_file _ _ _ _ dir name Hw).
    by rewrite decide_False.
Qed.

(** X14.  "Capture" in [scanner.py].  When the document directory exists,
    [process_and_save] writes the frame, always with channels 0 and 2
    exchanged, as the one page of [{doc}_{n+1:03d}.pdf], which can be
    read back; nothing else on disk changes and the page count becomes
    n+1.  When the directory is missing, the exception leaves the method
    with the page count already advanced and the disk unchanged. *)
Theorem X14_scanner_capture_writes_one_page
    (s : Scanner.SimpleDocumentScanner) (img : ndarray) :
  plain_name
    (page_name (Scanner.current_doc_name s) (Scanner.page_count s + 1)) ->
  (is_Some (Scanner.disk s !! Scanner.output_dir s) ->
   (Scanner.process_and_save (Ok img) s).2 = None
   /\ Scanner.page_count (Scanner.process_and_save (Ok img) s).1
      = Scanner.page_count s + 1
   /\ file_at (Scanner.disk (Scanner.process_and_save (Ok img) s).1)
        (Scanner.output_dir s)
        (page_name (Scanner.current_doc_name s) (Scanner.page_count s + 1))
      = Some [PageImage (cvtColor_BGR2RGB img)]
   /\ forall dir name,
        (dir, name)
        <> (Scanner.output_dir s,
            page_name (Scanner.current_doc_name s)
              (Scanner.page_count s + 1)) ->
        file_at (Scanner.disk (Scanner.process_and_save (Ok img) s).1)
          dir name
        = file_at (Scanner.disk s) dir name)
  /\ (Scanner.disk s !! Scanner.output_dir s = None ->
      (Scanner.process_and_save (Ok img) s).2 = Some FileNotFoundError
      /\ Scanner.page_count (Scanner.process_and_save (Ok img) s).1
         = Scanner.page_count s + 1
      /\ Scanner.disk (Scanner.process_and_save (Ok img) s).1
         = Scanner.disk s).
Proof.
  intros Hplain.
  unfold Scanner.process_and_save, Scanner.save_as_pdf.
  rewrite Scanner_page_path_name. cbn.
  unfold write_file. rewrite split_path_dir by done.
  split.
  - intros [files Hdir]. rewrite Hdir. cbn.
    split; [done|]. split; [done|]. unfold file_at. split.
    + by rewrite !lookup_insert_eq.
    + intros dir name Hne.
      destruct (decide (Scanner.output_dir s = dir)) as [<-|Hd].
      * rewrite lookup_insert_eq, Hdir.
        rewrite lookup_insert_ne; [done|]. congruence.
      * by rewrite lookup_insert_ne.
  - intros Hdir. by rewrite Hdir.
Qed.

Lemma X14_witness :
  file_at
    (Scanner.disk
       (Scanner.process_and_save (Ok frame_low) (Scanner.init 0)).1)
    "document_scan_0" "Document_001.pdf"
  = Some [PageImage (cvtColor_BGR2RGB frame_low)].
Proof.
  refine (proj1 (proj2 (proj2 (proj1
            (X14_scanner_capture_writes_one_page (Scanner.init 0) frame_low
               eq_refl) _)))).
  exists ∅. by vm_compute.
Defined.

(** ** scanner.py: merging twice *)

Lemma Scanner_complete_path_name (s : Scanner.SimpleDocumentScanner) :
  Scanner.complete_path s
  = Scanner.output_dir s +:+ "/"
      +:+ complete_name (Scanner.current_doc_name s).
Proof. reflexivity. Qed.

Lemma page_suffixes_before_complete :
  Forall (fun i => String.le (page_suffix i) "_complete.pdf"
                   /\ page_suffix i <> "_complete.pdf") (seq 1 999).
Proof. apply (bool_decide_unpack _). by vm_compute. Qed.

Lemma page_name_before_complete (doc : string) (i : nat) :
  1 <= i <= 999 ->
  String.le (page_name doc i) (complete_name doc)
  /\ page_name doc i <> complete_name doc.
Proof.
  intros Hi. pose proof page_suffixes_before_complete as Hs.
  rewrite Forall_seq in Hs. destruct (Hs i ltac:(lia)) as [Hle Hne].
  split.
  - by apply String_le_app.
  - unfold page_name, complete_name. by intros ?%(inj (String.app doc)).
Qed.

Lemma complete_name_plain (doc : string) :
  plain_name doc -> plain_name (complete_name doc).
Proof. intros Hdoc. by apply rsplit_slash_app_None. Qed.

Lemma complete_name_endswith (doc : string) :
  endswith (complete_name doc) ".pdf" = true.
Proof.
  unfold complete_name.
  change "_complete.pdf" with ("_complete" +:+ ".pdf").
  rewrite <- String_app_assoc. apply endswith_app.
Qed.

Lemma listing_pages_and_complete (files : gmap string (list pdf_page))
    (doc : string) (n : nat) (content : list pdf_page) :
  n <= 999 ->
  (forall name, is_Some (files !! name) <-> name ∈ page_names doc n) ->
  sorted (filter (fun f => endswith f ".pdf" = true)
            (fst <$> map_to_list (<[complete_name doc := content]> files)))
  = page_names doc n ++ [complete_name doc].
Proof.
  intros Hn Hdom.
  assert (complete_name doc ∉ page_names doc n) as Hfresh.
  { intros (i & Heq & Hi)%elem_of_page_names.
    by destruct (page_name_before_complete doc i ltac:(lia)) as [_ []]. }
  assert (fst <$> map_to_list (<[complete_name doc := content]> files)
          ≡ₚ page_names doc n ++ [complete_name doc]) as Hperm.
  { apply NoDup_Permutation.
    - apply NoDup_fst_map_to_list.
    - apply NoDup_app. split; [by apply page_names_NoDup|]. split.
      + intros x Hx ->%list_elem_of_singleton. done.
      + apply NoDup_singleton.
    - intros name. rewrite elem_of_app, list_elem_of_singleton, <- Hdom.
      rewrite list_elem_of_fmap. split.
      + intros ([k v] & -> & Hkv%elem_of_map_to_list). cbn.
        assert (is_Some (<[complete_name doc := content]> files !! k))
          as [?|?]%lookup_insert_is_Some' by eauto; auto.
      + intros Hin.
        assert (is_Some (<[complete_name doc := content]> files !! name))
          as [v Hv].
        { apply lookup_insert_is_Some'. destruct Hin; auto. }
        exists (name, v). split; [done|]. by apply elem_of_map_to_list. }
  rewrite filter_all.
  - apply sorted_listing; [|done].
    apply StronglySorted_Sorted, StronglySorted_app. split; [|split].
    + intros x1 x2 (i & -> & Hi)%elem_of_page_names
        ->%list_elem_of_singleton.
      by apply page_name_before_complete; lia.
    + apply Sorted_StronglySorted; [apply _|]. by apply page_names_sorted.
    + repeat constructor.
  - rewrite Hperm. apply Forall_app. split.
    + apply Forall_forall.
      intros name (i & -> & _)%elem_of_page_names. apply page_name_endswith.
    + repeat constructor. apply complete_name_endswith.
Qed.

Lemma Scanner_append_all_app (dir : string) (l1 l2 : list string) (fs : FS) :
  Scanner.append_all dir (l1 ++ l2) fs
  = bind (Scanner.append_all dir l1 fs)
      (fun a => bind (Scanner.append_all dir l2 fs) (fun b => Ok (a ++ b))).
Proof.
  induction l1 as [|x l1 IH]; cbn.
  - destruct (Scanner.append_all dir l2 fs); done.
  - destruct (read_file _ fs) as [pages|e]; cbn; [|done].
    rewrite IH. destruct (Scanner.append_all dir l1 fs) as [a|e]; cbn; [|done].
    destruct (Scanner.append_all dir l2 fs) as [b|e]; cbn; [|done].
    by rewrite app_assoc.
Qed.

(** X15.  [merge_pdfs] of [scanner.py] writes its result into the
    directory it merges, and its listing takes every [.pdf] file there.
    So a second merge of the same directory reads the first merged file
    as one more input, sorted after the pages: after N pages (1 <= N <=
    999) scanned into a fresh document, the first merge gives the N pages
    in order and the second gives them twice. *)
Theorem X15_second_merge_doubles_the_pages
    (sc : Scanner.SimpleDocumentScanner) (frames : list ndarray)
    (pip pip' : bool) :
  Scanner.page_count sc = 0 ->
  Scanner.disk sc !! Scanner.output_dir sc = Some ∅ ->
  plain_name (Scanner.current_doc_name sc) ->
  0 < length frames <= 999 ->
  read_file (Scanner.complete_path (scan_all frames sc))
    (Scanner.disk (Scanner.merge_pdfs true pip (scan_all frames sc)).1)
  = Ok (PageImage <$> (cvtColor_BGR2RGB <$> frames))
  /\ (Scanner.merge_pdfs true pip'
        (Scanner.merge_pdfs true pip (scan_all frames sc)).1).2 = Some true
  /\ read_file (Scanner.complete_path (scan_all frames sc))
       (Scanner.disk
          (Scanner.merge_pdfs true pip'
             (Scanner.merge_pdfs true pip (scan_all frames sc)).1).1)
     = Ok ((PageImage <$> (cvtColor_BGR2RGB <$> frames))
           ++ (PageImage <$> (cvtColor_BGR2RGB <$> frames))).
Proof.
  intros Hzero Hdir Hdoc [Hpos Hlen].
  destruct (scan_all_pages frames [] sc) as (Hh & Hn & Ho & Hname);
    try done.
  { by apply holds_pages_empty. }
  cbn in Hh, Hn. rewrite length_fmap in Hn.
  set (s := scan_all frames sc) in *. clearbody s.
  set (stored := cvtColor_BGR2RGB <$> frames) in *.
  assert (length stored = length frames) as Hstored.
  { unfold stored. by rewrite length_fmap. }
  clearbody stored.
  set (doc := Scanner.current_doc_name sc) in *.
  set (dir := Scanner.output_dir sc) in *.
  clearbody doc dir.
  pose proof (holds_pages_listing _ _ _ _ Hh ltac:(lia)) as Hlist.
  pose proof (holds_pages_read_all _ _ _ _ Hh Hdoc ltac:(lia)) as Hreads.
  rewrite Hstored in Hlist, Hreads.
  destruct Hh as (files & Hfiles & Hdom & Hcontent).
  rewrite Hstored in Hdom.
  assert (exists name names, page_names doc (length frames) = name :: names)
    as (name & names & Hnames).
  { destruct (page_names doc (length frames)) eqn:E; [|eauto].
    apply (f_equal length) in E. unfold page_names in E.
    rewrite length_fmap, length_seq in E. cbn in E. lia. }
  assert (Scanner.complete_path s = dir +:+ "/" +:+ complete_name doc)
    as Hpath.
  { by rewrite Scanner_complete_path_name, Ho, Hname. }
  assert (split_path (dir +:+ "/" +:+ complete_name doc)
          = (dir, complete_name doc)) as Hsplit.
  { apply split_path_dir. by apply complete_name_plain. }
  rewrite Hpath.
  set (pages := PageImage <$> stored).
  (* the first merge *)
  set (fs1 := <[dir := <[complete_name doc := pages]> files]>
                (Scanner.disk s)).
  assert (fs1 !! dir = Some (<[complete_name doc := pages]> files)) as Hfs1.
  { unfold fs1. by rewrite lookup_insert_eq. }
  assert (Scanner.merge_pdfs true pip s
          = (Scanner.mk_scanner (Scanner.current_doc_name s)
               (Scanner.mouse_x s) (Scanner.mouse_y s)
               (Scanner.output_dir s) (Scanner.page_count s) fs1,
             Some true)) as Hfirst.
  { unfold Scanner.merge_pdfs. cbn -[Scanner.append_all].
    rewrite Ho, Hlist. cbn -[Scanner.append_all]. rewrite Hnames.
    cbn -[Scanner.append_all]. rewrite <- Hnames.
    rewrite (Scanner_append_all_pages _ _ _ stored Hreads).
    cbn -[Scanner.append_all].
    unfold write_file. rewrite Hpath, Hsplit, Hfiles. by cbn. }
  clearbody fs1.
  rewrite Hfirst. cbn [fst snd].
  assert (read_file (dir +:+ "/" +:+ complete_name doc) fs1 = Ok pages)
    as Hread1.
  { rewrite read_file_file_at, Hsplit. cbn [fst snd]. unfold file_at.
    by rewrite Hfs1, lookup_insert_eq. }
  split; [done|].
  (* the second merge *)
  assert (pdf_files_in dir fs1
          = Ok (page_names doc (length frames) ++ [complete_name doc]))
    as Hlist2.
  { unfold pdf_files_in, listdir. rewrite Hfs1. unfold bind.
    f_equal. by apply listing_pages_and_complete. }
  assert (Forall2 (fun name a => read_file (dir +:+ "/" +:+ name) fs1
                                 = Ok [PageImage a])
            (page_names doc (length frames)) stored) as Hreads2.
  { apply Forall2_same_length_lookup. split.
    - unfold page_names. by rewrite length_fmap, length_seq.
    - intros i nm a Hnm Ha.
      unfold page_names in Hnm. rewrite list_lookup_fmap in Hnm.
      apply fmap_Some in Hnm as (k & Hk%lookup_seq & ->).
      destruct Hk as [-> Hi]. change (1 + i) with (S i).
      rewrite read_file_file_at, split_path_dir
        by (apply page_name_plain; [done|lia]).
      cbn [fst snd]. unfold file_at. rewrite Hfs1.
      rewrite lookup_insert_ne.
      + by rewrite (Hcontent i a Ha).
      + intros Heq.
        by destruct (page_name_before_complete doc (S i) ltac:(lia))
          as [_ []]. }
  assert (Scanner.append_all dir
            (page_names doc (length frames) ++ [complete_name doc]) fs1
          = Ok (pages ++ pages)) as Happ.
  { rewrite Scanner_append_all_app.
    rewrite (Scanner_append_all_pages _ _ _ stored Hreads2).
    unfold bind at 1. cbn [Scanner.append_all].
    rewrite Hread1. unfold bind. by rewrite app_nil_r. }
  assert (Scanner.merge_pdfs true pip'
            (Scanner.mk_scanner (Scanner.current_doc_name s)
               (Scanner.mouse_x s) (Scanner.mouse_y s)
               (Scanner.output_dir s) (Scanner.page_count s) fs1)
          = (Scanner.mk_scanner (Scanner.current_doc_name s)
               (Scanner.mouse_x s) (Scanner.mouse_y s)
               (Scanner.output_dir s) (Scanner.page_count s)
               (<[dir := <[complete_name doc := pages ++ pages]>
                           (<[complete_name doc := pages]> files)]> fs1),
             Some true)) as Hsecond.
  { unfold Scanner.merge_pdfs, Scanner.complete_path.
    cbn [Scanner.output_dir Scanner.current_doc_name Scanner.disk
         Scanner.mouse_x Scanner.mouse_y Scanner.page_count orb].
    rewrite Ho, Hname, Hlist2. unfold bind at 1 2.
    destruct (page_names doc (length frames) ++ [complete_name doc])
      as [|nm nms] eqn:Hall.
    { by rewrite Hnames in Hall. }
    rewrite Happ. unfold bind.
    change (dir +:+ "/" +:+ doc +:+ "_complete.pdf")
      with (dir +:+ "/" +:+ complete_name doc).
    unfold write_file. by rewrite Hsplit, Hfs1. }
  rewrite Hsecond. cbn [fst snd Scanner.disk].
  split; [done|].
  rewrite read_file_file_at, Hsplit. cbn [fst snd]. unfold file_at.
  by rewrite !lookup_insert_eq.
Qed.

Lemma X15_witness :
  read_file "document_scan_0/Document_complete.pdf"
    (Scanner.disk
       (Scanner.merge_pdfs true true
          (Scanner.merge_pdfs true true
             (scan_all [frame_low] (Scanner.init 0))).1).1)
  = Ok ([PageImage (cvtColor_BGR2RGB frame_low)]
        ++ [PageImage (cvtColor_BGR2RGB frame_low)]).
Proof.
  refine (proj2 (proj2 (X15_second_merge_doubles_the_pages
                          (Scanner.init 0) [frame_low] true true
                          eq_refl _ eq_refl _))).
  - by vm_compute.
  - cbn. lia.
Defined.

(** ** Channel order from the OpenCV camera to the page *)

Lemma swap_rb_involutive (p : list Z) : swap_rb (swap_rb p) = p.
Proof. destruct p as [|c0 [|c1 [|c2 [|c3 p]]]]; done. Qed.

Lemma cvtColor_involutive (a : ndarray) :
  cvtColor_BGR2RGB (cvtColor_BGR2RGB a) = a.
Proof.
  destruct a as [h w c rows]. unfold cvtColor_BGR2RGB. cbn. f_equal.
  induction rows as [|row rows IH]; [done|]. cbn. f_equal; [|done].
  clear IH. induction row as [|p row IH]; [done|]. cbn.
  by rewrite swap_rb_involutive, IH.
Qed.

Lemma item_cvtColor (a : ndarray) (c0 c2 : Z) :
  uniform_channels 3 a ->
  item a 0 0 0 = Ok c0 ->
  item a 0 0 2 = Ok c2 ->
  item (cvtColor_BGR2RGB a) 0 0 0 = Ok c2
  /\ item (cvtColor_BGR2RGB a) 0 0 2 = Ok c0.
Proof.
  destruct a as [h w c rows]. unfold uniform_channels, item. cbn.
  destruct rows as [|[|p row] rows]; try done.
  intros Hu Hc0 Hc2.
  apply Forall_cons in Hu as [Hrow _].
  apply Forall_cons in Hrow as [Hp _].
  destruct p as [|x0 [|x1 [|x2 [|x3 p]]]]; cbn in *; by simplify_eq.
Qed.

(** X16.  A frame of the OpenCV camera is turned from BGR to RGB by the
    camera thread, and [save_as_pdf] exchanges channels 0 and 2 once more
    whenever pixel (0,0) of what it gets has channel 0 above channel 2.
    The two exchanges cancel: a three-channel camera frame whose first
    pixel has more red than blue is captured as RGB, and its page file
    holds the camera's BGR data again; any other frame is stored as
    RGB. *)
Theorem X16_opencv_page_may_hold_bgr_again
    (s : App) (f : ndarray) (blue red : Z) (lores main : result ndarray)
    (frame : local) (filename : string) (fs : FS) :
  camera_active s = true ->
  camera s = true ->
  frame_queue s = None ->
  channels f = 3 ->
  uniform_channels 3 f ->
  item f 0 0 0 = Ok blue ->
  item f 0 0 2 = Ok red ->
  exists fr s1,
    V2.camera_stream_body false lores (true, PyArray f) frame s
    = Some (fr, s1)
    /\ current_image (V2.capture_image false main s1)
       = Some (cvtColor_BGR2RGB f)
    /\ V2.save_as_pdf (cvtColor_BGR2RGB f) filename fs
       = write_file filename
           [PageImage (if (red >? blue)%Z then f else cvtColor_BGR2RGB f)]
           fs.
Proof.
  intros Hact Hcam Hq Hch Hu Hb Hr.
  destruct (item_cvtColor f blue red Hu Hb Hr) as [H0 H2].
  unfold V2.camera_stream_body, V2.acquire. cbn. rewrite Hcam.
  unfold V2.deliver. rewrite Hq. cbn.
  assert (V2.save_as_pdf (cvtColor_BGR2RGB f) filename fs
          = write_file filename
              [PageImage (if (red >? blue)%Z then f else cvtColor_BGR2RGB f)]
              fs) as Hsave; [|destruct (auto_mode s && negb (capturing s));
    (eexists _, _; split; [reflexivity|]; split; [|exact Hsave];
     unfold V2.capture_image; cbn; by rewrite Hact)].
  - unfold V2.save_as_pdf, V2.as_rgb.
    change (channels (cvtColor_BGR2RGB f)) with (channels f).
    rewrite Hch, H0, H2. cbn.
    destruct (red >? blue)%Z; cbn; [|done].
    by rewrite cvtColor_involutive.
Qed.

Lemma X16_witness :
  V2.save_as_pdf (cvtColor_BGR2RGB frame_low) "out/Document_001.pdf"
    (makedirs "out" ∅)
  = write_file "out/Document_001.pdf" [PageImage frame_low]
      (makedirs "out" ∅).
Proof.
  destruct (X16_opencv_page_may_hold_bgr_again
              (set_frame_queue None (streaming (V2.init 0))) frame_low 1 2
              (Raise CameraFailure) (Raise CameraFailure) None
              "out/Document_001.pdf" (makedirs "out" ∅)
              eq_refl eq_refl eq_refl eq_refl
              ltac:(repeat constructor) eq_refl eq_refl)
    as (fr & s1 & _ & _ & Hsave).
  exact Hsave.
Defined.

(** ** Automatic mode of [test_main.py] *)

Lemma pop_min_Forall (P : nat * callback -> Prop)
    (q : list (nat * callback)) (e : nat * callback)
    (rest : list (nat * callback)) :
  pop_min q = Some (e, rest) -> Forall P q -> P e /\ Forall P rest.
Proof.
  revert e rest. induction q as [|x q IH]; intros e rest; [done|].
  cbn. intros Hpop Hall. apply Forall_cons in Hall as [Hx Hq].
  destruct (pop_min q) as [[m r]|].
  - destruct (IH m r eq_refl Hq) as [Hm Hr].
    destruct (x.1 <=? m.1)%nat; simplify_eq; auto.
  - simplify_eq. auto.
Qed.

Lemma V1_update_camera_canvas_stalled (s : App) :
  auto_stalled s ->
  auto_stalled (V1.update_camera_canvas s)
  /\ document (V1.update_camera_canvas s) = document s.
Proof.
  intros (Ha & Hc & Hi & Hq). unfold V1.update_camera_canvas.
  by destruct (frame_queue s).
Qed.

Lemma V1_fire_timer_stalled (s : App) :
  auto_stalled s ->
  auto_stalled (V1.fire_timer s)
  /\ document (V1.fire_timer s) = document s.
Proof.
  intros Hs. unfold V1.fire_timer.
  destruct (pop_min (after_queue s)) as [[[due cb] rest]|] eqn:Hpop;
    [|done].
  destruct Hs as (Ha & Hc & Hi & Hq).
  destruct (pop_min_Forall _ _ _ _ Hpop Hq) as [Hcb Hrest].
  cbn in Hcb. subst cb. cbn.
  apply (V1_update_camera_canvas_stalled
           (set_clock (clock s `max` due) (set_after_queue rest s))).
  by repeat split.
Qed.

Lemma V1_deliver_stalled (rgb_frame : pyobj) (s s' : App) :
  auto_stalled s ->
  V1.deliver rgb_frame s = Some s' ->
  auto_stalled s' /\ document s' = document s.
Proof.
  intros (Ha & Hc & Hi & Hq). unfold V1.deliver.
  destruct (frame_queue s); cbn; rewrite Ha, Hc; cbn; intros ?;
    simplify_eq; (split; [|done]); repeat split; try done; cbn;
    apply Forall_app; split; try done; by repeat constructor.
Qed.

Lemma V1_thread_step_stalled (read : bool * pyobj) (th th' : thread)
    (s s' : App) :
  auto_stalled s ->
  V1.thread_step read th s = Some (th', s') ->
  auto_stalled s' /\ document s' = document s.
Proof.
  intros Hs. unfold V1.thread_step.
  destruct (at_pc th); try (intros ?; by simplify_eq).
  - destruct (V1.acquire read s); intros ?; by simplify_eq.
  - destruct (frame th) as [rgb_frame|]; [|intros ?; by simplify_eq].
    destruct (V1.deliver rgb_frame s) as [s1|] eqn:Hd; [|done].
    intros ?. simplify_eq. by apply (V1_deliver_stalled rgb_frame s).
Qed.

Lemma V1_step_stalled (e : V1.event) (w : world) :
  background e ->
  auto_stalled (app w) ->
  auto_stalled (app (V1.step e w))
  /\ document (app (V1.step e w)) = document (app w).
Proof.
  intros He Hs. destruct e; try done; cbn.
  - by apply V1_fire_timer_stalled.
  - destruct (threads w !! i) as [th|]; [|done].
    destruct (V1.thread_step read th (app w)) as [[th' s']|] eqn:Hstep;
      [|done].
    cbn. by apply (V1_thread_step_stalled read th th').
Qed.

(** X17.  [auto_capture] of [test_main.py] sets [capturing] back only
    when automatic mode or the camera is off.  Once automatic mode is on,
    [capturing] is set, no candidate is pending and only canvas updates
    are armed, no step of a camera thread and no timer changes that: the
    camera thread arms no further [auto_capture], and no page is ever
    committed unless the user acts. *)
Theorem X17_auto_mode_stays_stalled (trace : list V1.event) (w : world) :
  auto_stalled (app w) ->
  Forall background trace ->
  auto_stalled (app (V1.run trace w))
  /\ document (app (V1.run trace w)) = document (app w).
Proof.
  intros Hs Htrace. revert w Hs.
  induction Htrace as [|e trace He _ IH]; intros w Hs; [done|].
  cbn. destruct (V1_step_stalled e w He Hs) as [Hs1 Hd1].
  fold (V1.run trace (V1.step e w)).
  destruct (IH _ Hs1) as [Hs2 Hd2]. split; [done|]. by rewrite Hd2.
Qed.

Lemma X17_witness :
  let w := V1.run auto_until_stall (mk_world [] V1.init) in
  auto_stalled (app w)
  /\ auto_stalled (app (V1.run one_more_frame w))
  /\ document (app (V1.run one_more_frame w)) = document (app w).
Proof.
  cbv zeta.
  assert (auto_stalled
            (app (V1.run auto_until_stall (mk_world [] V1.init)))) as Hs.
  { vm_compute. repeat split. constructor. }
  split; [exact Hs|].
  apply (X17_auto_mode_stays_stalled one_more_frame _ Hs).
  repeat constructor.
Defined.

Lemma pop_min_pair (a b : nat * callback) :
  a.1 <= b.1 -> pop_min [a; b] = Some (a, [b]).
Proof.
  intros Hle. cbn. by rewrite (proj2 (Nat.leb_le _ _) Hle).
Qed.

Lemma V1_update_camera_canvas_eq (s : App) :
  V1.update_camera_canvas s = set_frame_queue None s.
Proof. destruct s as [? ? ? [?|] ? ? ? ? ? ? ? ? ? ? ? ? ? ?]; done. Qed.

Lemma V2_update_camera_canvas_eq (s : App) :
  V2.update_camera_canvas s = set_frame_queue None s.
Proof. destruct s as [? ? ? [?|] ? ? ? ? ? ? ? ? ? ? ? ? ? ?]; done. Qed.

Lemma V1_fire_timer_next (s : App) (due : nat) (cb : callback)
    (rest : list (nat * callback)) :
  pop_min (after_queue s) = Some ((due, cb), rest) ->
  V1.fire_timer s
  = V1.run_callback cb
      (set_clock (clock s `max` due) (set_after_queue rest s)).
Proof. intros Hpop. unfold V1.fire_timer. by rewrite Hpop. Qed.

Lemma V2_fire_timer_next (picamera : bool) (main : result ndarray)
    (s : App) (due : nat) (cb : callback) (rest : list (nat * callback)) :
  pop_min (after_queue s) = Some ((due, cb), rest) ->
  V2.fire_timer picamera main s
  = V2.run_callback picamera cb main
      (set_clock (clock s `max` due) (set_after_queue rest s)).
Proof. intros Hpop. unfold V2.fire_timer. by rewrite Hpop. Qed.

(** The frame delivered in a quiet state. *)
Lemma V1_deliver_quiet (rgb_frame : pyobj) (s : App) :
  auto_mode s = true ->
  capturing s = false ->
  frame_queue s = None ->
  V1.deliver rgb_frame s
  = Some (window_after 100 CbAutoCapture
            (set_capturing true
               (window_after 1 CbUpdateCameraCanvas
                  (set_frame_queue (Some rgb_frame) s)))).
Proof.
  intros Ha Hc Hq. unfold V1.deliver. rewrite Hq. cbn.
  by rewrite Ha, Hc.
Qed.

Lemma V2_deliver_quiet (rgb_frame : pyobj) (s : App) :
  auto_mode s = true ->
  capturing s = false ->
  frame_queue s = None ->
  V2.deliver (Some rgb_frame) s
  = Some (Ok (window_after 100 CbAutoCapture
                (set_capturing true
                   (window_after 1 CbUpdateCameraCanvas
                      (set_frame_queue (Some rgb_frame) s))))).
Proof.
  intros Ha Hc Hq. unfold V2.deliver. rewrite Hq. cbn.
  by rewrite Ha, Hc.
Qed.

(** [auto_capture] with automatic mode and camera on and an empty
    queue. *)
Lemma V1_auto_capture_empty (s : App) :
  auto_mode s = true ->
  camera_active s = true ->
  frame_queue s = None ->
  V1.auto_capture s = s.
Proof.
  intros Ha Hact Hq. unfold V1.auto_capture.
  by rewrite Ha, Hact, Hq.
Qed.

Lemma V2_auto_capture_empty (main : result ndarray) (s : App) :
  auto_mode s = true ->
  camera_active s = true ->
  frame_queue s = None ->
  V2.auto_capture false main s = set_capturing false s.
Proof.
  intros Ha Hact Hq. unfold V2.auto_capture.
  by rewrite Ha, Hact, Hq.
Qed.

(** X18.  How automatic mode comes to a halt with the OpenCV camera.  In
    a quiet state (automatic mode on, no capture under way, no candidate,
    empty queue, no timer armed) the camera thread delivers a frame and
    arms the canvas update 1 ms and [auto_capture] 100 ms ahead.  The
    main loop runs the canvas update first; it takes the frame.  In
    [test_main.py] [auto_capture] then finds the queue empty and returns
    with [capturing] still set, which is the halted state.  In
    [test_main_v2.py] the same run ends with [capturing] reset, so the
    next frame arms [auto_capture] again. *)
Theorem X18_auto_capture_finds_queue_emptied
    (s : App) (rgb_frame : pyobj) (main : result ndarray) :
  auto_mode s = true ->
  capturing s = false ->
  camera_active s = true ->
  current_image s = None ->
  frame_queue s = None ->
  after_queue s = [] ->
  (exists s1,
     V1.deliver rgb_frame s = Some s1
     /\ after_queue s1
        = [(clock s + 1, CbUpdateCameraCanvas);
           (clock s + 100, CbAutoCapture)]
     /\ auto_stalled (V1.fire_timer (V1.fire_timer s1))
     /\ after_queue (V1.fire_timer (V1.fire_timer s1)) = [])
  /\ (exists s2,
        V2.deliver (Some rgb_frame) s = Some (Ok s2)
        /\ after_queue s2
           = [(clock s + 1, CbUpdateCameraCanvas);
              (clock s + 100, CbAutoCapture)]
        /\ capturing (V2.fire_timer false main (V2.fire_timer false main s2))
           = false
        /\ current_image
             (V2.fire_timer false main (V2.fire_timer false main s2))
           = None
        /\ after_queue
             (V2.fire_timer false main (V2.fire_timer false main s2))
           = []).
Proof.
  intros Ha Hc Hact Hi Hq Hafter.
  set (s1 := window_after 100 CbAutoCapture
               (set_capturing true
                  (window_after 1 CbUpdateCameraCanvas
                     (set_frame_queue (Some rgb_frame) s)))).
  assert (after_queue s1
          = [(clock s + 1, CbUpdateCameraCanvas);
             (clock s + 100, CbAutoCapture)]) as Hq1
    by (cbn; by rewrite Hafter).
  assert (auto_mode s1 = true) as Ha1 by done.
  assert (capturing s1 = true) as Hc1 by done.
  assert (camera_active s1 = true) as Hact1 by done.
  assert (current_image s1 = None) as Hi1 by done.
  assert (pop_min (after_queue s1)
          = Some ((clock s + 1, CbUpdateCameraCanvas),
                  [(clock s + 100, CbAutoCapture)])) as Hpop1
    by (rewrite Hq1; apply pop_min_pair; cbn; lia).
  split.
  - exists s1. split; [by apply V1_deliver_quiet|]. split; [done|].
    clearbody s1.
    rewrite (V1_fire_timer_next s1 _ _ _ Hpop1). cbn.
    rewrite V1_update_camera_canvas_eq.
    set (s2 := set_frame_queue None _).
    assert (auto_mode s2 = true) as Ha2 by done.
    assert (camera_active s2 = true) as Hact2 by done.
    assert (current_image s2 = None) as Hi2 by done.
    assert (capturing s2 = true) as Hc2 by done.
    assert (frame_queue s2 = None) as Hq2 by done.
    assert (pop_min (after_queue s2)
            = Some ((clock s + 100, CbAutoCapture), [])) as Hpop2 by done.
    clearbody s2.
    rewrite (V1_fire_timer_next s2 _ _ _ Hpop2). cbn.
    rewrite V1_auto_capture_empty by done.
    split; [|done]. repeat split; try done. constructor.
  - exists s1. split; [by apply V2_deliver_quiet|]. split; [done|].
    clearbody s1.
    rewrite (V2_fire_timer_next false main s1 _ _ _ Hpop1). cbn.
    rewrite V2_update_camera_canvas_eq.
    set (s2 := set_frame_queue None _).
    assert (auto_mode s2 = true) as Ha2 by done.
    assert (camera_active s2 = true) as Hact2 by done.
    assert (current_image s2 = None) as Hi2 by done.
    assert (frame_queue s2 = None) as Hq2 by done.
    assert (pop_min (after_queue s2)
            = Some ((clock s + 100, CbAutoCapture), [])) as Hpop2 by done.
    clearbody s2.
    rewrite (V2_fire_timer_next false main s2 _ _ _ Hpop2). cbn.
    by rewrite V2_auto_capture_empty.
Qed.

Lemma X18_witness :
  auto_stalled
    (V1.fire_timer
       (V1.fire_timer
          (window_after 100 CbAutoCapture
             (set_capturing true
                (window_after 1 CbUpdateCameraCanvas
                   (set_frame_queue (Some (PyArray frame_low))
                      (V1.toggle_auto_mode
                         (V1.start_camera true V1.init)))))))).
Proof.
  destruct (X18_auto_capture_finds_queue_emptied
              (V1.toggle_auto_mode (V1.start_camera true V1.init))
              (PyArray frame_low) (Ok frame_low)
              eq_refl eq_refl eq_refl eq_refl eq_refl eq_refl)
    as [(s1 & Hd & _ & Hs & _) _].
  vm_compute in Hd. simplify_eq. exact Hs.
Defined.

(** ** scanner.py: buttons and keys *)

Lemma Scanner_process_and_save_mouse (main : result ndarray)
    (s : Scanner.SimpleDocumentScanner) :
  Scanner.mouse_x (Scanner.process_and_save main s).1 = Scanner.mouse_x s
  /\ Scanner.mouse_y (Scanner.process_and_save main s).1
     = Scanner.mouse_y s.
Proof.
  unfold Scanner.process_and_save. destruct main as [a|e]; cbn; [|done].
  by destruct (Scanner.save_as_pdf a _ _).
Qed.

(** What [merge_pdfs] leaves as it was. *)
Lemma Scanner_merge_pdfs_keeps (pypdf2 pip : bool)
    (s : Scanner.SimpleDocumentScanner) :
  Scanner.current_doc_name (Scanner.merge_pdfs pypdf2 pip s).1
  = Scanner.current_doc_name s
  /\ Scanner.mouse_x (Scanner.merge_pdfs pypdf2 pip s).1 = Scanner.mouse_x s
  /\ Scanner.mouse_y (Scanner.merge_pdfs pypdf2 pip s).1 = Scanner.mouse_y s
  /\ Scanner.output_dir (Scanner.merge_pdfs pypdf2 pip s).1
     = Scanner.output_dir s
  /\ Scanner.page_count (Scanner.merge_pdfs pypdf2 pip s).1
     = Scanner.page_count s
  /\ forall dir name,
       split_path (Scanner.complete_path s) <> (dir, name) ->
       file_at (Scanner.disk (Scanner.merge_pdfs pypdf2 pip s).1) dir name
       = file_at (Scanner.disk s) dir name.
Proof.
  destruct (Scanner_merge_pdfs_outcome pypdf2 pip s)
    as [H|[H|(merged & fs & Hw & H)]]; rewrite H; cbn;
    repeat split; try done.
  intros dir name Hne.
  rewrite (file_at_write_file _ _ _ _ dir name Hw).
  by rewrite decide_False.
Qed.

Lemma Scanner_new_document_mouse (merge pypdf2 pip : bool) (t : nat)
    (s : Scanner.SimpleDocumentScanner) :
  Scanner.mouse_x (Scanner.new_document merge pypdf2 pip t s)
  = Scanner.mouse_x s
  /\ Scanner.mouse_y (Scanner.new_document merge pypdf2 pip t s)
     = Scanner.mouse_y s.
Proof.
  unfold Scanner.new_document.
  destruct ((0 <? Scanner.page_count s)%nat && merge); [|done].
  destruct (Scanner_merge_pdfs_keeps pypdf2 pip s) as (_ & Hx & Hy & _).
  cbn -[Scanner.merge_pdfs]. by rewrite Hx, Hy.
Qed.

Lemma ScannerUI_press_mouse (b : ScannerUI.button) (i : ScannerUI.inputs)
    (s : Scanner.SimpleDocumentScanner) :
  Scanner.mouse_x (ScannerUI.press b i s).1 = Scanner.mouse_x s
  /\ Scanner.mouse_y (ScannerUI.press b i s).1 = Scanner.mouse_y s.
Proof.
  destruct b.
  - apply Scanner_process_and_save_mouse.
  - apply (Scanner_new_document_mouse (ScannerUI.merge i)
             (ScannerUI.pypdf2 i) (ScannerUI.pip i) (ScannerUI.now i) s).
  - cbn. unfold ScannerUI.set_name.
    by destruct (String.eqb (ScannerUI.typed i) "").
Qed.

Ltac leb_cases :=
  repeat match goal with
         | |- context [(?a <=? ?b)%Z] => destruct (Z.leb_spec a b); cbn
         end.

(** X19.  The buttons of [scanner.py] act where they are drawn.  A left
    click runs the action of a button exactly when the point lies in the
    rectangle [draw_ui] paints for that button, border included; the
    rectangle has its bright colour exactly when the last mouse position
    lies in it; and every mouse event, whatever it starts, leaves its
    own position as the last mouse position. *)
Theorem X19_buttons_act_where_they_are_drawn
    (s : Scanner.SimpleDocumentScanner) (b : ScannerUI.button)
    (event x y : Z) (i : ScannerUI.inputs) :
  (exists pt1 pt2 color,
     rectangle_of b (ScannerUI.draw_ui s) = Some (pt1, pt2, color)
     /\ (forall px py,
           ScannerUI.button_hit px py = Some b <-> inside pt1 pt2 px py)
     /\ (color = bright b
         <-> inside pt1 pt2 (Scanner.mouse_x s) (Scanner.mouse_y s)))
  /\ Scanner.mouse_x (ScannerUI.mouse_callback event x y i s).1 = x
  /\ Scanner.mouse_y (ScannerUI.mouse_callback event x y i s).1 = y.
Proof.
  split.
  - destruct b; eexists _, _, _; (split; [reflexivity|]); split.
    all: try (intros px py; unfold ScannerUI.button_hit).
    all: unfold inside; cbn; leb_cases; split; intros ?;
      try done; try lia.
  - unfold ScannerUI.mouse_callback.
    destruct (event =? ScannerUI.EVENT_LBUTTONDOWN)%Z; [|done].
    destruct (ScannerUI.button_hit x y) as [b'|]; [|done].
    apply (ScannerUI_press_mouse b' i
             (Scanner.mk_scanner (Scanner.current_doc_name s) x y
                (Scanner.output_dir s) (Scanner.page_count s)
                (Scanner.disk s))).
Qed.

(** X20.  The keys of [run] do what the buttons do.  When the low eight
    bits of what [waitKey] returned are SPACE, [d] or [n], the pass of
    the loop ends as a left click on "Capture", "New Doc" or "Set Name"
    at the last mouse position does: the same scanner, the same
    exception if one leaves the action. *)
Theorem X20_key_acts_as_click
    (b : ScannerUI.button) (raw x y : Z) (i : ScannerUI.inputs)
    (s : Scanner.SimpleDocumentScanner) :
  Z.land raw 255 = key b ->
  ScannerUI.button_hit x y = Some b ->
  Scanner.mouse_x s = x ->
  Scanner.mouse_y s = y ->
  ScannerUI.handle_key raw i s
  = ScannerUI.Next
      (ScannerUI.mouse_callback ScannerUI.EVENT_LBUTTONDOWN x y i s).1
      (ScannerUI.mouse_callback ScannerUI.EVENT_LBUTTONDOWN x y i s).2.
Proof.
  intros Hk Hb <- <-.
  unfold ScannerUI.handle_key, ScannerUI.mouse_callback.
  rewrite Hk, Hb. destruct s as [doc mx my dir n fs].
  by destruct b.
Qed.

Lemma X20_witness :
  ScannerUI.handle_key 1048608 sample_inputs pointer_on_capture
  = ScannerUI.Next
      (ScannerUI.mouse_callback ScannerUI.EVENT_LBUTTONDOWN 100 400
         sample_inputs pointer_on_capture).1
      (ScannerUI.mouse_callback ScannerUI.EVENT_LBUTTONDOWN 100 400
         sample_inputs pointer_on_capture).2.
Proof.
  exact (X20_key_acts_as_click ScannerUI.BtnCapture 1048608 100 400
           sample_inputs pointer_on_capture
           eq_refl eq_refl eq_refl eq_refl).
Defined.

(** ** scanner.py: a new document in the same second *)

Lemma Scanner_process_and_save_writes (s : Scanner.SimpleDocumentScanner)
    (img : ndarray) (files : gmap string (list pdf_page)) :
  Scanner.disk s !! Scanner.output_dir s = Some files ->
  plain_name
    (page_name (Scanner.current_doc_name s) (Scanner.page_count s + 1)) ->
  Scanner.process_and_save (Ok img) s
  = (Scanner.mk_scanner (Scanner.current_doc_name s) (Scanner.mouse_x s)
       (Scanner.mouse_y s) (Scanner.output_dir s) (Scanner.page_count s + 1)
       (<[Scanner.output_dir s :=
            <[page_name (Scanner.current_doc_name s)
                (Scanner.page_count s + 1) :=
                [PageImage (cvtColor_BGR2RGB img)]]> files]>
          (Scanner.disk s)),
     None).
Proof.
  intros Hdir Hplain.
  unfold Scanner.process_and_save, Scanner.save_as_pdf.
  rewrite Scanner_page_path_name. cbn.
  unfold write_file. rewrite split_path_dir by done.
  by rewrite Hdir.
Qed.

Lemma makedirs_is_Some (d : string) (fs : FS) : is_Some (makedirs d fs !! d).
Proof.
  unfold makedirs.
  destruct (fs !! d) eqn:E; [by rewrite E|by rewrite lookup_insert_eq].
Qed.

(** X21.  [create_new_document] names the directory after the second it
    runs in and accepts an existing directory.  A new document started
    in the second the current one was started in therefore keeps the
    directory while the page count goes back to 0; nothing is deleted
    (at most the merged file is written), and the next capture is
    written to the path of page 1 of the document before, whose page
    file it replaces. *)
Theorem X21_new_document_in_the_same_second
    (merge pypdf2 pip : bool) (t : nat) (s : Scanner.SimpleDocumentScanner)
    (img : ndarray) :
  Scanner.output_dir s = "document_scan_" +:+ pretty t ->
  plain_name (page_name (Scanner.current_doc_name s) 1) ->
  Scanner.output_dir (Scanner.new_document merge pypdf2 pip t s)
  = Scanner.output_dir s
  /\ Scanner.page_count (Scanner.new_document merge pypdf2 pip t s) = 0
  /\ (forall dir name,
        split_path (Scanner.complete_path s) <> (dir, name) ->
        file_at (Scanner.disk (Scanner.new_document merge pypdf2 pip t s))
          dir name
        = file_at (Scanner.disk s) dir name)
  /\ (Scanner.process_and_save (Ok img)
        (Scanner.new_document merge pypdf2 pip t s)).2 = None
  /\ file_at
       (Scanner.disk
          (Scanner.process_and_save (Ok img)
             (Scanner.new_document merge pypdf2 pip t s)).1)
       (Scanner.output_dir s) (page_name (Scanner.current_doc_name s) 1)
     = Some [PageImage (cvtColor_BGR2RGB img)].
Proof.
  intros Hdir Hplain. unfold Scanner.new_document.
  set (s1 := if (0 <? Scanner.page_count s)%nat && merge
             then (Scanner.merge_pdfs pypdf2 pip s).1 else s).
  assert (Scanner.current_doc_name s1 = Scanner.current_doc_name s
          /\ forall dir name,
               split_path (Scanner.complete_path s) <> (dir, name) ->
               file_at (Scanner.disk s1) dir name
               = file_at (Scanner.disk s) dir name) as [Hdoc Hfiles].
  { unfold s1. destruct ((0 <? Scanner.page_count s)%nat && merge);
      [|done].
    by destruct (Scanner_merge_pdfs_keeps pypdf2 pip s)
      as (? & _ & _ & _ & _ & ?). }
  clearbody s1.
  set (s2 := Scanner.create_new_document t s1).
  assert (Scanner.output_dir s2 = Scanner.output_dir s) as Hdir2
    by (by rewrite Hdir).
  assert (Scanner.page_count s2 = 0) as Hn2 by done.
  assert (Scanner.current_doc_name s2 = Scanner.current_doc_name s)
    as Hdoc2 by done.
  assert (forall dir name,
            file_at (Scanner.disk s2) dir name
            = file_at (Scanner.disk s1) dir name) as Hfiles2
    by (intros dir name; apply file_at_makedirs).
  assert (is_Some (Scanner.disk s2 !! Scanner.output_dir s2))
    as [files Hfs2] by apply makedirs_is_Some.
  clearbody s2.
  split; [done|]. split; [done|]. split.
  { intros dir name Hne. rewrite Hfiles2. by apply Hfiles. }
  rewrite (Scanner_process_and_save_writes s2 img files Hfs2)
    by (by rewrite Hdoc2, Hn2).
  cbn. split; [done|].
  unfold file_at. rewrite Hdoc2, Hn2, Hdir2. cbn.
  by rewrite !lookup_insert_eq.
Qed.

Lemma X21_witness :
  let s := scan_all [frame_low] (Scanner.init 0) in
  let s' := Scanner.new_document false true true 0 s in
  file_at (Scanner.disk s) "document_scan_0" "Document_001.pdf"
  = Some [PageImage (cvtColor_BGR2RGB frame_low)]
  /\ file_at (Scanner.disk (Scanner.process_and_save (Ok frame_high) s').1)
       "document_scan_0" "Document_001.pdf"
     = Some [PageImage (cvtColor_BGR2RGB frame_high)].
Proof.
  cbv zeta. split; [by vm_compute|].
  exact (proj2 (proj2 (proj2 (proj2
           (X21_new_document_in_the_same_second false true true 0
              (scan_all [frame_low] (Scanner.init 0)) frame_high
              eq_refl eq_refl))))).
Defined.

(** ** test_main.py: pages are kept in memory *)

Lemma V1_step_disk (e : V1.event) (w : world) :
  not_export e -> disk (app (V1.step e w)) = disk (app w).
Proof.
  destruct w as [ths s]. intros He.
  destruct e; try done; cbn [V1.step V1.on_app app threads].
  - unfold V1.start_camera. app_cases.
  - unfold V1.stop_camera. app_cases.
  - unfold V1.capture_image. app_cases.
  - unfold V1.save_image. app_cases.
  - unfold V1.cancel_capture. app_cases.
  - unfold V1.toggle_auto_mode. app_cases.
  - unfold V1.fire_timer.
    destruct (pop_min (after_queue s)) as [[[due cb] rest]|]; [|done].
    destruct cb; cbn [V1.run_callback].
    + unfold V1.update_camera_canvas. app_cases.
    + unfold V1.auto_capture. app_cases.
    + unfold V1.auto_save, V1.save_image. app_cases.
  - destruct (ths !! i) as [th|]; [|done].
    destruct (V1.thread_step read th s) as [[th' s']|] eqn:Hstep; [|done].
    cbn. revert Hstep.
    unfold V1.thread_step, V1.acquire, V1.deliver.
    app_cases; intros; simplify_eq; done.
Qed.

Lemma V1_run_disk (trace : list V1.event) (w : world) :
  Forall not_export trace -> disk (app (V1.run trace w)) = disk (app w).
Proof.
  intros Htrace. revert w.
  induction Htrace as [|e trace He _ IH]; intros w; [done|].
  cbn. fold (V1.run trace (V1.step e w)).
  by rewrite IH, V1_step_disk.
Qed.

(** X22.  [test_main.py] keeps pages in memory only.  Whatever the user,
    the timers and the camera threads do, the file system stays as it
    was until a PDF export; the export that follows writes, into an
    existing directory, the whole document: one drawn page per committed
    frame, in commit order. *)
Theorem X22_first_write_is_the_export (trace : list V1.event) (w : world) :
  Forall not_export trace ->
  disk (app (V1.run trace w)) = disk (app w)
  /\ forall filename dir name files,
       filename <> "" ->
       split_path filename = (dir, name) ->
       disk (app w) !! dir = Some files ->
       captured_images (app (V1.run trace w)) <> [] ->
       disk (app (V1.run (trace ++ [V1.ExportPDF filename]) w))
       = <[dir := <[name := PageDrawn
                              <$> captured_images (app (V1.run trace w))]>
                    files]> (disk (app w)).
Proof.
  intros Htrace. pose proof (V1_run_disk trace w Htrace) as Hdisk.
  split; [done|].
  intros filename dir name files Hname Hsplit Hdir Hpages.
  unfold V1.run. rewrite foldl_app. fold (V1.run trace w). cbn.
  set (s := app (V1.run trace w)) in *. clearbody s.
  unfold V1.export_pdf.
  destruct (captured_images s) as [|img imgs] eqn:Himgs; [done|].
  apply String.eqb_neq in Hname. rewrite Hname. cbn.
  unfold write_file. rewrite Hsplit, Hdisk, Hdir. cbn.
  by rewrite Himgs.
Qed.

Lemma X22_witness :
  file_at
    (disk (app (V1.run (two_pages_in_memory ++ [V1.ExportPDF "scan.pdf"])
                  in_working_directory)))
    "." "scan.pdf"
  = Some [PageDrawn (cvtColor_BGR2RGB frame_low);
          PageDrawn (cvtColor_BGR2RGB frame_high)]
  /\ disk (app (V1.run two_pages_in_memory in_working_directory))
     = makedirs "." ∅.
Proof.
  assert (Forall not_export two_pages_in_memory) as Htrace
    by (repeat constructor).
  destruct (X22_first_write_is_the_export two_pages_in_memory
              in_working_directory Htrace) as [Hdisk Hexport].
  split; [|exact Hdisk].
  rewrite (Hexport "scan.pdf" "." "scan.pdf" ∅); by vm_compute.
Defined.

(** ** test_main_v2.py: a round of automatic mode on the Pi camera *)

Lemma V2_auto_capture_pi (hi : ndarray) (s : App) :
  auto_mode s = true ->
  camera_active s = true ->
  picam2 s = true ->
  V2.auto_capture true (Ok hi) s
  = window_after 2000 CbAutoSave (set_current_image (Some hi) s).
Proof.
  intros Ha Hact Hpi. unfold V2.auto_capture.
  by rewrite Ha, Hact, Hpi.
Qed.

(** What a successful [save_image] in automatic mode leaves of the
    camera, the queue and the timers. *)
Lemma V2_save_image_auto (s : App) (img a : ndarray)
    (files : gmap string (list pdf_page)) :
  current_image s = Some img ->
  V2.as_rgb img = Ok a ->
  disk s !! output_dir s = Some files ->
  plain_name (page_name (current_doc_name s) (pages_scanned s + 1)) ->
  auto_mode s = true ->
  capturing (V2.save_image s) = false
  /\ auto_mode (V2.save_image s) = true
  /\ camera_active (V2.save_image s) = camera_active s
  /\ picam2 (V2.save_image s) = picam2 s
  /\ frame_queue (V2.save_image s) = frame_queue s
  /\ after_queue (V2.save_image s) = after_queue s
  /\ clock (V2.save_image s) = clock s.
Proof.
  intros Hc Ha Hdir Hplain Hauto.
  unfold V2.save_image. rewrite Hc. cbn.
  unfold V2.save_as_pdf. rewrite Ha. cbn.
  rewrite V2_page_path_name. cbn.
  unfold write_file. rewrite split_path_dir by done. rewrite Hdir.
  rewrite Hauto. cbn. by rewrite Hauto.
Qed.

(** X23.  A round of automatic mode with the Pi camera.  From a state
    between two captures, one pass of the camera thread arms the canvas
    update and [auto_capture]; the main loop runs them and then
    [auto_save], 2100 ms after the pass.  The round commits exactly one
    page, the frame of the main stream read by [auto_capture], writes
    its page file, and ends in a state between two captures again, so
    the next pass of the camera thread starts the next round. *)
Theorem X23_auto_round_commits_one_page
    (s : App) (lo hi a : ndarray) (read : bool * pyobj) (frame : local)
    (files : gmap string (list pdf_page)) :
  auto_ready s ->
  V2.as_rgb hi = Ok a ->
  disk s !! output_dir s = Some files ->
  plain_name (page_name (current_doc_name s) (pages_scanned s + 1)) ->
  exists s',
    auto_cycle (Ok lo) (Ok hi) read frame s = Some s'
    /\ auto_ready s'
    /\ pages_scanned s' = pages_scanned s + 1
    /\ pages_label s' = pages_scanned s + 1
    /\ captured_images s' = captured_images s ++ [hi]
    /\ disk s'
       = <[output_dir s :=
             <[page_name (current_doc_name s) (pages_scanned s + 1) :=
                 [PageImage a]]> files]> (disk s)
    /\ output_dir s' = output_dir s
    /\ current_doc_name s' = current_doc_name s
    /\ clock s' = clock s + 2100.
Proof.
  intros (Hact & Hpi & Ha & Hc & Hi & Hq & Hafter) Hrgb Hdir Hplain.
  unfold auto_cycle, V2.camera_stream_body, V2.acquire.
  rewrite Hpi. cbn [andb].
  rewrite (V2_deliver_quiet (PyArray lo) s Ha Hc Hq).
  set (s1 := window_after 100 CbAutoCapture _).
  assert (after_queue s1
          = [(clock s + 1, CbUpdateCameraCanvas);
             (clock s + 100, CbAutoCapture)]) as Hq1
    by (cbn; by rewrite Hafter).
  assert (pop_min (after_queue s1)
          = Some ((clock s + 1, CbUpdateCameraCanvas),
                  [(clock s + 100, CbAutoCapture)])) as Hpop1
    by (rewrite Hq1; apply pop_min_pair; cbn; lia).
  assert (auto_mode s1 = true) as Ha1 by done.
  assert (camera_active s1 = true) as Hact1 by done.
  assert (picam2 s1 = true) as Hpi1 by done.
  assert (document s1 = document s) as Hd1 by done.
  assert (clock s1 = clock s) as Hclk1 by done.
  clearbody s1.
  rewrite (V2_fire_timer_next true (Ok hi) s1 _ _ _ Hpop1).
  cbn [V2.run_callback]. rewrite V2_update_camera_canvas_eq.
  set (s2 := set_frame_queue None _).
  assert (pop_min (after_queue s2)
          = Some ((clock s + 100, CbAutoCapture), [])) as Hpop2 by done.
  assert (auto_mode s2 = true) as Ha2 by done.
  assert (camera_active s2 = true) as Hact2 by done.
  assert (picam2 s2 = true) as Hpi2 by done.
  assert (frame_queue s2 = None) as Hq2 by done.
  assert (document s2 = document s) as Hd2 by done.
  assert (clock s2 = clock s + 1) as Hclk2 by (cbn; lia).
  clearbody s2.
  rewrite (V2_fire_timer_next true (Ok hi) s2 _ _ _ Hpop2).
  cbn [V2.run_callback].
  rewrite V2_auto_capture_pi by done.
  set (s3 := window_after 2000 CbAutoSave _).
  assert (pop_min (after_queue s3)
          = Some ((clock s2 `max` (clock s + 100) + 2000, CbAutoSave), []))
    as Hpop3 by done.
  assert (auto_mode s3 = true) as Ha3 by done.
  assert (camera_active s3 = true) as Hact3 by done.
  assert (picam2 s3 = true) as Hpi3 by done.
  assert (frame_queue s3 = None) as Hq3 by done.
  assert (current_image s3 = Some hi) as Hi3 by done.
  assert (document s3 = document s) as Hd3 by done.
  assert (clock s3 = clock s + 100) as Hclk3 by (cbn; lia).
  clearbody s3.
  rewrite (V2_fire_timer_next true (Ok hi) s3 _ _ _ Hpop3).
  cbn [V2.run_callback]. unfold V2.auto_save.
  set (s4 := set_clock _ _).
  assert (auto_mode s4 = true) as Ha4 by done.
  assert (camera_active s4 = true) as Hact4 by done.
  assert (picam2 s4 = true) as Hpi4 by done.
  assert (frame_queue s4 = None) as Hq4 by done.
  assert (after_queue s4 = []) as Hafter4 by done.
  assert (current_image s4 = Some hi) as Hi4 by done.
  assert (document s4 = document s) as Hd4 by done.
  assert (clock s4 = clock s + 2100) as Hclk4 by (cbn; lia).
  clearbody s4. rewrite Hi4.
  unfold document in Hd4.
  injection Hd4 as Hdir4 Hdoc4 Hn4 Himgs4 Hfs4.
  assert (disk s4 !! output_dir s4 = Some files) as Hfiles4
    by (by rewrite Hfs4, Hdir4).
  assert (plain_name
            (page_name (current_doc_name s4) (pages_scanned s4 + 1)))
    as Hplain4 by (by rewrite Hdoc4, Hn4).
  destruct (V2_save_image_writes s4 hi a files Hi4 Hrgb Hfiles4 Hplain4)
    as (Wfs & Wn & Wl & Wimgs & Wi & _ & Wdir & Wdoc).
  destruct (V2_save_image_auto s4 hi a files Hi4 Hrgb Hfiles4 Hplain4 Ha4)
    as (Sc & Sa & Sact & Spi & Sq & Safter & Sclk).
  exists (V2.save_image s4). split; [done|].
  split; [unfold auto_ready; by rewrite Sact, Spi, Sq, Safter|].
  rewrite Wfs, Wn, Wl, Wimgs, Wdir, Wdoc, Sclk.
  by rewrite Hdir4, Hdoc4, Hn4, Himgs4, Hfs4.
Qed.

Lemma X23_witness :
  exists s',
    auto_cycle (Ok frame_low) (Ok frame_high) (false, PyNone) None
      pi_auto_on = Some s'
    /\ auto_ready s'
    /\ pages_scanned s' = 1
    /\ captured_images s' = [frame_high]
    /\ clock s' = 2100.
Proof.
  assert (auto_ready pi_auto_on) as Hready by (by vm_compute).
  assert (disk pi_auto_on !! output_dir pi_auto_on = Some ∅) as Hdir
    by (by vm_compute).
  destruct (X23_auto_round_commits_one_page pi_auto_on frame_low frame_high
              (cvtColor_BGR2RGB frame_high) (false, PyNone) None ∅
              Hready eq_refl Hdir eq_refl)
    as (s' & Hcycle & Hready' & Hn & _ & Himgs & _ & _ & _ & Hclk).
  exists s'.
  exact (conj Hcycle (conj Hready' (conj Hn (conj Himgs Hclk)))).
Defined.
